(** * Whitestones Capital: schema, row security and client flows

    A shallow embedding of the two SQL migration files (the [users]-based
    schema and the [profiles]-based schema), of the row-level-security
    policies they declare, of the [admin_dashboard_summary] view, and of the
    two client handlers [checkAdminAccess] (AdminDashboard.tsx) and
    [handleSignup] (Signup page).

    SQL values are modelled with their NULL ([option]), SQL conditions with
    three truth values, NUMERIC(p,2) columns as an integer number of
    hundredths with the precision bound written out. *)

From Stdlib Require Import ZArith NArith List String Ascii Bool Lia.
Import ListNotations.
Open Scope string_scope.
Open Scope list_scope.
Open Scope Z_scope.

(* ================================================================== *)
(** * Part I: definitions *)
(* ================================================================== *)

(** ** SQL values and three-valued conditions *)

Module Sql.

Definition uuid := N.
Definition text := string.
Definition timestamptz := Z.
Definition date := Z.

(** A column value; [None] is NULL. *)
Definition col (A : Type) := option A.

(** An SQL condition; [None] is unknown. *)
Definition tri := option bool.

Definition TRUE : tri := Some true.
Definition FALSE : tri := Some false.

Definition tri_and (a b : tri) : tri :=
  match a, b with
  | Some false, _ => Some false
  | _, Some false => Some false
  | Some true, Some true => Some true
  | _, _ => None
  end.

Definition tri_or (a b : tri) : tri :=
  match a, b with
  | Some true, _ => Some true
  | _, Some true => Some true
  | Some false, Some false => Some false
  | _, _ => None
  end.

Definition lift_cmp {A} (cmp : A -> A -> bool) (a b : col A) : tri :=
  match a, b with
  | Some x, Some y => Some (cmp x y)
  | _, _ => None
  end.

Definition eq_text : col text -> col text -> tri := lift_cmp String.eqb.
Definition eq_uuid : col uuid -> col uuid -> tri := lift_cmp N.eqb.
Definition eq_bool : col bool -> col bool -> tri := lift_cmp Bool.eqb.
Definition gt_num : col Z -> col Z -> tri := lift_cmp Z.gtb.
Definition ge_num : col Z -> col Z -> tri := lift_cmp Z.geb.

(** [x IN ('a', 'b', ...)] over non-null literals. *)
Definition in_text (a : col text) (l : list text) : tri :=
  match a with
  | None => None
  | Some x => Some (existsb (String.eqb x) l)
  end.

(** [x IS NOT NULL] is never unknown. *)
Definition is_not_null {A} (a : col A) : tri :=
  match a with Some _ => Some true | None => Some false end.

(** [a - b] *)
Definition minus (a b : col Z) : col Z :=
  match a, b with
  | Some x, Some y => Some (x - y)
  | _, _ => None
  end.

(** WHERE, WHEN, USING and WITH CHECK keep a row only when the condition
    is true. *)
Definition holds (t : tri) : bool :=
  match t with Some true => true | _ => false end.

(** A CHECK constraint is violated only when the condition is false. *)
Definition check_ok (t : tri) : bool :=
  match t with Some false => false | _ => true end.

Definition not_null {A} (a : col A) : bool :=
  match a with Some _ => true | None => false end.

(** [CASE WHEN c1 THEN e1 WHEN c2 THEN e2 ... ELSE e END] *)
Fixpoint case_when {A} (branches : list (tri * A)) (els : A) : A :=
  match branches with
  | [] => els
  | (c, e) :: rest => if holds c then e else case_when rest els
  end.

(** NUMERIC(p,2), held as hundredths: at most [p] digits in all.  The
    special value NaN, which a NUMERIC column also takes, is not among the
    values of this model. *)
Definition numeric_fits (p : Z) (v : col Z) : bool :=
  match v with
  | None => true
  | Some x => Z.abs x <? 10 ^ p
  end.

(** [COUNT( * )] *)
Definition count_star {A} (rows : list A) : Z := Z.of_nat (List.length rows).

(** [SUM(x)]: NULL inputs are skipped, the sum of no value is NULL. *)
Fixpoint sum (xs : list (col Z)) : col Z :=
  match xs with
  | [] => None
  | None :: rest => sum rest
  | Some x :: rest =>
      match sum rest with
      | None => Some x
      | Some s => Some (x + s)
      end
  end.

Definition coalesce {A} (a : col A) (d : A) : A :=
  match a with Some x => x | None => d end.

(** The way a statement names the value of a column: [DEFAULT] (also the
    meaning of leaving the column out of an INSERT), or a value. *)
Inductive assign (A : Type) : Type :=
| Dflt
| Val (v : col A).
Arguments Dflt {A}.
Arguments Val {A} v.

Definition resolve {A} (dflt : col A) (a : assign A) : col A :=
  match a with Dflt => dflt | Val v => v end.

(** A column in the SET list of an UPDATE: absent keeps the old value. *)
Definition apply_set {A} (dflt old : col A) (s : option (assign A)) : col A :=
  match s with None => old | Some a => resolve dflt a end.

Inductive error : Type :=
| NotNullViolation (column : string)
| CheckViolation (constraint : string)
| NumericOverflow (column : string)
| GeneratedColumn (column : string)
| RlsViolation.

Inductive result (A : Type) : Type :=
| Ok (a : A)
| Err (e : error).
Arguments Ok {A} a.
Arguments Err {A} e.

Definition bind {A B} (r : result A) (k : A -> result B) : result B :=
  match r with Ok a => k a | Err e => Err e end.

Definition guard (b : bool) (e : error) : result unit :=
  if b then Ok tt else Err e.

(** What the column DEFAULTs [gen_random_uuid()] and [NOW()] yield for
    one statement. *)
Record clock : Type := MkClock { fresh_uuid : uuid; now : timestamptz }.

End Sql.

Import Sql.

Declare Scope sql_scope.
Delimit Scope sql_scope with sql.
Notation "x <- r ;; k" := (Sql.bind r (fun x => k))
  (at level 61, r at next level, right associativity) : sql_scope.
Notation "'check!' b 'else' e ;; k" := (Sql.bind (Sql.guard b e) (fun _ => k))
  (at level 61, b at next level, e at next level, right associativity) : sql_scope.

(** The two migration files. *)
Inductive generation : Type :=
| UsersSchema      (* first file: tables reference public.users *)
| ProfilesSchema.  (* second file: tables reference public.profiles *)

(** ** Rows

    The two files declare the same columns for [users]/[profiles],
    [deposits] and [withdrawals]; they differ in the constraints. *)

Module Tables.

(** public.users / public.profiles *)
Record account : Type := MkAccount {
  acc_id : col uuid;
  acc_full_name : col text;
  acc_email : col text;
  acc_phone : col text;
  acc_role : col text;
  acc_kyc_status : col text;
  acc_account_status : col text;
  acc_created_at : col timestamptz;
  acc_updated_at : col timestamptz
}.

(** public.kyc_verifications / public.kyc_documents *)
Record kyc : Type := MkKyc {
  kyc_id : col uuid;
  kyc_user_id : col uuid;
  kyc_id_type : col text;
  kyc_id_number : col text;
  kyc_full_name : col text;
  kyc_date_of_birth : col date;
  kyc_country : col text;
  kyc_front_id_url : col text;
  kyc_back_id_url : col text;
  kyc_selfie_url : col text;
  kyc_status : col text;
  kyc_rejection_reason : col text;
  kyc_admin_notes : col text;
  kyc_reviewed_by : col uuid;
  kyc_reviewed_at : col timestamptz;
  kyc_created_at : col timestamptz;
  kyc_updated_at : col timestamptz
}.

(** public.withdrawal_accounts; [verification_token] and [verified_at]
    exist in the first file only and stay NULL in the second. *)
Record withdrawal_account : Type := MkWithdrawalAccount {
  wa_id : col uuid;
  wa_user_id : col uuid;
  wa_account_type : col text;
  wa_bank_name : col text;
  wa_account_holder_name : col text;
  wa_account_number : col text;
  wa_routing_number : col text;
  wa_swift_code : col text;
  wa_iban : col text;
  wa_bic : col text;
  wa_bank_country : col text;
  wa_crypto_type : col text;
  wa_crypto_address : col text;
  wa_crypto_network : col text;
  wa_paypal_email : col text;
  wa_is_active : col bool;
  wa_is_verified : col bool;
  wa_verification_token : col text;
  wa_verified_at : col timestamptz;
  wa_created_at : col timestamptz;
  wa_updated_at : col timestamptz
}.

(** public.deposits *)
Record deposit : Type := MkDeposit {
  dep_id : col uuid;
  dep_user_id : col uuid;
  dep_amount : col Z;
  dep_currency : col text;
  dep_payment_method : col text;
  dep_reference_number : col text;
  dep_proof_image_url : col text;
  dep_status : col text;
  dep_rejection_reason : col text;
  dep_admin_notes : col text;
  dep_reviewed_by : col uuid;
  dep_reviewed_at : col timestamptz;
  dep_created_at : col timestamptz;
  dep_updated_at : col timestamptz
}.

(** public.withdrawals *)
Record withdrawal : Type := MkWithdrawal {
  wd_id : col uuid;
  wd_user_id : col uuid;
  wd_withdrawal_account_id : col uuid;
  wd_amount : col Z;
  wd_currency : col text;
  wd_fee : col Z;
  wd_net_amount : col Z;
  wd_status : col text;
  wd_rejection_reason : col text;
  wd_admin_notes : col text;
  wd_reviewed_by : col uuid;
  wd_reviewed_at : col timestamptz;
  wd_transaction_reference : col text;
  wd_requested_at : col timestamptz;
  wd_approved_at : col timestamptz;
  wd_completed_at : col timestamptz;
  wd_updated_at : col timestamptz
}.

(** public.account_balances (second file only) *)
Record account_balance : Type := MkAccountBalance {
  bal_id : col uuid;
  bal_user_id : col uuid;
  bal_main_balance : col Z;
  bal_profit_balance : col Z;
  bal_total_deposited : col Z;
  bal_total_withdrawn : col Z;
  bal_created_at : col timestamptz;
  bal_updated_at : col timestamptz
}.

End Tables.

Import Tables.

(** ** Constraint enforcement *)

(** The constraints of a table, in declaration order, each with the error
    its violation raises and its verdict on the row at hand. *)
Definition verdicts := list (Sql.error * bool).

Fixpoint enforce (cs : verdicts) : result unit :=
  match cs with
  | [] => Ok tt
  | (e, passed) :: rest => if passed then enforce rest else Err e
  end.

(** ** The withdrawals table

    [net_amount NUMERIC(15, 2) GENERATED ALWAYS AS (amount - fee) STORED]:
    a statement may name the column only with DEFAULT, and the engine
    computes the stored value from the row being written.  Key and
    foreign-key constraints, which only reject further statements, are left
    out. *)

Module Withdrawals.

(** The values an INSERT gives, column by column. *)
Record insert_stmt : Type := MkInsert {
  i_id : assign uuid;
  i_user_id : assign uuid;
  i_withdrawal_account_id : assign uuid;
  i_amount : assign Z;
  i_currency : assign text;
  i_fee : assign Z;
  i_net_amount : assign Z;
  i_status : assign text;
  i_rejection_reason : assign text;
  i_admin_notes : assign text;
  i_reviewed_by : assign uuid;
  i_reviewed_at : assign timestamptz;
  i_transaction_reference : assign text;
  i_requested_at : assign timestamptz;
  i_approved_at : assign timestamptz;
  i_completed_at : assign timestamptz;
  i_updated_at : assign timestamptz
}.

(** The SET list of an UPDATE; [None] leaves the column alone. *)
Record set_list : Type := MkSet {
  s_id : option (assign uuid);
  s_user_id : option (assign uuid);
  s_withdrawal_account_id : option (assign uuid);
  s_amount : option (assign Z);
  s_currency : option (assign text);
  s_fee : option (assign Z);
  s_net_amount : option (assign Z);
  s_status : option (assign text);
  s_rejection_reason : option (assign text);
  s_admin_notes : option (assign text);
  s_reviewed_by : option (assign uuid);
  s_reviewed_at : option (assign timestamptz);
  s_transaction_reference : option (assign text);
  s_requested_at : option (assign timestamptz);
  s_approved_at : option (assign timestamptz);
  s_completed_at : option (assign timestamptz);
  s_updated_at : option (assign timestamptz)
}.

Definition status_values : list text :=
  ["pending"; "approved"; "rejected"; "processing"; "completed"; "failed"].

(** Column DEFAULTs (the same in both files); a column without a DEFAULT
    clause defaults to NULL. *)
Definition default_row (c : clock) : withdrawal :=
  {| wd_id := Some (fresh_uuid c);
     wd_user_id := None;
     wd_withdrawal_account_id := None;
     wd_amount := None;
     wd_currency := Some "USD";
     wd_fee := Some 0;
     wd_net_amount := None;
     wd_status := Some "pending";
     wd_rejection_reason := None;
     wd_admin_notes := None;
     wd_reviewed_by := None;
     wd_reviewed_at := None;
     wd_transaction_reference := None;
     wd_requested_at := Some (now c);
     wd_approved_at := None;
     wd_completed_at := None;
     wd_updated_at := Some (now c) |}.

Definition with_net_amount (r : withdrawal) (net : col Z) : withdrawal :=
  {| wd_id := wd_id r;
     wd_user_id := wd_user_id r;
     wd_withdrawal_account_id := wd_withdrawal_account_id r;
     wd_amount := wd_amount r;
     wd_currency := wd_currency r;
     wd_fee := wd_fee r;
     wd_net_amount := net;
     wd_status := wd_status r;
     wd_rejection_reason := wd_rejection_reason r;
     wd_admin_notes := wd_admin_notes r;
     wd_reviewed_by := wd_reviewed_by r;
     wd_reviewed_at := wd_reviewed_at r;
     wd_transaction_reference := wd_transaction_reference r;
     wd_requested_at := wd_requested_at r;
     wd_approved_at := wd_approved_at r;
     wd_completed_at := wd_completed_at r;
     wd_updated_at := wd_updated_at r |}.

(** The row an INSERT proposes, before the generated column is filled. *)
Definition draft_of_insert (c : clock) (s : insert_stmt) : withdrawal :=
  let d := default_row c in
  {| wd_id := resolve (wd_id d) (i_id s);
     wd_user_id := resolve (wd_user_id d) (i_user_id s);
     wd_withdrawal_account_id :=
       resolve (wd_withdrawal_account_id d) (i_withdrawal_account_id s);
     wd_amount := resolve (wd_amount d) (i_amount s);
     wd_currency := resolve (wd_currency d) (i_currency s);
     wd_fee := resolve (wd_fee d) (i_fee s);
     wd_net_amount := None;
     wd_status := resolve (wd_status d) (i_status s);
     wd_rejection_reason := resolve (wd_rejection_reason d) (i_rejection_reason s);
     wd_admin_notes := resolve (wd_admin_notes d) (i_admin_notes s);
     wd_reviewed_by := resolve (wd_reviewed_by d) (i_reviewed_by s);
     wd_reviewed_at := resolve (wd_reviewed_at d) (i_reviewed_at s);
     wd_transaction_reference :=
       resolve (wd_transaction_reference d) (i_transaction_reference s);
     wd_requested_at := resolve (wd_requested_at d) (i_requested_at s);
     wd_approved_at := resolve (wd_approved_at d) (i_approved_at s);
     wd_completed_at := resolve (wd_completed_at d) (i_completed_at s);
     wd_updated_at := resolve (wd_updated_at d) (i_updated_at s) |}.

(** The row an UPDATE proposes for [old]. *)
Definition draft_of_update (c : clock) (old : withdrawal) (s : set_list)
  : withdrawal :=
  let d := default_row c in
  {| wd_id := apply_set (wd_id d) (wd_id old) (s_id s);
     wd_user_id := apply_set (wd_user_id d) (wd_user_id old) (s_user_id s);
     wd_withdrawal_account_id :=
       apply_set (wd_withdrawal_account_id d) (wd_withdrawal_account_id old)
                 (s_withdrawal_account_id s);
     wd_amount := apply_set (wd_amount d) (wd_amount old) (s_amount s);
     wd_currency := apply_set (wd_currency d) (wd_currency old) (s_currency s);
     wd_fee := apply_set (wd_fee d) (wd_fee old) (s_fee s);
     wd_net_amount := wd_net_amount old;
     wd_status := apply_set (wd_status d) (wd_status old) (s_status s);
     wd_rejection_reason :=
       apply_set (wd_rejection_reason d) (wd_rejection_reason old)
                 (s_rejection_reason s);
     wd_admin_notes :=
       apply_set (wd_admin_notes d) (wd_admin_notes old) (s_admin_notes s);
     wd_reviewed_by :=
       apply_set (wd_reviewed_by d) (wd_reviewed_by old) (s_reviewed_by s);
     wd_reviewed_at :=
       apply_set (wd_reviewed_at d) (wd_reviewed_at old) (s_reviewed_at s);
     wd_transaction_reference :=
       apply_set (wd_transaction_reference d) (wd_transaction_reference old)
                 (s_transaction_reference s);
     wd_requested_at :=
       apply_set (wd_requested_at d) (wd_requested_at old) (s_requested_at s);
     wd_approved_at :=
       apply_set (wd_approved_at d) (wd_approved_at old) (s_approved_at s);
     wd_completed_at :=
       apply_set (wd_completed_at d) (wd_completed_at old) (s_completed_at s);
     wd_updated_at :=
       apply_set (wd_updated_at d) (wd_updated_at old) (s_updated_at s) |}.

(** NOT NULL and CHECK constraints of each file, in column order. *)
Definition constraints (g : generation) (r : withdrawal) : verdicts :=
  match g with
  | UsersSchema =>
      [ (NotNullViolation "id", not_null (wd_id r));
        (NotNullViolation "user_id", not_null (wd_user_id r));
        (NotNullViolation "withdrawal_account_id",
           not_null (wd_withdrawal_account_id r));
        (NotNullViolation "amount", not_null (wd_amount r));
        (CheckViolation "withdrawals_amount_check",
           check_ok (gt_num (wd_amount r) (Some 0)));
        (NotNullViolation "currency", not_null (wd_currency r));
        (CheckViolation "withdrawals_fee_check",
           check_ok (ge_num (wd_fee r) (Some 0)));
        (NotNullViolation "status", not_null (wd_status r));
        (CheckViolation "withdrawals_status_check",
           check_ok (in_text (wd_status r) status_values)) ]
  | ProfilesSchema =>
      [ (NotNullViolation "id", not_null (wd_id r));
        (NotNullViolation "user_id", not_null (wd_user_id r));
        (NotNullViolation "amount", not_null (wd_amount r));
        (CheckViolation "withdrawals_amount_check",
           check_ok (gt_num (wd_amount r) (Some 0)));
        (CheckViolation "withdrawals_status_check",
           check_ok (in_text (wd_status r) status_values)) ]
  end.

(** Writing a proposed row: the NUMERIC columns must fit their precision
    ([amount] and [net_amount] 15 digits, [fee] 10), the generated column
    is computed from the row, then the constraints are enforced. *)
Definition store (g : generation) (draft : withdrawal) : result withdrawal :=
  (check! numeric_fits 15 (wd_amount draft) else NumericOverflow "amount" ;;
   check! numeric_fits 10 (wd_fee draft) else NumericOverflow "fee" ;;
   let net := minus (wd_amount draft) (wd_fee draft) in
   check! numeric_fits 15 net else NumericOverflow "net_amount" ;;
   let r := with_net_amount draft net in
   _ <- enforce (constraints g r) ;;
   Ok r)%sql.

Definition insert_row (g : generation) (c : clock) (s : insert_stmt)
  : result withdrawal :=
  match i_net_amount s with
  | Val _ => Err (GeneratedColumn "net_amount")
  | Dflt => store g (draft_of_insert c s)
  end.

Definition update_row (g : generation) (c : clock) (old : withdrawal)
                      (s : set_list) : result withdrawal :=
  match s_net_amount s with
  | Some (Val _) => Err (GeneratedColumn "net_amount")
  | _ => store g (draft_of_update c old s)
  end.

(** Statements against the table.  The SET list of an UPDATE may depend
    on the row it rewrites ([SET fee = fee + 1]). *)
Inductive statement : Type :=
| INSERT (c : clock) (s : insert_stmt)
| UPDATE (c : clock) (where_ : withdrawal -> bool) (set_ : withdrawal -> set_list)
| DELETE (where_ : withdrawal -> bool).

Fixpoint update_rows (g : generation) (c : clock) (where_ : withdrawal -> bool)
         (set_ : withdrawal -> set_list) (t : list withdrawal)
  : result (list withdrawal) :=
  match t with
  | [] => Ok []
  | r :: rest =>
      (r' <- (if where_ r then update_row g c r (set_ r) else Ok r) ;;
       rest' <- update_rows g c where_ set_ rest ;;
       Ok (r' :: rest'))%sql
  end.

Definition exec (g : generation) (t : list withdrawal) (st : statement)
  : result (list withdrawal) :=
  match st with
  | INSERT c s => (r <- insert_row g c s ;; Ok (t ++ [r]))%sql
  | UPDATE c where_ set_ => update_rows g c where_ set_ t
  | DELETE where_ => Ok (filter (fun r => negb (where_ r)) t)
  end.

(** A statement that raises an error leaves the table as it was. *)
Definition step (g : generation) (t : list withdrawal) (st : statement)
  : list withdrawal :=
  match exec g t st with Ok t' => t' | Err _ => t end.

Definition run (g : generation) (script : list statement) : list withdrawal :=
  fold_left (step g) script [].

(** [net_amount] holds the value of [amount - fee] (NULL when [fee] is). *)
Definition net_amount_derived (r : withdrawal) : Prop :=
  wd_net_amount r = minus (wd_amount r) (wd_fee r).

End Withdrawals.

(** ** The deposits table *)

Module Deposits.

Definition currency_values : list text :=
  ["USD"; "EUR"; "GBP"; "JPY"; "CAD"; "AUD"; "CHF"].
Definition payment_method_values : list text :=
  ["bank_transfer"; "credit_card"; "crypto"; "wire"].
Definition status_values : list text :=
  ["pending"; "under_review"; "approved"; "rejected"; "completed"].

Definition constraints (g : generation) (r : deposit) : verdicts :=
  match g with
  | UsersSchema =>
      [ (NotNullViolation "id", not_null (dep_id r));
        (NotNullViolation "user_id", not_null (dep_user_id r));
        (NotNullViolation "amount", not_null (dep_amount r));
        (CheckViolation "deposits_amount_check",
           check_ok (gt_num (dep_amount r) (Some 0)));
        (NotNullViolation "currency", not_null (dep_currency r));
        (CheckViolation "deposits_currency_check",
           check_ok (in_text (dep_currency r) currency_values));
        (NotNullViolation "payment_method", not_null (dep_payment_method r));
        (CheckViolation "deposits_payment_method_check",
           check_ok (in_text (dep_payment_method r) payment_method_values));
        (NotNullViolation "status", not_null (dep_status r));
        (CheckViolation "deposits_status_check",
           check_ok (in_text (dep_status r) status_values)) ]
  | ProfilesSchema =>
      [ (NotNullViolation "id", not_null (dep_id r));
        (NotNullViolation "user_id", not_null (dep_user_id r));
        (NotNullViolation "amount", not_null (dep_amount r));
        (CheckViolation "deposits_amount_check",
           check_ok (gt_num (dep_amount r) (Some 0)));
        (CheckViolation "deposits_status_check",
           check_ok (in_text (dep_status r) status_values)) ]
  end.

(** Writing a row (by INSERT or UPDATE), defaults already applied. *)
Definition store (g : generation) (r : deposit) : result deposit :=
  (check! numeric_fits 15 (dep_amount r) else NumericOverflow "amount" ;;
   _ <- enforce (constraints g r) ;;
   Ok r)%sql.

End Deposits.

(** ** The account_balances table (second file) *)

Module AccountBalances.

Definition constraints (r : account_balance) : verdicts :=
  [ (NotNullViolation "id", not_null (bal_id r));
    (NotNullViolation "user_id", not_null (bal_user_id r));
    (CheckViolation "account_balances_main_balance_check",
       check_ok (ge_num (bal_main_balance r) (Some 0)));
    (CheckViolation "account_balances_profit_balance_check",
       check_ok (ge_num (bal_profit_balance r) (Some 0)));
    (CheckViolation "account_balances_total_deposited_check",
       check_ok (ge_num (bal_total_deposited r) (Some 0)));
    (CheckViolation "account_balances_total_withdrawn_check",
       check_ok (ge_num (bal_total_withdrawn r) (Some 0))) ].

Definition store (r : account_balance) : result account_balance :=
  (check! numeric_fits 15 (bal_main_balance r)
     else NumericOverflow "main_balance" ;;
   check! numeric_fits 15 (bal_profit_balance r)
     else NumericOverflow "profit_balance" ;;
   check! numeric_fits 15 (bal_total_deposited r)
     else NumericOverflow "total_deposited" ;;
   check! numeric_fits 15 (bal_total_withdrawn r)
     else NumericOverflow "total_withdrawn" ;;
   _ <- enforce (constraints r) ;;
   Ok r)%sql.

End AccountBalances.

(** ** The withdrawal_accounts table *)

Module WithdrawalAccounts.

Definition account_type_values : list text := ["bank"; "crypto"; "paypal"].
Definition crypto_type_values : list text :=
  ["bitcoin"; "ethereum"; "litecoin"; "ripple"; "solana"; "usdc"; "tether"].

(** The table-level CHECK:
<<
  CASE
    WHEN account_type = 'bank' THEN account_number IS NOT NULL
                                    AND account_holder_name IS NOT NULL
    WHEN account_type = 'crypto' THEN crypto_address IS NOT NULL
                                      AND crypto_type IS NOT NULL
    WHEN account_type = 'paypal' THEN paypal_email IS NOT NULL
    ELSE FALSE
  END
>> *)
Definition type_fields (r : withdrawal_account) : tri :=
  case_when
    [ (eq_text (wa_account_type r) (Some "bank"),
         tri_and (is_not_null (wa_account_number r))
                 (is_not_null (wa_account_holder_name r)));
      (eq_text (wa_account_type r) (Some "crypto"),
         tri_and (is_not_null (wa_crypto_address r))
                 (is_not_null (wa_crypto_type r)));
      (eq_text (wa_account_type r) (Some "paypal"),
         is_not_null (wa_paypal_email r)) ]
    FALSE.

(** Both files declare the same constraints on this table. *)
Definition constraints (g : generation) (r : withdrawal_account) : verdicts :=
  [ (NotNullViolation "id", not_null (wa_id r));
    (NotNullViolation "user_id", not_null (wa_user_id r));
    (NotNullViolation "account_type", not_null (wa_account_type r));
    (CheckViolation "withdrawal_accounts_account_type_check",
       check_ok (in_text (wa_account_type r) account_type_values));
    (CheckViolation "withdrawal_accounts_crypto_type_check",
       check_ok (in_text (wa_crypto_type r) crypto_type_values));
    (CheckViolation "withdrawal_accounts_check", check_ok (type_fields r)) ].

(** An attempted row is stored or the statement fails. *)
Definition store (g : generation) (r : withdrawal_account)
  : result withdrawal_account :=
  (_ <- enforce (constraints g r) ;; Ok r)%sql.

Definition rejected (g : generation) (r : withdrawal_account) : Prop :=
  exists e, store g r = Err e.

End WithdrawalAccounts.

(** ** The users / profiles table *)

Module Accounts.

Definition role_values : list text := ["user"; "admin"; "support"].
Definition kyc_status_values : list text :=
  ["pending"; "approved"; "rejected"; "under_review"].
Definition account_status_values : list text :=
  ["active"; "suspended"; "closed"].

Definition constraints (g : generation) (r : account) : verdicts :=
  match g with
  | UsersSchema =>
      [ (NotNullViolation "id", not_null (acc_id r));
        (NotNullViolation "full_name", not_null (acc_full_name r));
        (NotNullViolation "email", not_null (acc_email r));
        (NotNullViolation "role", not_null (acc_role r));
        (CheckViolation "users_role_check",
           check_ok (in_text (acc_role r) role_values));
        (CheckViolation "users_kyc_status_check",
           check_ok (in_text (acc_kyc_status r) kyc_status_values));
        (CheckViolation "users_account_status_check",
           check_ok (in_text (acc_account_status r) account_status_values)) ]
  | ProfilesSchema =>
      [ (NotNullViolation "id", not_null (acc_id r));
        (NotNullViolation "email", not_null (acc_email r));
        (CheckViolation "profiles_role_check",
           check_ok (in_text (acc_role r) role_values));
        (CheckViolation "profiles_kyc_status_check",
           check_ok (in_text (acc_kyc_status r) kyc_status_values));
        (CheckViolation "profiles_account_status_check",
           check_ok (in_text (acc_account_status r) account_status_values)) ]
  end.

Definition store (g : generation) (r : account) : result account :=
  (_ <- enforce (constraints g r) ;; Ok r)%sql.

End Accounts.

(** ** Row-level security

    Every table below has [ENABLE ROW LEVEL SECURITY].  All policies are
    permissive and [TO authenticated]: for a command, the conditions of the
    policies declared [FOR] that command are OR-ed, and a command with no
    policy is denied.  [auth.uid()] is the caller's identity.

    A statement is first rewritten: the policies of its table are added to
    it, and a subquery inside a policy is itself a query on a table with row
    security, so that table's SELECT policies are added to the subquery in
    turn.  The rewriter stops with the error 42P17, "infinite recursion
    detected in policy for relation", when it meets a table whose policies
    it is already expanding.  Only a statement that has been rewritten is
    run, and only then are policy conditions evaluated on rows. *)

Module Rls.

Inductive command : Type := ForSelect | ForInsert | ForUpdate | ForDelete.

Definition command_eqb (a b : command) : bool :=
  match a, b with
  | ForSelect, ForSelect | ForInsert, ForInsert
  | ForUpdate, ForUpdate | ForDelete, ForDelete => true
  | _, _ => false
  end.

(** The tables with row security.  [AccountsRel] is public.users in the
    first file and public.profiles in the second, [KycRel] is
    kyc_verifications / kyc_documents. *)
Inductive relation : Type :=
| AccountsRel
| KycRel
| WithdrawalAccountsRel
| DepositsRel
| WithdrawalsRel
| AccountBalancesRel
| PaymentMethodsRel
| ActivityLogsRel
| TransactionsRel
| AdminLogsRel.

Definition relation_eqb (a b : relation) : bool :=
  match a, b with
  | AccountsRel, AccountsRel | KycRel, KycRel
  | WithdrawalAccountsRel, WithdrawalAccountsRel
  | DepositsRel, DepositsRel | WithdrawalsRel, WithdrawalsRel
  | AccountBalancesRel, AccountBalancesRel
  | PaymentMethodsRel, PaymentMethodsRel
  | ActivityLogsRel, ActivityLogsRel
  | TransactionsRel, TransactionsRel | AdminLogsRel, AdminLogsRel => true
  | _, _ => false
  end.

(** The value of a policy condition on a row, for a statement that has
    been rewritten.  Its first argument is what the condition's subquery
    on users/profiles reads: the rows of that table which the table's own
    SELECT policies let the caller see. *)
Definition condition (R : Type) := list account -> uuid -> R -> tri.

(** [pol_subqueries] lists the tables that the subqueries of the policy's
    USING and WITH CHECK expressions select from. *)
Record policy (R : Type) : Type := MkPolicy {
  pol_name : string;
  pol_cmd : command;
  pol_using : option (condition R);
  pol_with_check : option (condition R);
  pol_subqueries : list relation
}.
Arguments MkPolicy {R}.
Arguments pol_name {R}.
Arguments pol_cmd {R}.
Arguments pol_using {R}.
Arguments pol_with_check {R}.
Arguments pol_subqueries {R}.

Section Evaluation.
Context {R : Type}.
Variable policies : list (policy R).
Variable accounts : list account.
Variable uid : uuid.

Definition using_of (p : policy R) : condition R :=
  match pol_using p with Some e => e | None => fun _ _ _ => TRUE end.

(** An UPDATE policy without WITH CHECK checks the new row with USING. *)
Definition with_check_of (p : policy R) : condition R :=
  match pol_with_check p with Some e => e | None => using_of p end.

Definition passes_using (c : command) (r : R) : bool :=
  existsb (fun p => command_eqb (pol_cmd p) c
                    && holds (using_of p accounts uid r)) policies.

Definition passes_with_check (c : command) (r : R) : bool :=
  existsb (fun p => command_eqb (pol_cmd p) c
                    && holds (with_check_of p accounts uid r)) policies.

(** Whether an INSERT of [r] by the caller passes; otherwise the
    statement fails with a row-security violation. *)
Definition insert_permitted (r : R) : bool :=
  passes_with_check ForInsert r.

End Evaluation.

(** Whether the rows [accounts] hold a row with the caller's id and the
    role 'admin'. *)
Definition is_admin (accounts : list account) (uid : uuid) : bool :=
  existsb
    (fun a => holds (tri_and (eq_uuid (acc_id a) (Some uid))
                             (eq_text (acc_role a) (Some "admin"))))
    accounts.

(** [EXISTS (SELECT 1 FROM public.users WHERE id = auth.uid() AND role = 'admin')]
    (public.profiles in the second file), over the rows the subquery
    reads. *)
Definition exists_admin (readable : list account) (uid : uuid) : tri :=
  Some (is_admin readable uid).

(** A scalar subquery: NULL for no row, the value for one row; more than
    one row is a run-time error ([None]). *)
Definition scalar {A} (rows : list (col A)) : option (col A) :=
  match rows with
  | [] => Some None
  | [v] => Some v
  | _ => None
  end.

(** [(SELECT role FROM public.users WHERE id = auth.uid())], over the rows
    the subquery reads. *)
Definition own_role (readable : list account) (uid : uuid) : option (col text) :=
  scalar (map acc_role
            (filter (fun a => holds (eq_uuid (acc_id a) (Some uid))) readable)).

Definition admin_only {R} : condition R :=
  fun readable uid _ => exists_admin readable uid.

(** *** Policies on users / profiles *)

Definition users_read_own : policy account :=
  MkPolicy "users_read_own" ForSelect
    (Some (fun _ uid r => eq_uuid (Some uid) (acc_id r))) None [].

Definition admins_read_all_users : policy account :=
  MkPolicy "admins_read_all_users" ForSelect (Some admin_only) None
    [AccountsRel].

(** "Users can update their own name and phone":
    [USING (auth.uid() = id)
     WITH CHECK (auth.uid() = id AND role = (SELECT role FROM public.users
                                             WHERE id = auth.uid()))].
    The subquery reads the table as it is before the statement; an error
    in it fails the statement, so the new row is not written. *)
Definition users_update_own : policy account :=
  MkPolicy "users_update_own" ForUpdate
    (Some (fun _ uid r => eq_uuid (Some uid) (acc_id r)))
    (Some (fun readable uid r =>
             match own_role readable uid with
             | Some role =>
                 tri_and (eq_uuid (Some uid) (acc_id r))
                         (eq_text (acc_role r) role)
             | None => FALSE
             end)) [AccountsRel].

Definition users_read_own_profile : policy account :=
  MkPolicy "users_read_own_profile" ForSelect
    (Some (fun _ uid r => eq_uuid (Some uid) (acc_id r))) None [].

Definition admins_read_all_profiles : policy account :=
  MkPolicy "admins_read_all_profiles" ForSelect (Some admin_only) None
    [AccountsRel].

Definition account_policies (g : generation) : list (policy account) :=
  match g with
  | UsersSchema => [users_read_own; admins_read_all_users; users_update_own]
  | ProfilesSchema => [users_read_own_profile; admins_read_all_profiles]
  end.

(** *** Policies on kyc_verifications / kyc_documents *)

Definition users_read_own_kyc : policy kyc :=
  MkPolicy "users_read_own_kyc" ForSelect
    (Some (fun _ uid r => eq_uuid (Some uid) (kyc_user_id r))) None [].

Definition admins_read_all_kyc : policy kyc :=
  MkPolicy "admins_read_all_kyc" ForSelect (Some admin_only) None [AccountsRel].

Definition users_insert_own_kyc : policy kyc :=
  MkPolicy "users_insert_own_kyc" ForInsert None
    (Some (fun _ uid r => eq_uuid (Some uid) (kyc_user_id r))) [].

(** "Users can update their own KYC (status: pending only)" *)
Definition users_update_own_kyc : policy kyc :=
  MkPolicy "users_update_own_kyc" ForUpdate
    (Some (fun _ uid r => tri_and (eq_uuid (Some uid) (kyc_user_id r))
                                  (eq_text (kyc_status r) (Some "pending"))))
    (Some (fun _ uid r => eq_uuid (Some uid) (kyc_user_id r))) [].

Definition admins_update_kyc : policy kyc :=
  MkPolicy "admins_update_kyc" ForUpdate (Some admin_only) (Some admin_only)
    [AccountsRel].

Definition users_insert_kyc : policy kyc :=
  MkPolicy "users_insert_kyc" ForInsert None
    (Some (fun _ uid r => eq_uuid (Some uid) (kyc_user_id r))) [].

Definition users_update_kyc : policy kyc :=
  MkPolicy "users_update_kyc" ForUpdate
    (Some (fun _ uid r => eq_uuid (Some uid) (kyc_user_id r)))
    (Some (fun _ uid r => eq_uuid (Some uid) (kyc_user_id r))) [].

Definition kyc_policies (g : generation) : list (policy kyc) :=
  match g with
  | UsersSchema =>
      [users_read_own_kyc; admins_read_all_kyc; users_insert_own_kyc;
       users_update_own_kyc; admins_update_kyc]
  | ProfilesSchema =>
      [users_read_own_kyc; admins_read_all_kyc; users_insert_kyc;
       users_update_kyc]
  end.

(** *** Policies on deposits *)

Definition users_read_own_deposits : policy deposit :=
  MkPolicy "users_read_own_deposits" ForSelect
    (Some (fun _ uid r => eq_uuid (Some uid) (dep_user_id r))) None [].

Definition admins_read_all_deposits : policy deposit :=
  MkPolicy "admins_read_all_deposits" ForSelect (Some admin_only) None
    [AccountsRel].

(** [WITH CHECK (auth.uid() = user_id AND status = 'pending')] *)
Definition users_insert_own_deposits : policy deposit :=
  MkPolicy "users_insert_own_deposits" ForInsert None
    (Some (fun _ uid r => tri_and (eq_uuid (Some uid) (dep_user_id r))
                                  (eq_text (dep_status r) (Some "pending")))) [].

Definition admins_update_deposits : policy deposit :=
  MkPolicy "admins_update_deposits" ForUpdate (Some admin_only) (Some admin_only)
    [AccountsRel].

Definition deposit_policies (g : generation) : list (policy deposit) :=
  match g with
  | UsersSchema =>
      [users_read_own_deposits; admins_read_all_deposits;
       users_insert_own_deposits; admins_update_deposits]
  | ProfilesSchema =>
      [users_read_own_deposits; admins_read_all_deposits]
  end.

(** *** Policies on withdrawals (the second file declares none) *)

Definition users_read_own_withdrawals : policy withdrawal :=
  MkPolicy "users_read_own_withdrawals" ForSelect
    (Some (fun _ uid r => eq_uuid (Some uid) (wd_user_id r))) None [].

Definition admins_read_all_withdrawals : policy withdrawal :=
  MkPolicy "admins_read_all_withdrawals" ForSelect (Some admin_only) None
    [AccountsRel].

(** [WITH CHECK (auth.uid() = user_id AND status = 'pending')] *)
Definition users_insert_own_withdrawals : policy withdrawal :=
  MkPolicy "users_insert_own_withdrawals" ForInsert None
    (Some (fun _ uid r => tri_and (eq_uuid (Some uid) (wd_user_id r))
                                  (eq_text (wd_status r) (Some "pending")))) [].

Definition admins_update_withdrawals : policy withdrawal :=
  MkPolicy "admins_update_withdrawals" ForUpdate
    (Some admin_only) (Some admin_only) [AccountsRel].

Definition withdrawal_policies (g : generation) : list (policy withdrawal) :=
  match g with
  | UsersSchema =>
      [users_read_own_withdrawals; admins_read_all_withdrawals;
       users_insert_own_withdrawals; admins_update_withdrawals]
  | ProfilesSchema => []
  end.

End Rls.

(** ** The dashboard summary view (first file) *)

Module View.

Record database : Type := MkDatabase {
  users : list account;
  kyc_verifications : list kyc;
  deposits : list deposit;
  withdrawals : list withdrawal
}.

Record admin_dashboard_summary_row : Type := MkSummary {
  total_users : Z;
  kyc_approved_users : Z;
  pending_kyc : Z;
  pending_deposits : Z;
  pending_withdrawals : Z;
  total_deposits : Z;
  total_withdrawals : Z
}.

(** [FROM t WHERE cond] *)
Definition from_where {A} (t : list A) (cond : A -> tri) : list A :=
  filter (fun r => holds (cond r)) t.

(** Seven uncorrelated scalar subqueries, computed on each read.  The view
    reads the tables with its owner's rights, so the caller's row
    security does not filter them. *)
Definition admin_dashboard_summary (db : database) : admin_dashboard_summary_row :=
  {| total_users :=
       count_star (from_where (users db)
                     (fun u => eq_text (acc_role u) (Some "user")));
     kyc_approved_users :=
       count_star (from_where (users db)
                     (fun u => eq_text (acc_kyc_status u) (Some "approved")));
     pending_kyc :=
       count_star (from_where (kyc_verifications db)
                     (fun k => eq_text (kyc_status k) (Some "pending")));
     pending_deposits :=
       count_star (from_where (deposits db)
                     (fun d => eq_text (dep_status d) (Some "pending")));
     pending_withdrawals :=
       count_star (from_where (withdrawals db)
                     (fun w => eq_text (wd_status w) (Some "pending")));
     total_deposits :=
       coalesce (sum (map dep_amount
                        (from_where (deposits db)
                           (fun d => eq_text (dep_status d) (Some "completed")))))
                0;
     total_withdrawals :=
       coalesce (sum (map wd_amount
                        (from_where (withdrawals db)
                           (fun w => eq_text (wd_status w) (Some "completed")))))
                0 |}.

(** Specification side: the number of deposit rows whose status is
    ['pending'], counted row by row. *)
Fixpoint number_of_pending_deposits (t : list deposit) : Z :=
  match t with
  | [] => 0
  | d :: rest =>
      match dep_status d with
      | Some s => if string_dec s "pending"
                  then 1 + number_of_pending_deposits rest
                  else number_of_pending_deposits rest
      | None => number_of_pending_deposits rest
      end
  end.

End View.

(** ** Client handlers: control flow of an async function

    A handler is run against the outcomes of the remote calls it awaits and
    yields the sequence of effects it performs (calls made, React state
    setters, toasts, navigation, console output), together with the way its
    body completes. *)

Module Js.

(** A thrown value; [message] is [None] when the property is undefined. *)
Record js_error : Type := MkError { message : option string }.

(** What an awaited promise does. *)
Inductive outcome (A : Type) : Type :=
| Resolved (a : A)
| Rejected (e : js_error).
Arguments Resolved {A} a.
Arguments Rejected {A} e.

(** The [{ data, error }] object the backend client resolves with. *)
Record response (A : Type) : Type := MkResponse {
  data : option A;
  error : option js_error
}.
Arguments MkResponse {A}.
Arguments data {A}.
Arguments error {A}.

Inductive completion (A : Type) : Type :=
| Normal (a : A)
| Throw (e : js_error)
| Return.                 (* [return;] *)
Arguments Normal {A} a.
Arguments Throw {A} e.
Arguments Return {A}.

Definition Eff (E A : Type) : Type := (list E * completion A)%type.

Section Monad.
Context {E : Type}.

Definition ret {A} (a : A) : Eff E A := ([], Normal a).

Definition bind {A B} (m : Eff E A) (k : A -> Eff E B) : Eff E B :=
  match m with
  | (tr, Normal a) => let (tr', c) := k a in (tr ++ tr', c)
  | (tr, Throw e) => (tr, Throw e)
  | (tr, Return) => (tr, Return)
  end.

(** An effect that cannot fail. *)
Definition emit (e : E) : Eff E unit := ([e], Normal tt).

Definition throw {A} (e : js_error) : Eff E A := ([], Throw e).

Definition return_ {A} : Eff E A := ([], Return).

(** [await call]: the call is made; a rejection is thrown. *)
Definition await {A} (call : E) (o : outcome A) : Eff E A :=
  ([call], match o with Resolved a => Normal a | Rejected e => Throw e end).

(** [try { body } catch (e) { handler }] *)
Definition try_catch {A} (body : Eff E A) (handler : js_error -> Eff E A)
  : Eff E A :=
  match body with
  | (tr, Throw e) => let (tr', c) := handler e in (tr ++ tr', c)
  | other => other
  end.

(** [try { body } finally { finalizer }]: the finalizer runs however the
    body completes, and the body's completion stands unless the
    finalizer itself completes abruptly. *)
Definition try_finally {A} (body : Eff E A) (finalizer : Eff E unit)
  : Eff E A :=
  let (tr, c) := body in
  match finalizer with
  | (tr', Normal _) => (tr ++ tr', c)
  | (tr', Throw e) => (tr ++ tr', Throw e)
  | (tr', Return) => (tr ++ tr', Return)
  end.

(** The call of an async function: its effects and its promise. *)
Definition async (body : Eff E unit) : list E * outcome unit :=
  match body with
  | (tr, Throw e) => (tr, Rejected e)
  | (tr, _) => (tr, Resolved tt)
  end.

End Monad.

(** A string value, as its UTF-16 code units. *)
Definition jsstring := list N.

Definition truthy_string (s : jsstring) : bool :=
  match s with [] => false | _ => true end.

(** WhiteSpace and LineTerminator code points, which [trim] strips. *)
Definition is_white_space (c : N) : bool :=
  ((9 <=? c) && (c <=? 13) || (c =? 32) || (c =? 160) || (c =? 5760)
   || (8192 <=? c) && (c <=? 8202) || (c =? 8232) || (c =? 8233)
   || (c =? 8239) || (c =? 8287) || (c =? 12288) || (c =? 65279))%N.

Fixpoint trimStart (s : jsstring) : jsstring :=
  match s with
  | [] => []
  | c :: rest => if is_white_space c then trimStart rest else s
  end.

Definition trimEnd (s : jsstring) : jsstring := rev (trimStart (rev s)).

Definition trim (s : jsstring) : jsstring := trimEnd (trimStart s).

(** [msg || fallback] on a possibly undefined string. *)
Definition or_else (msg : option string) (fallback : string) : string :=
  match msg with
  | None => fallback
  | Some "" => fallback
  | Some m => m
  end.

End Js.

Import Js.

Declare Scope js_scope.
Delimit Scope js_scope with js.
Notation "x <- m ;; k" := (Js.bind m (fun x => k))
  (at level 61, m at next level, right associativity) : js_scope.
Notation "m ;; k" := (Js.bind m (fun _ => k))
  (at level 61, right associativity) : js_scope.

(** ** AdminDashboard.tsx *)

Module AdminDashboard.

(** The user object of the auth session. *)
Record auth_user : Type := MkUser { id : jsstring; email : option jsstring }.

Inductive event : Type :=
| AuthGetUser                                   (* supabase.auth.getUser() *)
| SetUser (u : auth_user)
| RpcHasRole (_user_id : jsstring) (_role : string)  (* supabase.rpc('has_role', ...) *)
| ToastError (msg : string)
| AuthSignOut                                   (* supabase.auth.signOut() *)
| Navigate (path : string)
| SetIsAdmin (b : bool)
| FetchStats                                    (* fetchStats() *)
| ConsoleError (label : string) (e : js_error)
| SetLoading (b : bool).

(** The outcomes of the remote calls of one load.  [has_role] resolves
    with [{ data }], [data] being the boolean the function returns, or
    null. *)
Record backend : Type := MkBackend {
  getUser : outcome (option auth_user);
  has_role : jsstring -> string -> outcome (option bool);
  signOut : outcome unit
}.

(** [!roleData] is false only for [true]. *)
Definition truthy (roleData : option bool) : bool :=
  match roleData with Some true => true | _ => false end.

Definition checkAdminAccess (b : backend) : list event * outcome unit :=
  async
    (try_finally
       (try_catch
          (user <- await AuthGetUser (getUser b) ;;
           match user with
           | None =>
               emit (Navigate "/admin/login") ;;
               return_
           | Some user =>
               emit (SetUser user) ;;
               roleData <- await (RpcHasRole (id user) "admin")
                                 (has_role b (id user) "admin") ;;
               if negb (truthy roleData) then
                 emit (ToastError "Unauthorized: Admin access required") ;;
                 await AuthSignOut (signOut b) ;;
                 emit (Navigate "/admin/login") ;;
                 return_
               else
                 emit (SetIsAdmin true) ;;
                 emit FetchStats
           end)
          (fun error =>
             emit (ConsoleError "Auth error:" error) ;;
             emit (Navigate "/admin/login")))
       (emit (SetLoading false)))%js.

(** The component state the handler writes, and what is rendered. *)
Record state : Type := MkState {
  user : option auth_user;
  isAdmin : bool;
  loading : bool
}.

Definition initial : state :=
  {| user := None; isAdmin := false; loading := true |}.

Definition apply_event (s : state) (e : event) : state :=
  match e with
  | SetUser u => {| user := Some u; isAdmin := isAdmin s; loading := loading s |}
  | SetIsAdmin v => {| user := user s; isAdmin := v; loading := loading s |}
  | SetLoading v => {| user := user s; isAdmin := isAdmin s; loading := v |}
  | _ => s
  end.

Inductive screen : Type :=
| LoadingScreen
| AccessDenied
| AdminContent.

Definition render (s : state) : screen :=
  if loading s then LoadingScreen
  else if negb (isAdmin s) then AccessDenied
  else AdminContent.

(** The effect run on mount: [useEffect(() => { checkAdminAccess(); }, [])]. *)
Definition trace_of_load (b : backend) : list event := fst (checkAdminAccess b).

Definition state_after_load (b : backend) : state :=
  fold_left apply_event (trace_of_load b) initial.

(** The role check was made and resolved with a value that confirms the
    admin role. *)
Definition role_confirmed (b : backend) : Prop :=
  exists u, getUser b = Resolved (Some u)
            /\ has_role b (id u) "admin" = Resolved (Some true).

(** The role check was made and resolved without confirming the role. *)
Definition role_denied (b : backend) : Prop :=
  exists u roleData, getUser b = Resolved (Some u)
            /\ has_role b (id u) "admin" = Resolved roleData
            /\ roleData <> Some true.

(** The role check did not come to an answer: nobody is signed in, or
    getUser or has_role rejects. *)
Definition role_unanswered (b : backend) : Prop :=
  getUser b = Resolved None
  \/ (exists e, getUser b = Rejected e)
  \/ (exists u e, getUser b = Resolved (Some u)
                  /\ has_role b (id u) "admin" = Rejected e).

(** [e1] occurs in the trace, and [e2] occurs later. *)
Definition then_later (e1 e2 : event) (tr : list event) : Prop :=
  exists pre mid post, tr = pre ++ e1 :: mid ++ e2 :: post.

End AdminDashboard.

(** ** The signup page *)

Module Signup.

(** The form state when the handler runs. *)
Record form : Type := MkForm {
  fullName : jsstring;
  email : jsstring;
  password : jsstring;
  phone : jsstring;
  dob : jsstring;
  country : jsstring;
  referralCode : jsstring;
  agreedToTerms : bool
}.

(** [{ data: { user }, error }] of [supabase.auth.signUp]; the user is
    given by its id. *)
Record signup_result : Type := MkSignup {
  data_user : option jsstring;
  signup_error : option js_error
}.

(** The row [select('user_id')] returns for the referrer. *)
Record referrer_row : Type := MkReferrer { user_id : jsstring }.

Inductive event : Type :=
| PreventDefault
| ToastError (msg : string)
| ToastSuccess (msg : string)
| SetLoading (b : bool)
| AuthSignUp (email password : jsstring)
             (full_name phone_number date_of_birth country : jsstring)
| ProfilesUpdate (phone_number date_of_birth country : jsstring)
                 (eq_user_id : jsstring)
| ProfilesLookup (referralCode : jsstring)
    (* from('profiles').select('user_id')
         .ilike('referral_code', referralCode.toUpperCase()).maybeSingle() *)
| ReferralsInsert (referrer_id referred_id : jsstring)
                  (bonus_amount : Z) (bonus_paid : bool)
| ConsoleError (label : string) (e : js_error)
| Navigate (path : string).

(** The outcomes of the remote calls of one submission. *)
Record backend : Type := MkBackend {
  signUp : outcome signup_result;
  profiles_update : outcome (response unit);
  profiles_lookup : outcome (response referrer_row);
  referrals_insert : outcome (response unit)
}.

Definition success_message : string :=
  "Account created successfully! Please check your email to verify your account.".

Definition handleSignup (f : form) (b : backend) : list event * outcome unit :=
  async
    (emit PreventDefault ;;
     if negb (agreedToTerms f) then
       emit (ToastError "Please agree to the Terms & Conditions") ;;
       return_
     else
       emit (SetLoading true) ;;
       try_finally
         (try_catch
            (r <- await (AuthSignUp (email f) (password f) (fullName f)
                                    (phone f) (dob f) (country f))
                        (signUp b) ;;
             match signup_error r with
             | Some error => throw error
             | None =>
                 match data_user r with
                 | Some uid =>
                     await (ProfilesUpdate (phone f) (dob f) (country f) uid)
                           (profiles_update b) ;;
                     (if truthy_string (referralCode f)
                         && truthy_string (trim (referralCode f))
                      then
                        try_catch
                          (found <- await (ProfilesLookup (referralCode f))
                                          (profiles_lookup b) ;;
                           match data found with
                           | Some referrer =>
                               await (ReferralsInsert (user_id referrer) uid
                                                      50 false)
                                     (referrals_insert b) ;;
                               ret tt
                           | None => ret tt
                           end)
                          (fun err => emit (ConsoleError "Referral error:" err))
                      else ret tt) ;;
                     emit (ToastSuccess
                             "Account created successfully! Please check your email to verify your account.") ;;
                     emit (Navigate "/login")
                 | None => ret tt
                 end
             end)
            (fun error =>
               emit (ToastError (or_else (message error) "Signup failed"))))
         (emit (SetLoading false)))%js.

Definition trace_of_submit (f : form) (b : backend) : list event :=
  fst (handleSignup f b).

(** The calls that reach the auth service or the database. *)
Definition is_remote_call (e : event) : bool :=
  match e with
  | AuthSignUp _ _ _ _ _ _ | ProfilesUpdate _ _ _ _
  | ProfilesLookup _ | ReferralsInsert _ _ _ _ => true
  | _ => false
  end.


(** The auth signup succeeded: no error and a user. *)
Definition signup_succeeded (b : backend) (uid : jsstring) : Prop :=
  signUp b = Resolved {| data_user := Some uid; signup_error := None |}.






End Signup.

(* ================================================================== *)
(** * Part I, continued: the remaining tables, policies and page code *)
(* ================================================================== *)

From Stdlib Require Floats.
From Stdlib Require Import Permutation.

(** ** Further rows of the first schema file *)

Module MoreTables.

(** public.deposit_payment_methods *)
Record payment_method : Type := MkPaymentMethod {
  pm_id : col uuid;
  pm_payment_method : col text;
  pm_display_name : col text;
  pm_description : col text;
  pm_bank_name : col text;
  pm_account_holder_name : col text;
  pm_account_number : col text;
  pm_routing_number : col text;
  pm_swift_code : col text;
  pm_iban : col text;
  pm_bic : col text;
  pm_bank_country : col text;
  pm_crypto_address : col text;
  pm_crypto_network : col text;
  pm_qr_code_url : col text;
  pm_is_active : col bool;
  pm_created_by : col uuid;
  pm_updated_by : col uuid;
  pm_created_at : col timestamptz;
  pm_updated_at : col timestamptz
}.

(** public.activity_logs (both files); [metadata] is JSONB, kept as text. *)
Record activity_log : Type := MkActivityLog {
  al_id : col uuid;
  al_user_id : col uuid;
  al_action : col text;
  al_description : col text;
  al_device_name : col text;
  al_device_type : col text;
  al_browser : col text;
  al_ip_address : col text;
  al_location : col text;
  al_metadata : col text;
  al_created_at : col timestamptz
}.

(** public.transactions *)
Record transaction : Type := MkTransaction {
  tx_id : col uuid;
  tx_user_id : col uuid;
  tx_type : col text;
  tx_amount : col Z;
  tx_currency : col text;
  tx_deposit_id : col uuid;
  tx_withdrawal_id : col uuid;
  tx_status : col text;
  tx_created_at : col timestamptz
}.

(** public.admin_logs; [changes] is JSONB, kept as text. *)
Record admin_log : Type := MkAdminLog {
  lg_id : col uuid;
  lg_admin_id : col uuid;
  lg_action : col text;
  lg_table_name : col text;
  lg_record_id : col uuid;
  lg_changes : col text;
  lg_created_at : col timestamptz
}.

End MoreTables.

Import MoreTables.

(** ** Row security: the policies of the remaining tables *)

Module RlsMore.

Import Rls.

(** *** withdrawal_accounts *)

Definition users_read_own_withdrawal_accounts : policy withdrawal_account :=
  MkPolicy "users_read_own_withdrawal_accounts" ForSelect
    (Some (fun _ uid r => eq_uuid (Some uid) (wa_user_id r))) None [].

Definition admins_read_all_withdrawal_accounts : policy withdrawal_account :=
  MkPolicy "admins_read_all_withdrawal_accounts" ForSelect (Some admin_only) None
    [AccountsRel].

Definition users_insert_own_withdrawal_accounts : policy withdrawal_account :=
  MkPolicy "users_insert_own_withdrawal_accounts" ForInsert None
    (Some (fun _ uid r => eq_uuid (Some uid) (wa_user_id r))) [].

Definition users_update_own_withdrawal_accounts : policy withdrawal_account :=
  MkPolicy "users_update_own_withdrawal_accounts" ForUpdate
    (Some (fun _ uid r => eq_uuid (Some uid) (wa_user_id r)))
    (Some (fun _ uid r => eq_uuid (Some uid) (wa_user_id r))) [].

Definition users_delete_own_withdrawal_accounts : policy withdrawal_account :=
  MkPolicy "users_delete_own_withdrawal_accounts" ForDelete
    (Some (fun _ uid r => eq_uuid (Some uid) (wa_user_id r))) None [].

Definition withdrawal_account_policies (g : generation)
  : list (policy withdrawal_account) :=
  match g with
  | UsersSchema =>
      [users_read_own_withdrawal_accounts; admins_read_all_withdrawal_accounts;
       users_insert_own_withdrawal_accounts; users_update_own_withdrawal_accounts;
       users_delete_own_withdrawal_accounts]
  | ProfilesSchema =>
      [users_read_own_withdrawal_accounts; admins_read_all_withdrawal_accounts]
  end.

(** *** deposit_payment_methods *)

(** [USING (is_active = TRUE)] *)
Definition authenticated_read_active_payment_methods : policy payment_method :=
  MkPolicy "authenticated_read_active_payment_methods" ForSelect
    (Some (fun _ _ r => eq_bool (pm_is_active r) (Some true))) None [].

Definition admins_read_all_payment_methods : policy payment_method :=
  MkPolicy "admins_read_all_payment_methods" ForSelect (Some admin_only) None
    [AccountsRel].

Definition admins_insert_payment_methods : policy payment_method :=
  MkPolicy "admins_insert_payment_methods" ForInsert None (Some admin_only)
    [AccountsRel].

Definition admins_update_payment_methods : policy payment_method :=
  MkPolicy "admins_update_payment_methods" ForUpdate
    (Some admin_only) (Some admin_only) [AccountsRel].

Definition admins_delete_payment_methods : policy payment_method :=
  MkPolicy "admins_delete_payment_methods" ForDelete (Some admin_only) None
    [AccountsRel].

Definition payment_method_policies : list (policy payment_method) :=
  [authenticated_read_active_payment_methods; admins_read_all_payment_methods;
   admins_insert_payment_methods; admins_update_payment_methods;
   admins_delete_payment_methods].

(** *** activity_logs *)

Definition users_read_own_activity : policy activity_log :=
  MkPolicy "users_read_own_activity" ForSelect
    (Some (fun _ uid r => eq_uuid (Some uid) (al_user_id r))) None [].

Definition admins_read_all_activity : policy activity_log :=
  MkPolicy "admins_read_all_activity" ForSelect (Some admin_only) None
    [AccountsRel].

(** "System can insert activity logs" *)
Definition authenticated_insert_activity : policy activity_log :=
  MkPolicy "authenticated_insert_activity" ForInsert None
    (Some (fun _ uid r => eq_uuid (Some uid) (al_user_id r))) [].

Definition activity_log_policies (g : generation) : list (policy activity_log) :=
  match g with
  | UsersSchema =>
      [users_read_own_activity; admins_read_all_activity;
       authenticated_insert_activity]
  | ProfilesSchema => [users_read_own_activity]
  end.

(** *** transactions *)

Definition users_read_own_transactions : policy transaction :=
  MkPolicy "users_read_own_transactions" ForSelect
    (Some (fun _ uid r => eq_uuid (Some uid) (tx_user_id r))) None [].

Definition admins_read_all_transactions : policy transaction :=
  MkPolicy "admins_read_all_transactions" ForSelect (Some admin_only) None
    [AccountsRel].

(** "System can insert transactions" *)
Definition authenticated_insert_transactions : policy transaction :=
  MkPolicy "authenticated_insert_transactions" ForInsert None
    (Some (fun _ uid r => eq_uuid (Some uid) (tx_user_id r))) [].

Definition transaction_policies : list (policy transaction) :=
  [users_read_own_transactions; admins_read_all_transactions;
   authenticated_insert_transactions].

(** *** admin_logs *)

Definition admins_read_admin_logs : policy admin_log :=
  MkPolicy "admins_read_admin_logs" ForSelect (Some admin_only) None
    [AccountsRel].

Definition admins_insert_admin_logs : policy admin_log :=
  MkPolicy "admins_insert_admin_logs" ForInsert None (Some admin_only)
    [AccountsRel].

Definition admin_log_policies : list (policy admin_log) :=
  [admins_read_admin_logs; admins_insert_admin_logs].

(** *** account_balances (second file) *)

Definition users_read_own_balances : policy account_balance :=
  MkPolicy "users_read_own_balances" ForSelect
    (Some (fun _ uid r => eq_uuid (Some uid) (bal_user_id r))) None [].

Definition admins_read_all_balances : policy account_balance :=
  MkPolicy "admins_read_all_balances" ForSelect (Some admin_only) None
    [AccountsRel].

Definition account_balance_policies : list (policy account_balance) :=
  [users_read_own_balances; admins_read_all_balances].

End RlsMore.

(** ** Statements under row security

    What a statement of an authenticated caller does on a table: it is
    rewritten with the table's policies, which may fail with 42P17, and
    then run. *)

Module Statements.

Import Rls RlsMore.

Definition row_of (rel : relation) : Type :=
  match rel with
  | AccountsRel => account
  | KycRel => kyc
  | WithdrawalAccountsRel => withdrawal_account
  | DepositsRel => deposit
  | WithdrawalsRel => withdrawal
  | AccountBalancesRel => account_balance
  | PaymentMethodsRel => payment_method
  | ActivityLogsRel => activity_log
  | TransactionsRel => transaction
  | AdminLogsRel => admin_log
  end.

(** The tables each file creates: account_balances belongs to the second
    file only; deposit_payment_methods, transactions and admin_logs belong
    to the first file only. *)
Definition declared (g : generation) (rel : relation) : bool :=
  match g, rel with
  | UsersSchema, AccountBalancesRel => false
  | ProfilesSchema, PaymentMethodsRel
  | ProfilesSchema, TransactionsRel
  | ProfilesSchema, AdminLogsRel => false
  | _, _ => true
  end.

(** The policies each file declares on a table. *)
Definition policies_of (g : generation) (rel : relation)
  : list (policy (row_of rel)) :=
  match rel with
  | AccountsRel => account_policies g
  | KycRel => kyc_policies g
  | WithdrawalAccountsRel => withdrawal_account_policies g
  | DepositsRel => deposit_policies g
  | WithdrawalsRel => withdrawal_policies g
  | AccountBalancesRel =>
      match g with
      | UsersSchema => []
      | ProfilesSchema => account_balance_policies
      end
  | PaymentMethodsRel =>
      match g with
      | UsersSchema => payment_method_policies
      | ProfilesSchema => []
      end
  | ActivityLogsRel => activity_log_policies g
  | TransactionsRel =>
      match g with
      | UsersSchema => transaction_policies
      | ProfilesSchema => []
      end
  | AdminLogsRel =>
      match g with
      | UsersSchema => admin_log_policies
      | ProfilesSchema => []
      end
  end.

(** *** Rewriting *)

Definition applies {R} (cmds : list command) (p : policy R) : bool :=
  existsb (command_eqb (pol_cmd p)) cmds.

(** The tables queried by the policies of [rel] that apply to [cmds]. *)
Definition subqueries (g : generation) (rel : relation) (cmds : list command)
  : list relation :=
  flat_map pol_subqueries (filter (applies cmds) (policies_of g rel)).

Inductive statement_error : Type :=
| UndefinedTable (rel : relation)
    (* 42P01: relation [rel] does not exist *)
| InfiniteRecursion (rel : relation)
    (* 42P17: infinite recursion detected in policy for relation [rel] *)
| TooDeep.
    (* the nesting bound of [expand] is used up *)

(** Expanding the policies of [rel] for the commands [cmds], while the
    policies of the tables in [active] are being expanded.  Policies
    without a subquery need no further expansion.  Otherwise [rel] must
    not be active already; it becomes active and each subquery is expanded
    as a SELECT on its table.  [None] is success.  [depth] bounds the
    nesting; it is not reached when it exceeds the number of tables, as
    the active tables are distinct. *)
Fixpoint expand (depth : nat) (g : generation) (active : list relation)
         (rel : relation) (cmds : list command) : option statement_error :=
  match depth with
  | O => Some TooDeep
  | S depth' =>
      match subqueries g rel cmds with
      | [] => None
      | subs =>
          if existsb (relation_eqb rel) active
          then Some (InfiniteRecursion rel)
          else
            fold_right
              (fun sub rest =>
                 match expand depth' g (rel :: active) sub [ForSelect] with
                 | Some e => Some e
                 | None => rest
                 end)
              None subs
      end
  end.

Definition relations : list relation :=
  [AccountsRel; KycRel; WithdrawalAccountsRel; DepositsRel; WithdrawalsRel;
   AccountBalancesRel; PaymentMethodsRel; ActivityLogsRel; TransactionsRel;
   AdminLogsRel].

(** The kinds of statement.  [reads] tells whether an UPDATE or DELETE
    reads the table's columns (a WHERE or RETURNING clause, or a SET
    expression over a column): it then needs the SELECT right, and the
    SELECT policies are added to it as well.  INSERT is the plain
    statement, without RETURNING. *)
Inductive kind : Type :=
| SELECT
| INSERT
| UPDATE (reads : bool)
| DELETE (reads : bool).

Definition commands_of (k : kind) : list command :=
  match k with
  | SELECT => [ForSelect]
  | INSERT => [ForInsert]
  | UPDATE reads => ForUpdate :: (if reads then [ForSelect] else [])
  | DELETE reads => ForDelete :: (if reads then [ForSelect] else [])
  end.

(** A statement on a table that the file does not create fails with
    42P01 before it is rewritten. *)
Definition rewrite (g : generation) (rel : relation) (k : kind)
  : option statement_error :=
  if declared g rel
  then expand (S (List.length relations)) g [] rel (commands_of k)
  else Some (UndefinedTable rel).

(** *** Execution *)

Inductive outcome (A : Type) : Type :=
| Aborted (e : statement_error)   (* the statement is not run *)
| Completed (a : A).
Arguments Aborted {A} e.
Arguments Completed {A} a.

(** What an UPDATE does with one existing row. *)
Inductive update_outcome : Type :=
| RowNotTargeted    (* the existing row is filtered out: nothing happens *)
| RowViolation      (* the new row fails WITH CHECK: the statement fails *)
| RowUpdated.

Section Run.
Variable g : generation.
Variable rel : relation.
Variable accounts : list account.    (* the rows of users / profiles *)
Variable uid : uuid.

(** The rows of users/profiles that a subquery of a policy reads: those
    passing the SELECT policies of that table.  Once the statement has
    been rewritten these policies hold no subquery on the table itself,
    so their conditions do not look at their first argument. *)
Definition readable : list account :=
  filter (passes_using (account_policies g) [] uid ForSelect) accounts.

Definition using_ok (c : command) (r : row_of rel) : bool :=
  passes_using (policies_of g rel) readable uid c r.

Definition with_check_ok (c : command) (r : row_of rel) : bool :=
  passes_with_check (policies_of g rel) readable uid c r.

(** [SELECT ... FROM rel]: the rows of [t] returned to the caller. *)
Definition select (t : list (row_of rel)) : outcome (list (row_of rel)) :=
  match rewrite g rel SELECT with
  | Some e => Aborted e
  | None => Completed (filter (using_ok ForSelect) t)
  end.

(** [INSERT INTO rel] of the row [r]: [Completed false] is the failure
    "new row violates row-level security policy". *)
Definition insert (r : row_of rel) : outcome bool :=
  match rewrite g rel INSERT with
  | Some e => Aborted e
  | None => Completed (with_check_ok ForInsert r)
  end.

(** [UPDATE rel] turning the existing row [old] into [new]. *)
Definition update (reads : bool) (old new : row_of rel)
  : outcome update_outcome :=
  match rewrite g rel (UPDATE reads) with
  | Some e => Aborted e
  | None =>
      Completed
        (if using_ok ForUpdate old && (negb reads || using_ok ForSelect old)
         then
           if with_check_ok ForUpdate new
              && (negb reads || using_ok ForSelect new)
           then RowUpdated
           else RowViolation
         else RowNotTargeted)
  end.

(** [DELETE FROM rel] on the existing row [r]: whether the row is
    deleted. *)
Definition delete (reads : bool) (r : row_of rel) : outcome bool :=
  match rewrite g rel (DELETE reads) with
  | Some e => Aborted e
  | None =>
      Completed (using_ok ForDelete r && (negb reads || using_ok ForSelect r))
  end.

End Run.

(** The row as it stands after an UPDATE of [old] into [new]. *)
Definition row_after {R} (o : outcome update_outcome) (old new : R) : R :=
  match o with
  | Completed RowUpdated => new
  | _ => old
  end.

(** Whether the row is gone after a DELETE. *)
Definition removed (o : outcome bool) : bool :=
  match o with
  | Completed true => true
  | _ => false
  end.

End Statements.

(** ** The KYC table: one submission per user

    [UNIQUE(user_id)] beside the primary key on [id].  Rows are added one
    at a time, so each unique index is checked against the rows already
    there. *)

Module KycTable.

Definition id_type_values : list text :=
  ["passport"; "driver_license"; "national_id"; "government_id"].
Definition status_values : list text :=
  ["pending"; "under_review"; "approved"; "rejected"].

Definition constraints (g : generation) (r : kyc) : verdicts :=
  match g with
  | UsersSchema =>
      [ (NotNullViolation "id", not_null (kyc_id r));
        (NotNullViolation "user_id", not_null (kyc_user_id r));
        (NotNullViolation "id_type", not_null (kyc_id_type r));
        (CheckViolation "kyc_verifications_id_type_check",
           check_ok (in_text (kyc_id_type r) id_type_values));
        (NotNullViolation "id_number", not_null (kyc_id_number r));
        (NotNullViolation "full_name", not_null (kyc_full_name r));
        (NotNullViolation "date_of_birth", not_null (kyc_date_of_birth r));
        (NotNullViolation "country", not_null (kyc_country r));
        (NotNullViolation "status", not_null (kyc_status r));
        (CheckViolation "kyc_verifications_status_check",
           check_ok (in_text (kyc_status r) status_values)) ]
  | ProfilesSchema =>
      [ (NotNullViolation "id", not_null (kyc_id r));
        (NotNullViolation "user_id", not_null (kyc_user_id r));
        (CheckViolation "kyc_documents_id_type_check",
           check_ok (in_text (kyc_id_type r) id_type_values));
        (CheckViolation "kyc_documents_status_check",
           check_ok (in_text (kyc_status r) status_values)) ]
  end.

Inductive failure : Type :=
| RowError (e : Sql.error)
| UniqueViolation (index : string).

(** Some row of [t] has the same non-null key. *)
Definition key_taken (key : kyc -> col uuid) (t : list kyc) (r : kyc) : bool :=
  existsb (fun r' => holds (eq_uuid (key r') (key r))) t.

(** INSERT of one row, defaults already applied. *)
Definition insert (g : generation) (t : list kyc) (r : kyc)
  : list kyc + failure :=
  match enforce (constraints g r) with
  | Err e => inr (RowError e)
  | Ok _ =>
      if key_taken kyc_id t r then inr (UniqueViolation "pkey")
      else if key_taken kyc_user_id t r then inr (UniqueViolation "user_id_key")
      else inl (t ++ [r])
  end.

Inductive statement : Type :=
| INSERT (r : kyc)
| DELETE (where_ : kyc -> bool).

(** A failed statement leaves the table as it was. *)
Definition step (g : generation) (t : list kyc) (st : statement) : list kyc :=
  match st with
  | INSERT r => match insert g t r with inl t' => t' | inr _ => t end
  | DELETE where_ => filter (fun r => negb (where_ r)) t
  end.

Definition run (g : generation) (script : list statement) : list kyc :=
  fold_left (step g) script [].

(** No two rows share a user_id, and no user_id is NULL. *)
Definition one_per_user (t : list kyc) : Prop :=
  NoDup (map kyc_user_id t) /\ Forall (fun r => kyc_user_id r <> None) t.

End KycTable.


(** ** withdrawals: rows written by the engine *)

Module WithdrawalRows.

(** The row was written by [Withdrawals.store] under the constraints of
    file [g]. *)
Definition stored (g : generation) (r : withdrawal) : Prop :=
  exists draft, Withdrawals.store g draft = Ok r.

End WithdrawalRows.

(** ** AdminDashboard.tsx: the summary tiles *)

Module AdminStats.

(** A JS number. *)
Definition number := PrimFloat.float.

(** [x || 0] on a number: 0, -0 and NaN are falsy. *)
Definition number_or_zero (x : number) : number :=
  if PrimFloat.is_nan x || PrimFloat.is_zero x then PrimFloat.zero else x.

(** [count || 0] on the [count] of a head request: a number of rows, or
    null. *)
Definition count_or_zero (count : option N) : N :=
  match count with Some n => n | None => 0%N end.

Record stats : Type := MkStats {
  totalUsers : N;
  totalDeposits : N;
  totalInvested : number;
  pendingDeposits : N;
  pendingWithdrawals : N;
  pendingKYC : N
}.

Inductive event : Type :=
| CountRows (table : string) (status : option string)
    (* from(table).select('*', { count: 'exact', head: true })[.eq('status', s)] *)
| SelectAmounts (table : string)       (* from(table).select('amount') *)
| SetStats (s : stats)
| ConsoleError (label : string) (e : js_error).

(** The outcomes of the six queries; an investment row is given by the
    number [Number(inv.amount)]. *)
Record backend : Type := MkBackend {
  profiles_count : outcome (option N);
  approved_deposits_count : outcome (option N);
  investments : outcome (option (list number));
  pending_deposits_count : outcome (option N);
  pending_withdrawals_count : outcome (option N);
  pending_kyc_count : outcome (option N)
}.

(** [investments?.reduce((sum, inv) => sum + Number(inv.amount), 0) || 0] *)
Definition total_invested (investments : option (list number)) : number :=
  match investments with
  | None => PrimFloat.zero                       (* undefined || 0 *)
  | Some rows => number_or_zero (fold_left PrimFloat.add rows PrimFloat.zero)
  end.

Definition fetchStats (b : backend) : list event * outcome unit :=
  async
    (try_catch
       (userCount <- await (CountRows "profiles" None) (profiles_count b) ;;
        depositCount <- await (CountRows "deposits" (Some "approved"))
                              (approved_deposits_count b) ;;
        investments <- await (SelectAmounts "investments") (investments b) ;;
        let totalInvested := total_invested investments in
        pendingDeposits <- await (CountRows "deposits" (Some "pending"))
                                 (pending_deposits_count b) ;;
        pendingWithdrawals <- await (CountRows "withdrawals" (Some "pending"))
                                    (pending_withdrawals_count b) ;;
        pendingKYC <- await (CountRows "kyc_documents" (Some "pending"))
                            (pending_kyc_count b) ;;
        emit (SetStats {| totalUsers := count_or_zero userCount;
                          totalDeposits := count_or_zero depositCount;
                          totalInvested := totalInvested;
                          pendingDeposits := count_or_zero pendingDeposits;
                          pendingWithdrawals := count_or_zero pendingWithdrawals;
                          pendingKYC := count_or_zero pendingKYC |}))
       (fun error => emit (ConsoleError "Error fetching stats:" error)))%js.

(** The initial value of the [stats] state. *)
Definition initial_stats : stats :=
  {| totalUsers := 0; totalDeposits := 0; totalInvested := PrimFloat.zero;
     pendingDeposits := 0; pendingWithdrawals := 0; pendingKYC := 0 |}.

Definition apply_event (s : stats) (e : event) : stats :=
  match e with SetStats s' => s' | _ => s end.

(** The [stats] state after a run of [fetchStats] from state [s]. *)
Definition stats_after (s : stats) (b : backend) : stats :=
  fold_left apply_event (fst (fetchStats b)) s.

(** The [stats] state after the given runs, from its initial value. *)
Definition stats_after_runs (runs : list backend) : stats :=
  fold_left stats_after runs initial_stats.

(** The six queries in program order. *)
Definition queries : list event :=
  [ CountRows "profiles" None;
    CountRows "deposits" (Some "approved");
    SelectAmounts "investments";
    CountRows "deposits" (Some "pending");
    CountRows "withdrawals" (Some "pending");
    CountRows "kyc_documents" (Some "pending") ].

Definition rejection {A} (o : outcome A) : option js_error :=
  match o with Rejected e => Some e | Resolved _ => None end.

(** The rejections of the six queries, in program order. *)
Definition rejections (b : backend) : list (option js_error) :=
  [ rejection (profiles_count b); rejection (approved_deposits_count b);
    rejection (investments b); rejection (pending_deposits_count b);
    rejection (pending_withdrawals_count b); rejection (pending_kyc_count b) ].

(** The position and the error of the first query that rejects. *)
Fixpoint first_failure (rs : list (option js_error)) : option (nat * js_error) :=
  match rs with
  | [] => None
  | Some e :: _ => Some (O, e)
  | None :: rest =>
      match first_failure rest with
      | Some (k, e) => Some (S k, e)
      | None => None
      end
  end.

(** The stats the handler sets when the queries resolve with these values. *)
Definition stats_of (u d : option N) (i : option (list number))
           (pd pw pk : option N) : stats :=
  {| totalUsers := count_or_zero u;
     totalDeposits := count_or_zero d;
     totalInvested := total_invested i;
     pendingDeposits := count_or_zero pd;
     pendingWithdrawals := count_or_zero pw;
     pendingKYC := count_or_zero pk |}.

Definition is_query (e : event) : bool :=
  match e with CountRows _ _ | SelectAmounts _ => true | _ => false end.

Definition is_set_stats (e : event) : bool :=
  match e with SetStats _ => true | _ => false end.

(** All six queries resolve. *)
Definition all_resolve (b : backend) : Prop :=
  exists u d i pd pw pk,
    profiles_count b = Resolved u /\ approved_deposits_count b = Resolved d
    /\ investments b = Resolved i /\ pending_deposits_count b = Resolved pd
    /\ pending_withdrawals_count b = Resolved pw
    /\ pending_kyc_count b = Resolved pk.

End AdminStats.

(** ** AdminDashboard.tsx: the navigation and the tab area *)

Module AdminTabs.

Inductive icon : Type :=
| BarChart3 | Users | DollarSign | TrendingUp | FileCheck | Settings.

Record menu_item : Type := MkItem {
  item_id : string;
  label : string;
  item_icon : icon
}.

Definition menuItems : list menu_item :=
  [ MkItem "analytics" "Analytics" BarChart3;
    MkItem "users" "Users" Users;
    MkItem "deposits" "Deposits" DollarSign;
    MkItem "withdrawals" "Withdrawals" TrendingUp;
    MkItem "kyc" "KYC" FileCheck;
    MkItem "referrals" "Referrals" Users;
    MkItem "settings" "Settings" Settings ].

(** The tab components; those marked take [fetchStats] as their update
    callback. *)
Inductive tab : Type :=
| AdminAnalyticsTab      (* stats={stats} onStatsUpdate={fetchStats} *)
| AdminUsersTab          (* onUpdate={fetchStats} *)
| AdminDepositsTab       (* onUpdate={fetchStats} *)
| AdminWithdrawalsTab    (* onUpdate={fetchStats} *)
| AdminKYCTab            (* onUpdate={fetchStats} *)
| AdminReferralsTab
| AdminSettingsTab.

(** [{cond && <Component />}] *)
Definition when (cond : bool) (t : tab) : list tab := if cond then [t] else [].

(** The children of the tab card for the current [activeTab]. *)
Definition tab_content (activeTab : string) : list tab :=
  when (activeTab =? "analytics")%string AdminAnalyticsTab
  ++ when (activeTab =? "users")%string AdminUsersTab
  ++ when (activeTab =? "deposits")%string AdminDepositsTab
  ++ when (activeTab =? "withdrawals")%string AdminWithdrawalsTab
  ++ when (activeTab =? "kyc")%string AdminKYCTab
  ++ when (activeTab =? "referrals")%string AdminReferralsTab
  ++ when (activeTab =? "settings")%string AdminSettingsTab.

(** [menuItems.find(item => item.id === activeTab)?.label || 'Analytics'] *)
Definition card_title (activeTab : string) : string :=
  or_else (option_map label
             (find (fun item => (item_id item =? activeTab)%string) menuItems))
          "Analytics".

(** The button of [item]: [onClick={() => setActiveTab(item.id)}]. *)
Definition click (activeTab : string) (item : menu_item) : string := item_id item.

(** [useState('analytics')], then the given clicks. *)
Definition active_after (clicks : list menu_item) : string :=
  fold_left click clicks "analytics".

(** The button of [item] is drawn as selected. *)
Definition highlighted (activeTab : string) (item : menu_item) : bool :=
  (activeTab =? item_id item)%string.

End AdminTabs.

(** ** The signup page: the remote calls of a submission *)

Module SignupCalls.

Inductive call : Type :=
| CallSignUp | CallProfilesUpdate | CallProfilesLookup | CallReferralsInsert.

Definition call_of (e : Signup.event) : option call :=
  match e with
  | Signup.AuthSignUp _ _ _ _ _ _ => Some CallSignUp
  | Signup.ProfilesUpdate _ _ _ _ => Some CallProfilesUpdate
  | Signup.ProfilesLookup _ => Some CallProfilesLookup
  | Signup.ReferralsInsert _ _ _ _ => Some CallReferralsInsert
  | _ => None
  end.

Fixpoint calls (tr : list Signup.event) : list call :=
  match tr with
  | [] => []
  | e :: rest =>
      match call_of e with
      | Some c => c :: calls rest
      | None => calls rest
      end
  end.

Definition is_toast (e : Signup.event) : bool :=
  match e with
  | Signup.ToastError _ | Signup.ToastSuccess _ => true
  | _ => false
  end.

Definition is_set_loading (e : Signup.event) : bool :=
  match e with Signup.SetLoading _ => true | _ => false end.

(** The account was created and its profile update resolved: the terms
    were agreed, signUp resolved with a user and no error, and the profile
    update did not throw. *)
Definition account_set_up (f : Signup.form) (b : Signup.backend) : Prop :=
  Signup.agreedToTerms f = true
  /\ exists uid upd, Signup.signup_succeeded b uid
                     /\ Signup.profiles_update b = Resolved upd.

(** The error that reaches the outer catch block, if any. *)
Definition surfaced_error (b : Signup.backend) : option js_error :=
  match Signup.signUp b with
  | Rejected e => Some e
  | Resolved r =>
      match Signup.signup_error r, Signup.data_user r with
      | Some e, _ => Some e
      | None, Some _ =>
          match Signup.profiles_update b with
          | Rejected e => Some e
          | Resolved _ => None
          end
      | None, None => None
      end
  end.

(** The referral code holds a code unit that is not white space. *)
Definition not_blank (s : jsstring) : bool :=
  existsb (fun c => negb (is_white_space c)) s.

End SignupCalls.

(** ** Sample data *)

Module Sample.

Definition clock0 : clock := {| fresh_uuid := 1000%N; now := 1700000000 |}.

(** [INSERT INTO withdrawals (user_id, withdrawal_account_id, amount, fee)
     VALUES (7, 70, amount, fee)], amounts in hundredths. *)
Definition insert_withdrawal (amount fee net : assign Z)
  : Withdrawals.insert_stmt :=
  {| Withdrawals.i_id := Dflt;
     Withdrawals.i_user_id := Val (Some 7%N);
     Withdrawals.i_withdrawal_account_id := Val (Some 70%N);
     Withdrawals.i_amount := amount;
     Withdrawals.i_currency := Dflt;
     Withdrawals.i_fee := fee;
     Withdrawals.i_net_amount := net;
     Withdrawals.i_status := Dflt;
     Withdrawals.i_rejection_reason := Dflt;
     Withdrawals.i_admin_notes := Dflt;
     Withdrawals.i_reviewed_by := Dflt;
     Withdrawals.i_reviewed_at := Dflt;
     Withdrawals.i_transaction_reference := Dflt;
     Withdrawals.i_requested_at := Dflt;
     Withdrawals.i_approved_at := Dflt;
     Withdrawals.i_completed_at := Dflt;
     Withdrawals.i_updated_at := Dflt |}.

(** A pending withdrawal of user 7 as the defaults fill it. *)
Definition withdrawal_row (amount fee net : col Z) : withdrawal :=
  {| wd_id := Some 1000%N;
     wd_user_id := Some 7%N;
     wd_withdrawal_account_id := Some 70%N;
     wd_amount := amount;
     wd_currency := Some "USD";
     wd_fee := fee;
     wd_net_amount := net;
     wd_status := Some "pending";
     wd_rejection_reason := None;
     wd_admin_notes := None;
     wd_reviewed_by := None;
     wd_reviewed_at := None;
     wd_transaction_reference := None;
     wd_requested_at := Some 1700000000;
     wd_approved_at := None;
     wd_completed_at := None;
     wd_updated_at := Some 1700000000 |}.

(** [UPDATE withdrawals SET fee = v] *)
Definition set_fee (v : assign Z) (net : option (assign Z))
  : Withdrawals.set_list :=
  {| Withdrawals.s_id := None;
     Withdrawals.s_user_id := None;
     Withdrawals.s_withdrawal_account_id := None;
     Withdrawals.s_amount := None;
     Withdrawals.s_currency := None;
     Withdrawals.s_fee := Some v;
     Withdrawals.s_net_amount := net;
     Withdrawals.s_status := None;
     Withdrawals.s_rejection_reason := None;
     Withdrawals.s_admin_notes := None;
     Withdrawals.s_reviewed_by := None;
     Withdrawals.s_reviewed_at := None;
     Withdrawals.s_transaction_reference := None;
     Withdrawals.s_requested_at := None;
     Withdrawals.s_approved_at := None;
     Withdrawals.s_completed_at := None;
     Withdrawals.s_updated_at := None |}.

(** Accounts: 1 is an admin, 7 and 8 are ordinary users. *)
Definition account_of (id : uuid) (name mail role kyc_status : text) : account :=
{| acc_id := Some id;
   acc_full_name := Some name;
   acc_email := Some mail;
   acc_phone := None;
   acc_role := Some role;
   acc_kyc_status := Some kyc_status;
   acc_account_status := Some "active";
   acc_created_at := Some 1700000000;
   acc_updated_at := Some 1700000000 |}.

Definition admin1 : account := account_of 1%N "Ada" "ada@example.org" "admin" "approved".
Definition user7 : account := account_of 7%N "Bob" "bob@example.org" "user" "pending".
Definition user8 : account := account_of 8%N "Cy" "cy@example.org" "user" "pending".

Definition accounts : list account := [admin1; user7; user8].

(** The row of user 7 as
    [UPDATE users SET kyc_status = 'approved', account_status = 'active'
     WHERE id = 7] would write it. *)
Definition user7_self_approved : account :=
  account_of 7%N "Bob" "bob@example.org" "user" "approved".

(** A deposit of user 7. *)
Definition deposit_with (id : uuid) (status : col text) : deposit :=
{| dep_id := Some id;
   dep_user_id := Some 7%N;
   dep_amount := Some 25000;
   dep_currency := Some "USD";
   dep_payment_method := Some "wire";
   dep_reference_number := None;
   dep_proof_image_url := None;
   dep_status := status;
   dep_rejection_reason := None;
   dep_admin_notes := None;
   dep_reviewed_by := None;
   dep_reviewed_at := None;
   dep_created_at := Some 1700000000;
   dep_updated_at := Some 1700000000 |}.

Definition deposit_of_7 (status : text) : deposit :=
  deposit_with 500%N (Some status).

(** The KYC submission of user 7. *)
Definition kyc_of_7 (status : text) : kyc :=
{| kyc_id := Some 600%N;
   kyc_user_id := Some 7%N;
   kyc_id_type := Some "passport";
   kyc_id_number := Some "X123";
   kyc_full_name := Some "Bob";
   kyc_date_of_birth := Some 7000;
   kyc_country := Some "DE";
   kyc_front_id_url := None;
   kyc_back_id_url := None;
   kyc_selfie_url := None;
   kyc_status := Some status;
   kyc_rejection_reason := None;
   kyc_admin_notes := None;
   kyc_reviewed_by := None;
   kyc_reviewed_at := None;
   kyc_created_at := Some 1700000000;
   kyc_updated_at := Some 1700000000 |}.

(** A payout account of user 7 of the given type, with only the given
    type-specific fields filled. *)
Definition payout_account (account_type : col text)
           (account_number holder crypto_type crypto_address paypal : col text)
  : withdrawal_account :=
{| wa_id := Some 700%N;
   wa_user_id := Some 7%N;
   wa_account_type := account_type;
   wa_bank_name := None;
   wa_account_holder_name := holder;
   wa_account_number := account_number;
   wa_routing_number := None;
   wa_swift_code := None;
   wa_iban := None;
   wa_bic := None;
   wa_bank_country := None;
   wa_crypto_type := crypto_type;
   wa_crypto_address := crypto_address;
   wa_crypto_network := None;
   wa_paypal_email := paypal;
   wa_is_active := Some true;
   wa_is_verified := Some false;
   wa_verification_token := None;
   wa_verified_at := None;
   wa_created_at := Some 1700000000;
   wa_updated_at := Some 1700000000 |}.

(** Sessions and backends for the two client handlers. *)
Definition session_user : AdminDashboard.auth_user :=
  {| AdminDashboard.id := [117; 55]%N; AdminDashboard.email := None |}.

(** The role check resolves with [roleData]. *)
Definition dashboard_backend (roleData : option bool) : AdminDashboard.backend :=
  {| AdminDashboard.getUser := Resolved (Some session_user);
     AdminDashboard.has_role := fun _ _ => Resolved roleData;
     AdminDashboard.signOut := Resolved tt |}.

(** A filled signup form with referral code "AB12". *)
Definition signup_form (agreed : bool) : Signup.form :=
  {| Signup.fullName := [66; 111; 98]%N;
     Signup.email := [98; 64; 120; 46; 105; 111]%N;
     Signup.password := [115; 51; 99; 114; 51; 116]%N;
     Signup.phone := [53; 53; 53]%N;
     Signup.dob := [50; 48; 48; 48]%N;
     Signup.country := [68; 69]%N;
     Signup.referralCode := [65; 66; 49; 50]%N;
     Signup.agreedToTerms := agreed |}.

Definition fine {A} : outcome (response A) :=
  Resolved {| data := None; error := None |}.

(** Signup succeeds for user "u9"; the referral calls do as given. *)
Definition signup_backend (lookup : outcome (response Signup.referrer_row))
           (insert : outcome (response unit)) : Signup.backend :=
  {| Signup.signUp :=
       Resolved {| Signup.data_user := Some [117; 57]%N;
                   Signup.signup_error := None |};
     Signup.profiles_update := fine;
     Signup.profiles_lookup := lookup;
     Signup.referrals_insert := insert |}.

Definition network_down : js_error := {| message := Some "Failed to fetch" |}.

(** A database state with two pending deposits out of four. *)
Definition database : View.database :=
  {| View.users := accounts;
     View.kyc_verifications := [kyc_of_7 "pending"];
     View.deposits :=
       [deposit_with 500%N (Some "pending"); deposit_with 501%N (Some "approved");
        deposit_with 502%N (Some "pending"); deposit_with 503%N (Some "completed")];
     View.withdrawals :=
       [withdrawal_row (Some 10000) (Some 250) (Some 9750)] |}.

End Sample.

(** ** Further sample data *)

Module MoreSamples.

(** The sample database with its first two deposits exchanged. *)
Definition database_reordered : View.database :=
  {| View.users := Sample.accounts;
     View.kyc_verifications := [Sample.kyc_of_7 "pending"];
     View.deposits :=
       [Sample.deposit_with 501%N (Some "approved");
        Sample.deposit_with 500%N (Some "pending");
        Sample.deposit_with 502%N (Some "pending");
        Sample.deposit_with 503%N (Some "completed")];
     View.withdrawals :=
       [Sample.withdrawal_row (Some 10000) (Some 250) (Some 9750)] |}.

(** signUp rejects with a network error. *)
Definition signup_unreachable : Signup.backend :=
  {| Signup.signUp := Rejected Sample.network_down;
     Signup.profiles_update := Sample.fine;
     Signup.profiles_lookup := Sample.fine;
     Signup.referrals_insert := Sample.fine |}.

(** The referrer lookup finds user "r1". *)
Definition referrer_found : outcome (response Signup.referrer_row) :=
  Resolved {| data := Some {| Signup.user_id := [114; 49]%N |};
              error := None |}.


(** A user is signed in and the has_role call rejects. *)
Definition dashboard_unreachable : AdminDashboard.backend :=
  {| AdminDashboard.getUser := Resolved (Some Sample.session_user);
     AdminDashboard.has_role := fun _ _ => Rejected Sample.network_down;
     AdminDashboard.signOut := Resolved tt |}.

(** A login entry of the given user. *)
Definition activity_of (user : uuid) : activity_log :=
{| al_id := Some 800%N;
   al_user_id := Some user;
   al_action := Some "login";
   al_description := None;
   al_device_name := None;
   al_device_type := Some "desktop";
   al_browser := None;
   al_ip_address := None;
   al_location := None;
   al_metadata := None;
   al_created_at := Some 1700000000 |}.

(** A deposit transaction of the given user. *)
Definition transaction_of (user : uuid) : transaction :=
{| tx_id := Some 900%N;
   tx_user_id := Some user;
   tx_type := Some "deposit";
   tx_amount := Some 25000;
   tx_currency := Some "USD";
   tx_deposit_id := Some 500%N;
   tx_withdrawal_id := None;
   tx_status := Some "completed";
   tx_created_at := Some 1700000000 |}.

(** The six queries resolve; the second count comes back null. *)
Definition stats_backend (investments : outcome (option (list AdminStats.number)))
  : AdminStats.backend :=
  {| AdminStats.profiles_count := Resolved (Some 3%N);
     AdminStats.approved_deposits_count := Resolved None;
     AdminStats.investments := investments;
     AdminStats.pending_deposits_count := Resolved (Some 2%N);
     AdminStats.pending_withdrawals_count := Resolved (Some 1%N);
     AdminStats.pending_kyc_count := Resolved (Some 1%N) |}.

(** The menu buttons 'Users' and 'KYC'. *)
Definition users_button : AdminTabs.menu_item :=
  AdminTabs.MkItem "users" "Users" AdminTabs.Users.
Definition kyc_button : AdminTabs.menu_item :=
  AdminTabs.MkItem "kyc" "KYC" AdminTabs.FileCheck.

End MoreSamples.

(* ================================================================== *)
(** * Part II: properties *)
(* ================================================================== *)

(** ** Constraint enforcement *)

Lemma enforce_ok_iff (cs : verdicts) :
  enforce cs = Ok tt <-> Forall (fun v => snd v = true) cs.
Proof.
  induction cs as [| [e passed] rest IH]; simpl.
  - split; auto.
  - destruct passed; split; intro H.
    + constructor; [reflexivity | now apply IH].
    + inversion H; subst. now apply IH.
    + discriminate.
    + inversion H; subst. discriminate.
Qed.

Lemma enforce_ok_in (cs : verdicts) (e : Sql.error) (passed : bool) :
  enforce cs = Ok tt -> In (e, passed) cs -> passed = true.
Proof.
  intros Hok Hin. apply enforce_ok_iff in Hok.
  rewrite Forall_forall in Hok. exact (Hok _ Hin).
Qed.

Lemma enforce_result (cs : verdicts) :
  enforce cs = Ok tt \/ exists e, enforce cs = Err e.
Proof.
  destruct (enforce cs) as [[] | e]; [now left | right; now exists e].
Qed.

Lemma guard_ok (b : bool) (e : Sql.error) {A} (k : unit -> result A) (a : A) :
  Sql.bind (guard b e) k = Ok a -> b = true /\ k tt = Ok a.
Proof. destruct b; simpl; [auto | discriminate]. Qed.

Lemma bind_ok {A B} (r : result A) (k : A -> result B) (b : B) :
  Sql.bind r k = Ok b -> exists a, r = Ok a /\ k a = Ok b.
Proof. destruct r as [a | e]; simpl; [eauto | discriminate]. Qed.

(** ** withdrawals: the generated column *)

Section WithdrawalsFacts.
Import Withdrawals.
Variable g : generation.

(** What a successful write stores. *)
Lemma store_ok (draft r : withdrawal) :
  store g draft = Ok r ->
  r = with_net_amount draft (minus (wd_amount draft) (wd_fee draft))
  /\ numeric_fits 15 (wd_amount r) = true
  /\ numeric_fits 10 (wd_fee r) = true
  /\ numeric_fits 15 (wd_net_amount r) = true
  /\ enforce (constraints g r) = Ok tt.
Proof.
  unfold store. intro H.
  apply guard_ok in H as [Ha H].
  apply guard_ok in H as [Hf H].
  apply guard_ok in H as [Hn H].
  apply bind_ok in H as [[] [Hc H]].
  injection H as <-. simpl. auto.
Qed.

Lemma store_derives (draft r : withdrawal) :
  store g draft = Ok r -> net_amount_derived r.
Proof.
  intro H. apply store_ok in H as [-> _]. reflexivity.
Qed.

Lemma insert_row_derives c s r :
  insert_row g c s = Ok r -> net_amount_derived r.
Proof.
  unfold insert_row. destruct (i_net_amount s); [|discriminate].
  apply store_derives.
Qed.

Lemma update_row_derives c old s r :
  update_row g c old s = Ok r -> net_amount_derived r.
Proof.
  unfold update_row.
  destruct (s_net_amount s) as [[| v] |]; try discriminate; apply store_derives.
Qed.

Lemma update_rows_derive c where_ set_ t t' :
  Forall net_amount_derived t ->
  update_rows g c where_ set_ t = Ok t' ->
  Forall net_amount_derived t'.
Proof.
  revert t'. induction t as [| r rest IH]; intros t' Hall H; simpl in H.
  - injection H as <-. constructor.
  - inversion Hall as [| ? ? Hr Hrest]; subst.
    apply bind_ok in H as [r' [Hr' H]].
    apply bind_ok in H as [rest' [Hrest' H]].
    injection H as <-. constructor.
    + destruct (where_ r).
      * eapply update_row_derives; eauto.
      * now injection Hr' as <-.
    + now apply IH.
Qed.

Lemma step_derives t st :
  Forall net_amount_derived t -> Forall net_amount_derived (step g t st).
Proof.
  intro Hall. unfold step.
  destruct (exec g t st) as [t' |] eqn:E; [| exact Hall].
  destruct st as [c s | c where_ set_ | where_]; simpl in E.
  - apply bind_ok in E as [r [Hr E]]. injection E as <-.
    apply Forall_app. split; [exact Hall |].
    constructor; [| constructor]. eapply insert_row_derives; eauto.
  - eapply update_rows_derive; eauto.
  - injection E as <-. rewrite Forall_forall in *.
    intros r Hin. apply filter_In in Hin as [Hin _]. auto.
Qed.

Lemma run_from_derives script t :
  Forall net_amount_derived t ->
  Forall net_amount_derived (fold_left (step g) script t).
Proof.
  revert t. induction script as [| st rest IH]; intros t Hall; simpl.
  - exact Hall.
  - apply IH. now apply step_derives.
Qed.

(** What the constraints of either file guarantee of a stored row. *)
Lemma store_amount_positive draft r :
  store g draft = Ok r -> exists a, wd_amount r = Some a /\ 0 < a.
Proof.
  intro H. apply store_ok in H as (_ & _ & _ & _ & Hc).
  assert (Hnn : not_null (wd_amount r) = true)
    by (destruct g; eapply enforce_ok_in; eauto; simpl; tauto).
  assert (Hpos : check_ok (gt_num (wd_amount r) (Some 0)) = true)
    by (destruct g; eapply enforce_ok_in; eauto; simpl; tauto).
  destruct (wd_amount r) as [a |]; [| discriminate].
  exists a. split; [reflexivity |].
  simpl in Hpos. unfold Z.gtb in Hpos.
  destruct (a ?= 0) eqn:E; try discriminate. now apply Z.compare_gt_iff in E.
Qed.

End WithdrawalsFacts.

(** In the first file the fee of a stored row is NULL or not negative. *)
Lemma users_schema_fee_not_negative (draft r : withdrawal) (f : Z) :
  Withdrawals.store UsersSchema draft = Ok r -> wd_fee r = Some f -> 0 <= f.
Proof.
  intros H Hf. apply store_ok in H as (_ & _ & _ & _ & Hc).
  assert (Hge : check_ok (ge_num (wd_fee r) (Some 0)) = true)
    by (eapply enforce_ok_in; eauto; simpl; tauto).
  rewrite Hf in Hge. simpl in Hge. unfold Z.geb in Hge.
  destruct (f ?= 0) eqn:E; try discriminate.
  - apply Z.compare_eq_iff in E. lia.
  - apply Z.compare_gt_iff in E. lia.
Qed.

(** C1. In both schema files, every row the withdrawals table holds after
    any sequence of INSERT, UPDATE and DELETE statements has [net_amount]
    equal to the value of [amount - fee]; the same holds of the row an
    INSERT or an UPDATE has just written; and a statement that gives
    [net_amount] a value (any value) is rejected, so the column holds
    nothing else. *)
Theorem C1_net_amount_is_amount_minus_fee (g : generation) :
  (forall script, Forall Withdrawals.net_amount_derived (Withdrawals.run g script))
  /\ (forall c s r, Withdrawals.insert_row g c s = Ok r ->
                    wd_net_amount r = minus (wd_amount r) (wd_fee r))
  /\ (forall c old s r, Withdrawals.update_row g c old s = Ok r ->
                        wd_net_amount r = minus (wd_amount r) (wd_fee r))
  /\ (forall c s v, Withdrawals.i_net_amount s = Val v ->
                    Withdrawals.insert_row g c s = Err (GeneratedColumn "net_amount"))
  /\ (forall c old s v, Withdrawals.s_net_amount s = Some (Val v) ->
                        Withdrawals.update_row g c old s
                        = Err (GeneratedColumn "net_amount")).
Proof.
  repeat split.
  - intro script. apply run_from_derives. constructor.
  - intros c s r. apply insert_row_derives.
  - intros c old s r. apply update_row_derives.
  - intros c s v H. unfold Withdrawals.insert_row. now rewrite H.
  - intros c old s v H. unfold Withdrawals.update_row. now rewrite H.
Qed.

(** An INSERT of amount 100.00 and fee 2.50 stores net_amount 97.50, an
    UPDATE of the fee to 4.00 stores 96.00, and naming a value for
    net_amount is an error. *)
Lemma C1_net_amount_witness :
  Withdrawals.insert_row UsersSchema Sample.clock0
    (Sample.insert_withdrawal (Val (Some 10000)) (Val (Some 250)) Dflt)
  = Ok (Sample.withdrawal_row (Some 10000) (Some 250) (Some 9750))
  /\ wd_net_amount (Sample.withdrawal_row (Some 10000) (Some 250) (Some 9750))
     = minus (Some 10000) (Some 250)
  /\ wd_net_amount (Sample.withdrawal_row (Some 10000) (Some 400) (Some 9600))
     = minus (Some 10000) (Some 400)
  /\ Withdrawals.insert_row ProfilesSchema Sample.clock0
       (Sample.insert_withdrawal (Val (Some 10000)) (Val (Some 250))
                                 (Val (Some 9750)))
     = Err (GeneratedColumn "net_amount")
  /\ Withdrawals.update_row ProfilesSchema Sample.clock0
       (Sample.withdrawal_row (Some 10000) (Some 250) (Some 9750))
       (Sample.set_fee (Val (Some 400)) (Some (Val (Some 1))))
     = Err (GeneratedColumn "net_amount").
Proof.
  destruct (C1_net_amount_is_amount_minus_fee UsersSchema)
    as (_ & Hins & Hupd & _ & _).
  destruct (C1_net_amount_is_amount_minus_fee ProfilesSchema)
    as (_ & _ & _ & Hgen_ins & Hgen_upd).
  split; [reflexivity |].
  split; [apply (Hins Sample.clock0
                   (Sample.insert_withdrawal (Val (Some 10000)) (Val (Some 250)) Dflt));
          reflexivity |].
  split; [apply (Hupd Sample.clock0
                   (Sample.withdrawal_row (Some 10000) (Some 250) (Some 9750))
                   (Sample.set_fee (Val (Some 400)) None));
          reflexivity |].
  split; [apply (Hgen_ins _ _ (Some 9750)); reflexivity
         | apply (Hgen_upd _ _ _ (Some 1)); reflexivity].
Defined.

(** ** Monetary columns *)

Lemma deposit_amount_positive (g : generation) (r r' : deposit) :
  Deposits.store g r = Ok r' -> exists a, dep_amount r' = Some a /\ 0 < a.
Proof.
  unfold Deposits.store. intro H.
  apply guard_ok in H as [_ H].
  apply bind_ok in H as [[] [Hc H]]. injection H as <-.
  assert (Hnn : not_null (dep_amount r) = true)
    by (destruct g; eapply enforce_ok_in; eauto; simpl; tauto).
  assert (Hpos : check_ok (gt_num (dep_amount r) (Some 0)) = true)
    by (destruct g; eapply enforce_ok_in; eauto; simpl; tauto).
  destruct (dep_amount r) as [a |]; [| discriminate].
  exists a. split; [reflexivity |].
  simpl in Hpos. unfold Z.gtb in Hpos.
  destruct (a ?= 0) eqn:E; try discriminate. now apply Z.compare_gt_iff in E.
Qed.

Lemma check_ge_zero (v : col Z) (x : Z) :
  check_ok (ge_num v (Some 0)) = true -> v = Some x -> 0 <= x.
Proof.
  intros H ->. simpl in H. unfold Z.geb in H.
  destruct (x ?= 0) eqn:E; try discriminate.
  - apply Z.compare_eq_iff in E. lia.
  - apply Z.compare_gt_iff in E. lia.
Qed.

(** A stored balance column is NULL or not negative. *)
Lemma balances_not_negative (r r' : account_balance) (x : Z) :
  AccountBalances.store r = Ok r' ->
  (bal_main_balance r' = Some x \/ bal_profit_balance r' = Some x
   \/ bal_total_deposited r' = Some x \/ bal_total_withdrawn r' = Some x) ->
  0 <= x.
Proof.
  unfold AccountBalances.store. intros H Hx.
  do 4 apply guard_ok in H as [_ H].
  apply bind_ok in H as [[] [Hc H]]. injection H as <-.
  destruct Hx as [Hx | [Hx | [Hx | Hx]]];
    (eapply check_ge_zero; [| exact Hx]);
    eapply enforce_ok_in; eauto; simpl; tauto.
Qed.

(** C5 (failing input). The second schema file declares [fee] without the
    [CHECK (fee >= 0)] of the first: an INSERT of amount 100.00 and fee
    -2.50 is stored there, with net_amount 102.50, while the first file
    rejects the same statement. *)
Theorem C5_profiles_schema_stores_negative_fee :
  Withdrawals.run ProfilesSchema
    [Withdrawals.INSERT Sample.clock0
       (Sample.insert_withdrawal (Val (Some 10000)) (Val (Some (-250))) Dflt)]
  = [Sample.withdrawal_row (Some 10000) (Some (-250)) (Some 10250)]
  /\ Withdrawals.insert_row UsersSchema Sample.clock0
       (Sample.insert_withdrawal (Val (Some 10000)) (Val (Some (-250))) Dflt)
     = Err (CheckViolation "withdrawals_fee_check").
Proof. split; reflexivity. Qed.

(** ** withdrawal_accounts: fields required by the account type *)

Lemma enforce_violation (cs : verdicts) (e : Sql.error) :
  In (e, false) cs -> exists e', enforce cs = Err e'.
Proof.
  intro Hin. destruct (enforce_result cs) as [Hok | Herr]; [| exact Herr].
  pose proof (enforce_ok_in _ _ _ Hok Hin). discriminate.
Qed.

Lemma type_fields_violation (g : generation) (r : withdrawal_account) :
  check_ok (WithdrawalAccounts.type_fields r) = false ->
  WithdrawalAccounts.rejected g r.
Proof.
  intro H. unfold WithdrawalAccounts.rejected, WithdrawalAccounts.store.
  destruct (enforce_violation (WithdrawalAccounts.constraints g r)
              (CheckViolation "withdrawal_accounts_check")) as [e He].
  - unfold WithdrawalAccounts.constraints. rewrite H. simpl. tauto.
  - exists e. now rewrite He.
Qed.

(** The CHECK is never unknown: it passes exactly on the three shapes. *)
Lemma type_fields_passes_iff (r : withdrawal_account) :
  check_ok (WithdrawalAccounts.type_fields r) = true <->
  (wa_account_type r = Some "bank"
   /\ wa_account_number r <> None /\ wa_account_holder_name r <> None)
  \/ (wa_account_type r = Some "crypto"
      /\ wa_crypto_address r <> None /\ wa_crypto_type r <> None)
  \/ (wa_account_type r = Some "paypal" /\ wa_paypal_email r <> None).
Proof.
  unfold WithdrawalAccounts.type_fields. simpl.
  destruct (wa_account_type r) as [ty |]; simpl.
  - destruct (String.eqb_spec ty "bank") as [-> | Hb]; simpl.
    { destruct (wa_account_number r), (wa_account_holder_name r); simpl;
        split; intro H; try discriminate; try (left; repeat split; congruence);
        destruct H as [(_ & ? & ?) | [(? & _) | (? & _)]]; congruence. }
    destruct (String.eqb_spec ty "crypto") as [-> | Hc]; simpl.
    { destruct (wa_crypto_address r), (wa_crypto_type r); simpl;
        split; intro H; try discriminate;
        try (right; left; repeat split; congruence);
        destruct H as [(? & _) | [(_ & ? & ?) | (? & _)]]; congruence. }
    destruct (String.eqb_spec ty "paypal") as [-> | Hp]; simpl.
    { destruct (wa_paypal_email r); simpl;
        split; intro H; try discriminate;
        try (right; right; split; [reflexivity | discriminate]);
        destruct H as [(? & _) | [(? & _) | (_ & ?)]]; congruence. }
    split; intro H; [discriminate |].
    destruct H as [(? & _) | [(? & _) | (? & _)]]; congruence.
  - split; intro H; [discriminate |].
    destruct H as [(? & _) | [(? & _) | (? & _)]]; congruence.
Qed.

Lemma type_fields_fails (r : withdrawal_account) :
  ~ ((wa_account_type r = Some "bank"
      /\ wa_account_number r <> None /\ wa_account_holder_name r <> None)
     \/ (wa_account_type r = Some "crypto"
         /\ wa_crypto_address r <> None /\ wa_crypto_type r <> None)
     \/ (wa_account_type r = Some "paypal" /\ wa_paypal_email r <> None)) ->
  check_ok (WithdrawalAccounts.type_fields r) = false.
Proof.
  intro H. destruct (check_ok (WithdrawalAccounts.type_fields r)) eqn:E;
    [| reflexivity].
  exfalso. apply H. now apply type_fields_passes_iff.
Qed.

(** C6. In both schema files an attempted withdrawal_accounts row fails the
    table CHECK, and is therefore not stored, when its account type is
    'crypto' and crypto_address is NULL; likewise when the type is 'bank'
    and account_number or account_holder_name is NULL, when the type is
    'paypal' and paypal_email is NULL, and when the type is any other value
    (NULL included).  Conversely a stored row has one of the three types
    with the fields of that type present. *)
Theorem C6_account_fields_match_type (g : generation) (r : withdrawal_account) :
  (wa_account_type r = Some "crypto" -> wa_crypto_address r = None ->
   check_ok (WithdrawalAccounts.type_fields r) = false
   /\ WithdrawalAccounts.rejected g r)
  /\ (wa_account_type r = Some "bank" ->
      wa_account_number r = None \/ wa_account_holder_name r = None ->
      check_ok (WithdrawalAccounts.type_fields r) = false
      /\ WithdrawalAccounts.rejected g r)
  /\ (wa_account_type r = Some "paypal" -> wa_paypal_email r = None ->
      check_ok (WithdrawalAccounts.type_fields r) = false
      /\ WithdrawalAccounts.rejected g r)
  /\ (wa_account_type r <> Some "bank" -> wa_account_type r <> Some "crypto" ->
      wa_account_type r <> Some "paypal" ->
      check_ok (WithdrawalAccounts.type_fields r) = false
      /\ WithdrawalAccounts.rejected g r)
  /\ (forall r', WithdrawalAccounts.store g r = Ok r' ->
      (wa_account_type r' = Some "bank"
       /\ wa_account_number r' <> None /\ wa_account_holder_name r' <> None)
      \/ (wa_account_type r' = Some "crypto"
          /\ wa_crypto_address r' <> None /\ wa_crypto_type r' <> None)
      \/ (wa_account_type r' = Some "paypal" /\ wa_paypal_email r' <> None)).
Proof.
  assert (Hrej : forall P : Prop,
             (P -> ~ ((wa_account_type r = Some "bank"
                       /\ wa_account_number r <> None
                       /\ wa_account_holder_name r <> None)
                      \/ (wa_account_type r = Some "crypto"
                          /\ wa_crypto_address r <> None
                          /\ wa_crypto_type r <> None)
                      \/ (wa_account_type r = Some "paypal"
                          /\ wa_paypal_email r <> None))) ->
             P -> check_ok (WithdrawalAccounts.type_fields r) = false
                  /\ WithdrawalAccounts.rejected g r).
  { intros P HP p. pose proof (type_fields_fails r (HP p)) as Hf.
    split; [exact Hf | now apply type_fields_violation]. }
  split; [| split; [| split; [| split]]].
  - intros Hty Hnull. apply (Hrej True); [| exact I]. intros _ H.
    destruct H as [(? & _) | [(_ & ? & _) | (? & _)]]; congruence.
  - intros Hty Hnull. apply (Hrej True); [| exact I]. intros _ H.
    destruct H as [(_ & ? & ?) | [(? & _) | (? & _)]];
      try congruence; destruct Hnull; congruence.
  - intros Hty Hnull. apply (Hrej True); [| exact I]. intros _ H.
    destruct H as [(? & _) | [(? & _) | (_ & ?)]]; congruence.
  - intros Hb Hc Hp. apply (Hrej True); [| exact I]. intros _ H.
    destruct H as [(? & _) | [(? & _) | (? & _)]]; congruence.
  - intros r' H. unfold WithdrawalAccounts.store in H.
    apply bind_ok in H as [[] [Hc H]]. injection H as <-.
    apply type_fields_passes_iff.
    eapply enforce_ok_in; [exact Hc |].
    unfold WithdrawalAccounts.constraints. simpl. tauto.
Qed.

(** ** The dashboard summary view *)

Lemma eq_text_holds (v : col text) (s : text) :
  holds (eq_text v (Some s)) = true <-> v = Some s.
Proof.
  destruct v as [x |]; simpl.
  - destruct (String.eqb_spec x s) as [-> | Hne]; split; intro H;
      try reflexivity; try discriminate. congruence.
  - split; discriminate.
Qed.

(** C7. For every database state, the [pending_deposits] field of
    admin_dashboard_summary is the number of rows of deposits whose status
    is 'pending' in that state. *)
Theorem C7_pending_deposits_count (db : View.database) :
  View.pending_deposits (View.admin_dashboard_summary db)
  = View.number_of_pending_deposits (View.deposits db).
Proof.
  unfold View.admin_dashboard_summary, View.from_where, count_star.
  cbn [View.pending_deposits].
  induction (View.deposits db) as [| d rest IH]; [reflexivity |].
  cbn [filter View.number_of_pending_deposits].
  destruct (dep_status d) as [s |]; cbn [eq_text lift_cmp holds].
  - destruct (string_dec s "pending") as [-> | Hne].
    + rewrite String.eqb_refl. cbn [List.length].
      rewrite Nat2Z.inj_succ, IH. lia.
    + destruct (String.eqb_spec s "pending"); [contradiction | exact IH].
  - exact IH.
Qed.

(** Rejected payout accounts of each kind, and an accepted crypto account. *)
Lemma C6_account_fields_witness :
  WithdrawalAccounts.rejected UsersSchema
    (Sample.payout_account (Some "crypto") None None (Some "bitcoin") None None)
  /\ WithdrawalAccounts.rejected ProfilesSchema
       (Sample.payout_account (Some "bank") (Some "DE00") None None None None)
  /\ WithdrawalAccounts.rejected ProfilesSchema
       (Sample.payout_account (Some "paypal") None None None None None)
  /\ WithdrawalAccounts.rejected UsersSchema
       (Sample.payout_account (Some "cheque") (Some "DE00") (Some "Bob")
                              None None None)
  /\ wa_crypto_address
       (Sample.payout_account (Some "crypto") None None (Some "bitcoin")
                              (Some "bc1q") None) <> None.
Proof.
  split; [| split; [| split; [| split]]].
  - destruct (C6_account_fields_match_type UsersSchema
                (Sample.payout_account (Some "crypto") None None
                                       (Some "bitcoin") None None))
      as (Hcrypto & _).
    now apply Hcrypto.
  - destruct (C6_account_fields_match_type ProfilesSchema
                (Sample.payout_account (Some "bank") (Some "DE00") None None
                                       None None))
      as (_ & Hbank & _).
    apply Hbank; [reflexivity | right; reflexivity].
  - destruct (C6_account_fields_match_type ProfilesSchema
                (Sample.payout_account (Some "paypal") None None None None None))
      as (_ & _ & Hpaypal & _).
    now apply Hpaypal.
  - destruct (C6_account_fields_match_type UsersSchema
                (Sample.payout_account (Some "cheque") (Some "DE00")
                                       (Some "Bob") None None None))
      as (_ & _ & _ & Hother & _).
    apply Hother; discriminate.
  - destruct (C6_account_fields_match_type UsersSchema
                (Sample.payout_account (Some "crypto") None None
                                       (Some "bitcoin") (Some "bc1q") None))
      as (_ & _ & _ & _ & Hstored).
    destruct (Hstored _ eq_refl) as [(Hty & _) | [(_ & Ha & _) | (Hty & _)]].
    + discriminate Hty.
    + exact Ha.
    + discriminate Hty.
Defined.

Example summary_of_sample_database :
  View.admin_dashboard_summary Sample.database
  = {| View.total_users := 2;
       View.kyc_approved_users := 1;
       View.pending_kyc := 1;
       View.pending_deposits := 2;
       View.pending_withdrawals := 1;
       View.total_deposits := 25000;
       View.total_withdrawals := 0 |}.
Proof. reflexivity. Qed.

(** ** Row-level security *)

Lemma holds_tri_and (a b : tri) : holds (tri_and a b) = holds a && holds b.
Proof. destruct a as [[] |], b as [[] |]; reflexivity. Qed.

Lemma holds_eq_uuid (uid : uuid) (v : col uuid) :
  holds (eq_uuid (Some uid) v) = true <-> v = Some uid.
Proof.
  destruct v as [x |]; simpl.
  - destruct (N.eqb_spec uid x) as [-> | Hne]; split; intro H;
      try reflexivity; try discriminate. congruence.
  - split; discriminate.
Qed.

Section RlsFacts.
Import Rls.
Variable accounts : list account.
Variable uid : uuid.

Ltac policies :=
  unfold insert_permitted, passes_using, passes_with_check,
         using_of, with_check_of, admin_only;
  cbn.

(** Which proposed rows an INSERT may add. *)
Lemma deposit_insert_rule (g : generation) (r : deposit) :
  insert_permitted (deposit_policies g) accounts uid r
  = match g with
    | UsersSchema => holds (eq_uuid (Some uid) (dep_user_id r))
                     && holds (eq_text (dep_status r) (Some "pending"))
    | ProfilesSchema => false
    end.
Proof. destruct g; policies; rewrite ?orb_false_r, ?holds_tri_and; auto. Qed.

Lemma withdrawal_insert_rule (g : generation) (r : withdrawal) :
  insert_permitted (withdrawal_policies g) accounts uid r
  = match g with
    | UsersSchema => holds (eq_uuid (Some uid) (wd_user_id r))
                     && holds (eq_text (wd_status r) (Some "pending"))
    | ProfilesSchema => false
    end.
Proof. destruct g; policies; rewrite ?orb_false_r, ?holds_tri_and; auto. Qed.

End RlsFacts.

(** *** Rewriting a statement *)

(** The nesting bound of the expansion is never what stops it. *)
Lemma rewrite_is_decided (g : generation) (rel : Rls.relation)
      (k : Statements.kind) :
  Statements.rewrite g rel k <> Some Statements.TooDeep.
Proof.
  destruct g, rel, k as [| | [] | []]; vm_compute; discriminate.
Qed.

(** A statement on a table of the file is refused by the rewriter exactly
    when one of the policies added to it holds a subquery: every such
    subquery selects from users/profiles, whose own SELECT policies query
    that table again. *)
Lemma rewrite_aborts_on_subquery (g : generation) (rel : Rls.relation)
      (k : Statements.kind) :
  Statements.rewrite g rel k
  = if Statements.declared g rel
    then match Statements.subqueries g rel (Statements.commands_of k) with
         | [] => None
         | _ => Some (Statements.InfiniteRecursion Rls.AccountsRel)
         end
    else Some (Statements.UndefinedTable rel).
Proof. destruct g, rel, k as [| | [] | []]; reflexivity. Qed.

(** The nesting bound plays no part: three levels decide every
    statement. *)
Lemma expand_depth (n : nat) (g : generation) (rel : Rls.relation)
      (k : Statements.kind) :
  Statements.expand (3 + n) g [] rel (Statements.commands_of k)
  = Statements.expand (S (List.length Statements.relations)) g [] rel
      (Statements.commands_of k).
Proof. destruct g, rel, k as [| | [] | []]; reflexivity. Qed.

(** A plain INSERT into users/profiles, the KYC table, deposits or
    withdrawals is rewritten with INSERT policies only, none of which holds
    a subquery: it is run, and the new row is checked against them. *)
Lemma plain_insert_is_run (g : generation) (accounts : list account)
      (uid : uuid) :
  (forall r : account,
      Statements.insert g Rls.AccountsRel accounts uid r
      = Statements.Completed
          (Rls.insert_permitted (Rls.account_policies g)
             (Statements.readable g accounts uid) uid r))
  /\ (forall r : kyc,
         Statements.insert g Rls.KycRel accounts uid r
         = Statements.Completed
             (Rls.insert_permitted (Rls.kyc_policies g)
                (Statements.readable g accounts uid) uid r))
  /\ (forall r : deposit,
         Statements.insert g Rls.DepositsRel accounts uid r
         = Statements.Completed
             (Rls.insert_permitted (Rls.deposit_policies g)
                (Statements.readable g accounts uid) uid r))
  /\ (forall r : withdrawal,
         Statements.insert g Rls.WithdrawalsRel accounts uid r
         = Statements.Completed
             (Rls.insert_permitted (Rls.withdrawal_policies g)
                (Statements.readable g accounts uid) uid r)).
Proof. destruct g; repeat split. Qed.

(** A table without a policy for SELECT returns no row. *)
Lemma filter_nothing {A} (keep : A -> bool) (t : list A) :
  (forall r, keep r = false) -> filter keep t = [].
Proof.
  intro H. induction t as [| r rest IH]; simpl; [reflexivity |].
  now rewrite H.
Qed.

(** C2 (failing input). In the first schema file the caller with id 1 has
    the role 'admin' in public.users.  The caller's SELECT on deposits is
    not answered with the deposit of user 7: the statement is refused
    with the error 42P17, and so is the caller's UPDATE of that deposit.
    The same holds for every caller, whatever the rows of users/profiles:
    a SELECT on deposits or on the KYC table in either file, a SELECT on
    the withdrawals of the first file and every UPDATE of a deposit, a
    withdrawal or a KYC row in the first file is refused with 42P17; in
    the second file a SELECT on withdrawals returns no row and an UPDATE
    changes no deposit and no withdrawal. *)
Theorem C2_admin_statements_are_refused :
  Rls.is_admin Sample.accounts 1%N = true
  /\ Statements.select UsersSchema Rls.DepositsRel Sample.accounts 1%N
       [Sample.deposit_of_7 "pending"]
     = Statements.Aborted (Statements.InfiniteRecursion Rls.AccountsRel)
  /\ Statements.update UsersSchema Rls.DepositsRel Sample.accounts 1%N true
       (Sample.deposit_of_7 "pending") (Sample.deposit_of_7 "approved")
     = Statements.Aborted (Statements.InfiniteRecursion Rls.AccountsRel)
  /\ (forall g accounts uid (t : list deposit),
         Statements.select g Rls.DepositsRel accounts uid t
         = Statements.Aborted (Statements.InfiniteRecursion Rls.AccountsRel))
  /\ (forall g accounts uid (t : list kyc),
         Statements.select g Rls.KycRel accounts uid t
         = Statements.Aborted (Statements.InfiniteRecursion Rls.AccountsRel))
  /\ (forall accounts uid (t : list withdrawal),
         Statements.select UsersSchema Rls.WithdrawalsRel accounts uid t
         = Statements.Aborted (Statements.InfiniteRecursion Rls.AccountsRel)
         /\ Statements.select ProfilesSchema Rls.WithdrawalsRel accounts uid t
            = Statements.Completed [])
  /\ (forall accounts uid reads (old new : deposit),
         Statements.update UsersSchema Rls.DepositsRel accounts uid reads old new
         = Statements.Aborted (Statements.InfiniteRecursion Rls.AccountsRel)
         /\ Statements.row_after
              (Statements.update ProfilesSchema Rls.DepositsRel
                 accounts uid reads old new) old new
            = old)
  /\ (forall accounts uid reads (old new : withdrawal),
         Statements.update UsersSchema Rls.WithdrawalsRel accounts uid reads
           old new
         = Statements.Aborted (Statements.InfiniteRecursion Rls.AccountsRel)
         /\ Statements.update ProfilesSchema Rls.WithdrawalsRel accounts uid
              reads old new
            = Statements.Completed Statements.RowNotTargeted)
  /\ (forall accounts uid reads (old new : kyc),
         Statements.update UsersSchema Rls.KycRel accounts uid reads old new
         = Statements.Aborted (Statements.InfiniteRecursion Rls.AccountsRel)).
Proof.
  split; [reflexivity |]. split; [reflexivity |]. split; [reflexivity |].
  split; [| split; [| split; [| split; [| split]]]].
  - intros g accounts uid t. now destruct g.
  - intros g accounts uid t. now destruct g.
  - intros accounts uid t. split; [reflexivity |].
    unfold Statements.select. cbn. f_equal. now apply filter_nothing.
  - intros accounts uid reads old new. split; [now destruct reads |].
    now destruct reads.
  - intros accounts uid reads old new. split; now destruct reads.
  - intros accounts uid reads old new. now destruct reads.
Qed.

(** C3. In either schema file, for every authenticated caller (admin or
    not), an INSERT into deposits or withdrawals of a row whose status is
    not 'pending' is refused by row security; and every INSERT policy
    declared on the two tables passes only rows whose status is
    'pending'. *)
Theorem C3_insert_starts_pending (g : generation) (accounts : list account)
        (uid : uuid) :
  (forall d : deposit,
      dep_status d <> Some "pending" ->
      Rls.insert_permitted (Rls.deposit_policies g) accounts uid d = false)
  /\ (forall w : withdrawal,
         wd_status w <> Some "pending" ->
         Rls.insert_permitted (Rls.withdrawal_policies g) accounts uid w = false)
  /\ (forall p d,
         In p (Rls.deposit_policies g) -> Rls.pol_cmd p = Rls.ForInsert ->
         holds (Rls.with_check_of p accounts uid d) = true ->
         dep_status d = Some "pending")
  /\ (forall p w,
         In p (Rls.withdrawal_policies g) -> Rls.pol_cmd p = Rls.ForInsert ->
         holds (Rls.with_check_of p accounts uid w) = true ->
         wd_status w = Some "pending").
Proof.
  split; [| split; [| split]].
  - intros d Hst. rewrite deposit_insert_rule. destruct g; [| reflexivity].
    destruct (holds (eq_text (dep_status d) (Some "pending"))) eqn:E.
    + apply eq_text_holds in E. contradiction.
    + apply andb_false_r.
  - intros w Hst. rewrite withdrawal_insert_rule. destruct g; [| reflexivity].
    destruct (holds (eq_text (wd_status w) (Some "pending"))) eqn:E.
    + apply eq_text_holds in E. contradiction.
    + apply andb_false_r.
  - intros p d Hin Hcmd Hpass. destruct g; simpl in Hin;
      repeat (destruct Hin as [<- | Hin]; try discriminate Hcmd);
      try contradiction.
    unfold Rls.with_check_of in Hpass. cbn in Hpass.
    rewrite holds_tri_and in Hpass. apply andb_prop in Hpass as [_ Hpass].
    now apply eq_text_holds.
  - intros p w Hin Hcmd Hpass. destruct g; simpl in Hin;
      repeat (destruct Hin as [<- | Hin]; try discriminate Hcmd);
      try contradiction.
    unfold Rls.with_check_of in Hpass. cbn in Hpass.
    rewrite holds_tri_and in Hpass. apply andb_prop in Hpass as [_ Hpass].
    now apply eq_text_holds.
Qed.

(** User 7 may not insert an own deposit that is already 'approved', and
    may insert an own withdrawal with the default status. *)
Lemma C3_insert_starts_pending_witness :
  Rls.is_admin Sample.accounts 7%N = false
  /\ Rls.insert_permitted (Rls.deposit_policies UsersSchema) Sample.accounts 7%N
       (Sample.deposit_of_7 "approved") = false
  /\ Rls.insert_permitted (Rls.withdrawal_policies UsersSchema) Sample.accounts 7%N
       (Withdrawals.with_net_amount
          (Withdrawals.draft_of_insert Sample.clock0
             (Sample.insert_withdrawal (Val (Some 10000)) Dflt Dflt))
          (Some 10000))
     = true
  /\ dep_status (Sample.deposit_of_7 "pending") = Some "pending".
Proof.
  destruct (C3_insert_starts_pending UsersSchema Sample.accounts 7%N)
    as (Hdep & _ & Hpol & _).
  split; [reflexivity |]. split; [| split; [reflexivity |]].
  - apply Hdep. discriminate.
  - apply (Hpol Rls.users_insert_own_deposits (Sample.deposit_of_7 "pending"));
      [simpl; tauto | reflexivity | reflexivity].
Defined.

(** ** users / profiles: no UPDATE changes a row *)

(** C4. For every authenticated caller, admin or not, every users/profiles
    row and every UPDATE of that row, the role, kyc_status and
    account_status of the row are the same after the statement as before,
    since the statement changes nothing.  In the first schema file the
    WITH CHECK of users_update_own queries public.users, whose SELECT
    policy admins_read_all_users queries it again, so every UPDATE is
    refused with 42P17 (as the UPDATE by which user 7 would set the own
    kyc_status to 'approved'); the second file declares no UPDATE policy
    on profiles, so an UPDATE reaches no row, or is refused with 42P17
    when it reads the table. *)
Theorem C4_status_fields_unchanged (g : generation) (accounts : list account)
        (uid : uuid) (reads : bool) (old new : account) :
  acc_role
    (Statements.row_after
       (Statements.update g Rls.AccountsRel accounts uid reads old new) old new)
  = acc_role old
  /\ acc_kyc_status
       (Statements.row_after
          (Statements.update g Rls.AccountsRel accounts uid reads old new)
          old new)
     = acc_kyc_status old
  /\ acc_account_status
       (Statements.row_after
          (Statements.update g Rls.AccountsRel accounts uid reads old new)
          old new)
     = acc_account_status old
  /\ Statements.update UsersSchema Rls.AccountsRel accounts uid reads old new
     = Statements.Aborted (Statements.InfiniteRecursion Rls.AccountsRel)
  /\ Statements.update ProfilesSchema Rls.AccountsRel accounts uid reads old new
     = (if reads
        then Statements.Aborted (Statements.InfiniteRecursion Rls.AccountsRel)
        else Statements.Completed Statements.RowNotTargeted)
  /\ Statements.update UsersSchema Rls.AccountsRel Sample.accounts 7%N true
       Sample.user7 Sample.user7_self_approved
     = Statements.Aborted (Statements.InfiniteRecursion Rls.AccountsRel).
Proof.
  assert (Hu : Statements.update UsersSchema Rls.AccountsRel accounts uid
                 reads old new
               = Statements.Aborted
                   (Statements.InfiniteRecursion Rls.AccountsRel))
    by now destruct reads.
  assert (Hp : Statements.update ProfilesSchema Rls.AccountsRel accounts uid
                 reads old new
               = (if reads
                  then Statements.Aborted
                         (Statements.InfiniteRecursion Rls.AccountsRel)
                  else Statements.Completed Statements.RowNotTargeted))
    by now destruct reads.
  assert (Hrow : Statements.row_after
                   (Statements.update g Rls.AccountsRel accounts uid reads
                      old new) old new = old).
  { destruct g; [now rewrite Hu | rewrite Hp; now destruct reads]. }
  rewrite Hrow. repeat split; assumption.
Qed.

(** ** The admin dashboard gate *)

Section AdminDashboardFacts.
Import AdminDashboard.
Variable b : backend.

(** The stats fetch and the admin content are reached exactly when the
    role check resolves with [true]. *)
Lemma load_without_confirmation :
  ~ role_confirmed b ->
  ~ In FetchStats (trace_of_load b)
  /\ In (Navigate "/admin/login") (trace_of_load b)
  /\ isAdmin (state_after_load b) = false
  /\ render (state_after_load b) = AccessDenied.
Proof.
  intro Hno. unfold state_after_load, trace_of_load, checkAdminAccess.
  destruct (getUser b) as [[u |] | e] eqn:Hget; cbn.
  - destruct (has_role b (id u) "admin") as [[[] |] | e] eqn:Hrole; cbn.
    + exfalso. apply Hno. exists u. auto.
    + destruct (signOut b); cbn; repeat split; try tauto;
        intro H; repeat (destruct H as [H | H]; try discriminate H); exact H.
    + destruct (signOut b); cbn; repeat split; try tauto;
        intro H; repeat (destruct H as [H | H]; try discriminate H); exact H.
    + repeat split; try tauto;
        intro H; repeat (destruct H as [H | H]; try discriminate H); exact H.
  - repeat split; try tauto;
      intro H; repeat (destruct H as [H | H]; try discriminate H); exact H.
  - repeat split; try tauto;
      intro H; repeat (destruct H as [H | H]; try discriminate H); exact H.
Qed.

Lemma denied_not_confirmed : role_denied b -> ~ role_confirmed b.
Proof.
  intros (u & roleData & Hget & Hrole & Hne) (u' & Hget' & Hrole').
  rewrite Hget in Hget'. injection Hget' as <-.
  rewrite Hrole in Hrole'. injection Hrole' as ->. now apply Hne.
Qed.

(** When the check comes to no answer the handler goes to the login
    route; it signs nobody out. *)
Lemma load_unanswered :
  role_unanswered b ->
  In (Navigate "/admin/login") (trace_of_load b)
  /\ ~ In AuthSignOut (trace_of_load b)
  /\ ~ In FetchStats (trace_of_load b)
  /\ render (state_after_load b) = AccessDenied.
Proof.
  unfold state_after_load, trace_of_load, checkAdminAccess.
  intros [Hget | [(e & Hget) | (u & e & Hget & Hrole)]]; rewrite Hget; cbn;
    try (rewrite Hrole; cbn);
    (split; [tauto |]); repeat split;
    intro H; repeat (destruct H as [H | H]; try discriminate H); exact H.
Qed.

Lemma load_is_one_of_three :
  role_confirmed b \/ role_denied b \/ role_unanswered b.
Proof.
  unfold role_confirmed, role_denied, role_unanswered.
  destruct (getUser b) as [[u |] | e] eqn:Hget.
  - destruct (has_role b (id u) "admin") as [[[] |] | e] eqn:Hrole.
    + left. exists u. auto.
    + right; left. exists u, (Some false). repeat split; auto. discriminate.
    + right; left. exists u, None. repeat split; auto. discriminate.
    + right; right; right; right. exists u, e. auto.
  - right; right; left. reflexivity.
  - right; right; right; left. exists e. reflexivity.
Qed.

End AdminDashboardFacts.

(** C8, as stated, fails when the has_role call rejects: the role is not
    confirmed, and the handler logs the error and goes to the admin login
    route without signing the session out. *)
Lemma C8_rejected_check_keeps_session :
  ~ AdminDashboard.role_confirmed MoreSamples.dashboard_unreachable
  /\ AdminDashboard.trace_of_load MoreSamples.dashboard_unreachable
     = [AdminDashboard.AuthGetUser;
        AdminDashboard.SetUser Sample.session_user;
        AdminDashboard.RpcHasRole [117; 55]%N "admin";
        AdminDashboard.ConsoleError "Auth error:" Sample.network_down;
        AdminDashboard.Navigate "/admin/login";
        AdminDashboard.SetLoading false]
  /\ ~ In AdminDashboard.AuthSignOut
         (AdminDashboard.trace_of_load MoreSamples.dashboard_unreachable).
Proof.
  split; [| split].
  - intros (u & _ & Hrole). discriminate Hrole.
  - reflexivity.
  - cbn. intro H.
    repeat (destruct H as [H | H]; try discriminate H). exact H.
Qed.

(** C8 (amended). On a load of the admin dashboard exactly one of three
    things happens.  When the has_role call resolves without confirming
    the admin role, the handler shows the 'Unauthorized' toast, calls
    signOut and then navigates to '/admin/login'.  When the check comes to
    no answer (nobody is signed in, or getUser or has_role rejects) the
    handler navigates to '/admin/login' and does not call signOut.  In
    both cases fetchStats is not called and the page shows 'Access Denied'
    instead of the admin content.  When the call resolves with [true], the
    handler calls fetchStats and the admin content is shown. *)
Theorem C8_admin_gate (b : AdminDashboard.backend) :
  (AdminDashboard.role_denied b ->
   AdminDashboard.then_later AdminDashboard.AuthSignOut
     (AdminDashboard.Navigate "/admin/login") (AdminDashboard.trace_of_load b)
   /\ In (AdminDashboard.ToastError "Unauthorized: Admin access required")
         (AdminDashboard.trace_of_load b)
   /\ ~ In AdminDashboard.FetchStats (AdminDashboard.trace_of_load b)
   /\ AdminDashboard.render (AdminDashboard.state_after_load b)
      = AdminDashboard.AccessDenied)
  /\ (AdminDashboard.role_unanswered b ->
      In (AdminDashboard.Navigate "/admin/login")
         (AdminDashboard.trace_of_load b)
      /\ ~ In AdminDashboard.AuthSignOut (AdminDashboard.trace_of_load b)
      /\ ~ In AdminDashboard.FetchStats (AdminDashboard.trace_of_load b)
      /\ AdminDashboard.render (AdminDashboard.state_after_load b)
         = AdminDashboard.AccessDenied)
  /\ (AdminDashboard.role_confirmed b ->
      In AdminDashboard.FetchStats (AdminDashboard.trace_of_load b)
      /\ ~ In AdminDashboard.AuthSignOut (AdminDashboard.trace_of_load b)
      /\ AdminDashboard.render (AdminDashboard.state_after_load b)
         = AdminDashboard.AdminContent)
  /\ (~ AdminDashboard.role_confirmed b ->
      ~ In AdminDashboard.FetchStats (AdminDashboard.trace_of_load b)
      /\ In (AdminDashboard.Navigate "/admin/login")
            (AdminDashboard.trace_of_load b)
      /\ AdminDashboard.render (AdminDashboard.state_after_load b)
         = AdminDashboard.AccessDenied)
  /\ (AdminDashboard.role_confirmed b \/ AdminDashboard.role_denied b
      \/ AdminDashboard.role_unanswered b).
Proof.
  split; [| split; [| split; [| split]]].
  - intro Hden.
    destruct (load_without_confirmation b (denied_not_confirmed b Hden))
      as (Hnf & _ & _ & Hr).
    destruct Hden as (u & roleData & Hget & Hrole & Hne).
    assert (Ht : AdminDashboard.truthy roleData = false)
      by (destruct roleData as [[] |]; [contradiction | reflexivity ..]).
    split; [| split; [| split; assumption]];
      unfold AdminDashboard.then_later, AdminDashboard.trace_of_load,
             AdminDashboard.checkAdminAccess;
      rewrite Hget; cbn; rewrite Hrole; cbn; rewrite Ht; cbn.
    + destruct (AdminDashboard.signOut b) as [[] | e]; cbn.
      * exists [AdminDashboard.AuthGetUser; AdminDashboard.SetUser u;
                AdminDashboard.RpcHasRole (AdminDashboard.id u) "admin";
                AdminDashboard.ToastError "Unauthorized: Admin access required"],
               [], [AdminDashboard.SetLoading false].
        reflexivity.
      * exists [AdminDashboard.AuthGetUser; AdminDashboard.SetUser u;
                AdminDashboard.RpcHasRole (AdminDashboard.id u) "admin";
                AdminDashboard.ToastError "Unauthorized: Admin access required"],
               [AdminDashboard.ConsoleError "Auth error:" e],
               [AdminDashboard.SetLoading false].
        reflexivity.
    + destruct (AdminDashboard.signOut b) as [[] | e]; cbn; tauto.
  - apply load_unanswered.
  - intros (u & Hget & Hrole).
    unfold AdminDashboard.state_after_load, AdminDashboard.trace_of_load,
           AdminDashboard.checkAdminAccess.
    rewrite Hget. cbn. rewrite Hrole. cbn.
    repeat split; try tauto.
    intro H; repeat (destruct H as [H | H]; try discriminate H); exact H.
  - intro Hno.
    destruct (load_without_confirmation b Hno) as (Hnf & Hnav & _ & Hr).
    auto.
  - apply load_is_one_of_three.
Qed.

(** Loads on which has_role resolves with false, rejects, resolves with
    true and resolves with null. *)
Lemma C8_admin_gate_witness :
  AdminDashboard.then_later AdminDashboard.AuthSignOut
    (AdminDashboard.Navigate "/admin/login")
    (AdminDashboard.trace_of_load (Sample.dashboard_backend (Some false)))
  /\ ~ In AdminDashboard.AuthSignOut
         (AdminDashboard.trace_of_load MoreSamples.dashboard_unreachable)
  /\ In AdminDashboard.FetchStats
        (AdminDashboard.trace_of_load (Sample.dashboard_backend (Some true)))
  /\ ~ In AdminDashboard.FetchStats
         (AdminDashboard.trace_of_load (Sample.dashboard_backend None)).
Proof.
  split; [| split; [| split]].
  - destruct (C8_admin_gate (Sample.dashboard_backend (Some false)))
      as (Hdenied & _).
    apply Hdenied. exists Sample.session_user, (Some false).
    repeat split; discriminate.
  - destruct (C8_admin_gate MoreSamples.dashboard_unreachable)
      as (_ & Hunanswered & _).
    apply Hunanswered. right; right.
    exists Sample.session_user, Sample.network_down. split; reflexivity.
  - destruct (C8_admin_gate (Sample.dashboard_backend (Some true)))
      as (_ & _ & Hconfirmed & _).
    apply Hconfirmed. exists Sample.session_user. split; reflexivity.
  - destruct (C8_admin_gate (Sample.dashboard_backend None))
      as (_ & _ & _ & Hother & _).
    apply Hother. intros (u & _ & Hrole). discriminate Hrole.
Defined.

(** ** The signup handler *)

Section SignupFacts.
Import Signup.
Variable f : form.
Variable b : backend.




End SignupFacts.




(** C10. When the submit handler runs with agreedToTerms false it prevents
    the form's default action, shows the terms error and returns: no call
    to the auth service or the database is made, and no other effect
    occurs. *)
Theorem C10_terms_not_agreed (f : Signup.form) (b : Signup.backend) :
  Signup.agreedToTerms f = false ->
  Signup.handleSignup f b
  = ([Signup.PreventDefault;
      Signup.ToastError "Please agree to the Terms & Conditions"],
     Resolved tt)
  /\ existsb Signup.is_remote_call (Signup.trace_of_submit f b) = false.
Proof.
  intro Hterms. unfold Signup.trace_of_submit, Signup.handleSignup.
  rewrite Hterms. cbn. split; reflexivity.
Qed.

(** A filled form submitted without the terms box checked. *)
Lemma C10_terms_not_agreed_witness :
  Signup.trace_of_submit (Sample.signup_form false)
    (Sample.signup_backend Sample.fine Sample.fine)
  = [Signup.PreventDefault;
     Signup.ToastError "Please agree to the Terms & Conditions"].
Proof.
  destruct (C10_terms_not_agreed (Sample.signup_form false)
              (Sample.signup_backend Sample.fine Sample.fine) eq_refl)
    as [Hrun _].
  unfold Signup.trace_of_submit. now rewrite Hrun.
Defined.

(* ================================================================== *)
(** * Part II, continued: further properties of the schema and the pages *)
(* ================================================================== *)

(** ** Row security of the remaining commands and tables *)

Section MoreRlsFacts.
Import Rls RlsMore.
Variable readable : list account.
Variable uid : uuid.

Ltac rules :=
  unfold insert_permitted, passes_using, passes_with_check,
         using_of, with_check_of, admin_only;
  cbn.


Lemma kyc_documents_update_rules (r : kyc) :
  passes_using (kyc_policies ProfilesSchema) readable uid ForUpdate r
  = holds (eq_uuid (Some uid) (kyc_user_id r))
  /\ passes_with_check (kyc_policies ProfilesSchema) readable uid ForUpdate r
     = holds (eq_uuid (Some uid) (kyc_user_id r)).
Proof. rules; rewrite ?orb_false_r; auto. Qed.

Lemma log_insert_rules (a : activity_log) (t : transaction) :
  insert_permitted (activity_log_policies UsersSchema) readable uid a
  = holds (eq_uuid (Some uid) (al_user_id a))
  /\ insert_permitted transaction_policies readable uid t
     = holds (eq_uuid (Some uid) (tx_user_id t)).
Proof. rules; rewrite ?orb_false_r; auto. Qed.

Lemma activity_read_rule (r : activity_log) :
  passes_using (activity_log_policies ProfilesSchema) readable uid ForSelect r
  = holds (eq_uuid (Some uid) (al_user_id r)).
Proof. rules; now rewrite orb_false_r. Qed.

Lemma kyc_insert_rule (g : generation) (r : kyc) :
  insert_permitted (kyc_policies g) readable uid r
  = holds (eq_uuid (Some uid) (kyc_user_id r)).
Proof. destruct g; rules; now rewrite ?orb_false_r. Qed.

Lemma account_insert_rule (g : generation) (r : account) :
  insert_permitted (account_policies g) readable uid r = false.
Proof. destruct g; reflexivity. Qed.

End MoreRlsFacts.

Ltac fold_insert :=
  repeat match goal with
         | |- context [Rls.passes_with_check ?ps ?a ?u Rls.ForInsert ?r] =>
             change (Rls.passes_with_check ps a u Rls.ForInsert r)
               with (Rls.insert_permitted ps a u r)
         end.

(** An UPDATE that was rewritten updates the row exactly when the four
    policy verdicts hold. *)
Lemma updated_iff (u s u' s' reads : bool) :
  (if u && (negb reads || s)
   then if u' && (negb reads || s')
        then Statements.RowUpdated else Statements.RowViolation
   else Statements.RowNotTargeted) = Statements.RowUpdated
  <-> u = true /\ u' = true /\ (reads = true -> s = true /\ s' = true).
Proof.
  destruct u, u', s, s', reads; cbn; split; try discriminate; try tauto;
    intros (? & ? & H); try discriminate; destruct (H eq_refl); discriminate.
Qed.

Lemma completed_inj {A} (x y : A) :
  Statements.Completed x = Statements.Completed y <-> x = y.
Proof. split; [now intros [= ->] | now intros ->]. Qed.

(** Running a statement that the rewriter lets through. *)
Ltac run_statement :=
  unfold Statements.select, Statements.insert, Statements.update,
         Statements.delete, Statements.using_ok, Statements.with_check_ok;
  change (Statements.rewrite _ _ _) with (@None Statements.statement_error);
  cbn [Statements.policies_of Statements.row_of]; fold_insert.


(** Deposit payment methods.  Every policy set of the table holds the
    lookup of the caller's role in public.users: the SELECT policy for
    admins, and the only INSERT, UPDATE and DELETE policies.  So every
    statement of an authenticated caller on deposit_payment_methods is
    refused with 42P17: nobody reads even the active payment methods, and
    no admin can add, change or remove one. *)
Theorem payment_method_statements_are_refused (accounts : list account)
        (uid : uuid) :
  (forall t : list payment_method,
      Statements.select UsersSchema Rls.PaymentMethodsRel accounts uid t
      = Statements.Aborted (Statements.InfiniteRecursion Rls.AccountsRel))
  /\ (forall r : payment_method,
         Statements.insert UsersSchema Rls.PaymentMethodsRel accounts uid r
         = Statements.Aborted (Statements.InfiniteRecursion Rls.AccountsRel))
  /\ (forall reads (old new : payment_method),
         Statements.update UsersSchema Rls.PaymentMethodsRel accounts uid
           reads old new
         = Statements.Aborted (Statements.InfiniteRecursion Rls.AccountsRel))
  /\ (forall reads (r : payment_method),
         Statements.delete UsersSchema Rls.PaymentMethodsRel accounts uid
           reads r
         = Statements.Aborted (Statements.InfiniteRecursion Rls.AccountsRel)).
Proof.
  repeat split; intros; try reflexivity; now destruct reads.
Qed.

(** The audit trail.  No statement of an authenticated caller, admin or
    not, changes or removes a row of activity_logs, transactions or
    admin_logs.  In the first schema file a row of activity_logs or
    transactions is inserted exactly under the caller's own user_id, and
    every INSERT into admin_logs and every SELECT on it is refused with
    42P17; the second file lets no authenticated caller insert an
    activity_logs row. *)
Theorem logs_are_append_only (g : generation) (accounts : list account)
        (uid : uuid) :
  (forall reads (old new : activity_log),
      Statements.row_after
        (Statements.update g Rls.ActivityLogsRel accounts uid reads old new)
        old new
      = old
      /\ Statements.removed
           (Statements.delete g Rls.ActivityLogsRel accounts uid reads old)
         = false)
  /\ (forall reads (old new : transaction),
         Statements.row_after
           (Statements.update g Rls.TransactionsRel accounts uid reads old new)
           old new
         = old
         /\ Statements.removed
              (Statements.delete g Rls.TransactionsRel accounts uid reads old)
            = false)
  /\ (forall reads (old new : admin_log),
         Statements.row_after
           (Statements.update g Rls.AdminLogsRel accounts uid reads old new)
           old new
         = old
         /\ Statements.removed
              (Statements.delete g Rls.AdminLogsRel accounts uid reads old)
            = false)
  /\ (forall r : activity_log,
         Statements.insert UsersSchema Rls.ActivityLogsRel accounts uid r
         = Statements.Completed true
         <-> al_user_id r = Some uid)
  /\ (forall r : transaction,
         Statements.insert UsersSchema Rls.TransactionsRel accounts uid r
         = Statements.Completed true
         <-> tx_user_id r = Some uid)
  /\ (forall r : admin_log,
         Statements.insert UsersSchema Rls.AdminLogsRel accounts uid r
         = Statements.Aborted (Statements.InfiniteRecursion Rls.AccountsRel))
  /\ (forall t : list admin_log,
         Statements.select UsersSchema Rls.AdminLogsRel accounts uid t
         = Statements.Aborted (Statements.InfiniteRecursion Rls.AccountsRel))
  /\ (forall r : activity_log,
         Statements.insert ProfilesSchema Rls.ActivityLogsRel accounts uid r
         = Statements.Completed false).
Proof.
  split; [| split; [| split; [| split; [| split; [| split; [| split]]]]]].
  - intros reads old new. now destruct g, reads.
  - intros reads old new. now destruct g, reads.
  - intros reads old new. now destruct g, reads.
  - intro r. run_statement.
    destruct (log_insert_rules
                (Statements.readable UsersSchema accounts uid) uid r
                (MoreSamples.transaction_of uid)) as (-> & _).
    rewrite completed_inj. apply holds_eq_uuid.
  - intro r. run_statement.
    destruct (log_insert_rules
                (Statements.readable UsersSchema accounts uid) uid
                (MoreSamples.activity_of uid) r) as (_ & ->).
    rewrite completed_inj. apply holds_eq_uuid.
  - reflexivity.
  - reflexivity.
  - reflexivity.
Qed.

(** KYC rows.  In the first schema file every UPDATE of kyc_verifications
    has admins_update_kyc among its policies and is refused with 42P17:
    the owner's update of a pending row, which users_update_own_kyc is
    written for, never succeeds.  In the second file an UPDATE of
    kyc_documents that does not read the table changes a row exactly when
    the old and the new row are the caller's own, whatever the status;
    with a WHERE clause it is refused with 42P17. *)
Theorem kyc_update_refused_or_by_owner (accounts : list account) (uid : uuid) :
  (forall reads (old new : kyc),
      Statements.update UsersSchema Rls.KycRel accounts uid reads old new
      = Statements.Aborted (Statements.InfiniteRecursion Rls.AccountsRel))
  /\ (forall old new : kyc,
         Statements.update ProfilesSchema Rls.KycRel accounts uid false old new
         = Statements.Completed Statements.RowUpdated
         <-> kyc_user_id old = Some uid /\ kyc_user_id new = Some uid)
  /\ (forall old new : kyc,
         Statements.update ProfilesSchema Rls.KycRel accounts uid true old new
         = Statements.Aborted (Statements.InfiniteRecursion Rls.AccountsRel)).
Proof.
  split; [| split].
  - intros reads old new. now destruct reads.
  - intros old new. run_statement.
    rewrite completed_inj, updated_iff.
    destruct (kyc_documents_update_rules
                (Statements.readable ProfilesSchema accounts uid) uid old)
      as (-> & _).
    destruct (kyc_documents_update_rules
                (Statements.readable ProfilesSchema accounts uid) uid new)
      as (_ & ->).
    rewrite !holds_eq_uuid. intuition discriminate.
  - reflexivity.
Qed.

(** Deposits and withdrawals are advanced by nobody, and nothing is
    deleted: in either schema file no UPDATE by an authenticated caller,
    admin or not, changes a deposit or a withdrawal, and no DELETE removes
    a deposit, a withdrawal, a KYC row or an account row. *)
Theorem requests_never_updated_or_deleted (g : generation)
        (accounts : list account) (uid : uuid) (reads : bool) :
  (forall old new : deposit,
      Statements.row_after
        (Statements.update g Rls.DepositsRel accounts uid reads old new)
        old new
      = old)
  /\ (forall old new : withdrawal,
         Statements.row_after
           (Statements.update g Rls.WithdrawalsRel accounts uid reads old new)
           old new
         = old)
  /\ (forall r : deposit,
         Statements.removed
           (Statements.delete g Rls.DepositsRel accounts uid reads r) = false)
  /\ (forall r : withdrawal,
         Statements.removed
           (Statements.delete g Rls.WithdrawalsRel accounts uid reads r) = false)
  /\ (forall r : kyc,
         Statements.removed
           (Statements.delete g Rls.KycRel accounts uid reads r) = false)
  /\ (forall r : account,
         Statements.removed
           (Statements.delete g Rls.AccountsRel accounts uid reads r) = false).
Proof.
  repeat split; intros; now destruct g, reads.
Qed.

(** Rows are inserted under the caller's own identity: in either schema
    file an INSERT into deposits, withdrawals or the KYC table that row
    security lets through carries the caller's identity as user_id (for
    KYC this is the only condition), and no authenticated caller can
    insert a users/profiles row. *)
Theorem rows_inserted_under_own_identity (g : generation)
        (accounts : list account) (uid : uuid) :
  (forall d, Rls.insert_permitted (Rls.deposit_policies g) accounts uid d = true ->
             dep_user_id d = Some uid)
  /\ (forall w, Rls.insert_permitted (Rls.withdrawal_policies g) accounts uid w
                = true -> wd_user_id w = Some uid)
  /\ (forall k, Rls.insert_permitted (Rls.kyc_policies g) accounts uid k = true
                <-> kyc_user_id k = Some uid)
  /\ (forall a, Rls.insert_permitted (Rls.account_policies g) accounts uid a
                = false).
Proof.
  split; [| split; [| split]].
  - intros d H. rewrite deposit_insert_rule in H. destruct g; [| discriminate].
    apply andb_prop in H as [H _]. now apply holds_eq_uuid.
  - intros w H. rewrite withdrawal_insert_rule in H. destruct g; [| discriminate].
    apply andb_prop in H as [H _]. now apply holds_eq_uuid.
  - intro k. rewrite kyc_insert_rule. apply holds_eq_uuid.
  - intro a. apply account_insert_rule.
Qed.

(** Reading the tables.  In either schema file every SELECT of an
    authenticated caller on users/profiles is refused with 42P17, since
    the table's SELECT policy for admins queries the table itself; so is
    every SELECT on account_balances, and on the activity_logs and
    transactions of the first file.  The activity_logs of the second file
    have no policy for admins: a SELECT returns exactly the caller's own
    rows. *)
Theorem account_rows_cannot_be_read (accounts : list account) (uid : uuid) :
  (forall g (t : list account),
      Statements.select g Rls.AccountsRel accounts uid t
      = Statements.Aborted (Statements.InfiniteRecursion Rls.AccountsRel))
  /\ (forall t : list account_balance,
         Statements.select ProfilesSchema Rls.AccountBalancesRel accounts uid t
         = Statements.Aborted (Statements.InfiniteRecursion Rls.AccountsRel))
  /\ (forall t : list activity_log,
         Statements.select UsersSchema Rls.ActivityLogsRel accounts uid t
         = Statements.Aborted (Statements.InfiniteRecursion Rls.AccountsRel))
  /\ (forall t : list transaction,
         Statements.select UsersSchema Rls.TransactionsRel accounts uid t
         = Statements.Aborted (Statements.InfiniteRecursion Rls.AccountsRel))
  /\ (forall t : list activity_log,
         exists rows,
           Statements.select ProfilesSchema Rls.ActivityLogsRel accounts uid t
           = Statements.Completed rows
           /\ forall r, In r rows <-> In r t /\ al_user_id r = Some uid).
Proof.
  split; [| split; [| split; [| split]]]; try reflexivity.
  - intros g t. now destruct g.
  - intro t. eexists. split; [reflexivity |].
    intro r. rewrite filter_In. unfold Statements.using_ok.
    cbn [Statements.policies_of Statements.row_of].
    now rewrite activity_read_rule, holds_eq_uuid.
Qed.

(** Which statements the rewriter refuses.  In either schema file a
    statement on a table of the file is refused exactly when one of the
    policies added to it holds a subquery, and the error names
    users/profiles: every subquery of a policy selects from that table, and
    the table's own SELECT policy for admins selects from it again.  The
    bound on the nesting plays no part in this. *)
Theorem statement_refused_iff_policy_has_subquery (g : generation)
        (rel : Rls.relation) (k : Statements.kind) :
  Statements.rewrite g rel k
  = (if Statements.declared g rel
     then match Statements.subqueries g rel (Statements.commands_of k) with
          | [] => None
          | _ :: _ => Some (Statements.InfiniteRecursion Rls.AccountsRel)
          end
     else Some (Statements.UndefinedTable rel))
  /\ (forall n,
         Statements.expand (3 + n) g [] rel (Statements.commands_of k)
         = Statements.expand (S (List.length Statements.relations)) g [] rel
             (Statements.commands_of k)).
Proof.
  split; [apply rewrite_aborts_on_subquery |].
  intro n. apply expand_depth.
Qed.

(** ** One KYC submission per user *)

Section KycTableFacts.
Import KycTable.
Variable g : generation.

Lemma key_free (key : kyc -> col uuid) (t : list kyc) (r : kyc) :
  key_taken key t r = false -> key r <> None -> ~ In (key r) (map key t).
Proof.
  intros Hfree Hnn Hin. apply in_map_iff in Hin as (r' & Heq & Hin').
  unfold key_taken in Hfree.
  assert (Hex : existsb (fun r' => holds (eq_uuid (key r') (key r))) t = true).
  { apply existsb_exists. exists r'. split; [exact Hin' |].
    rewrite Heq. destruct (key r) as [u |]; [| contradiction].
    simpl. now rewrite N.eqb_refl. }
  congruence.
Qed.

Lemma key_taken_in (key : kyc -> col uuid) (t : list kyc) (r r0 : kyc) :
  In r0 t -> key r0 = key r -> key r0 <> None -> key_taken key t r = true.
Proof.
  intros Hin Heq Hnn. unfold key_taken. apply existsb_exists.
  exists r0. split; [exact Hin |]. rewrite <- Heq.
  destruct (key r0) as [u |]; [| contradiction]. simpl. now rewrite N.eqb_refl.
Qed.

Lemma insert_ok (t t' : list kyc) (r : kyc) :
  insert g t r = inl t' ->
  t' = t ++ [r] /\ kyc_user_id r <> None
  /\ key_taken kyc_user_id t r = false /\ key_taken kyc_id t r = false.
Proof.
  unfold insert. destruct (enforce (constraints g r)) as [[] | e] eqn:Hc;
    [| discriminate].
  destruct (key_taken kyc_id t r) eqn:Hid; [discriminate |].
  destruct (key_taken kyc_user_id t r) eqn:Hu; [discriminate |].
  intro H. injection H as <-. repeat split; auto.
  assert (Hnn : not_null (kyc_user_id r) = true)
    by (destruct g; eapply enforce_ok_in; eauto; simpl; tauto).
  destruct (kyc_user_id r); [discriminate | discriminate Hnn].
Qed.

(** Deleting rows keeps the remaining keys distinct. *)
Lemma delete_keeps_keys_distinct (key : kyc -> col uuid) (gone : kyc -> bool)
      (t : list kyc) :
  NoDup (map key t) ->
  NoDup (map key (filter (fun r => negb (gone r)) t)).
Proof.
  induction t as [| r rest IH]; cbn [map filter]; [trivial |].
  rewrite NoDup_cons_iff. intros [Hfresh Hrest].
  destruct (gone r); cbn [negb map]; [exact (IH Hrest) |].
  apply NoDup_cons; [| exact (IH Hrest)].
  contradict Hfresh.
  apply in_map_iff in Hfresh as (r' & Hkey & Hkept).
  apply filter_In in Hkept. apply in_map_iff. exists r'. tauto.
Qed.

Lemma step_one_per_user (t : list kyc) (st : statement) :
  one_per_user t -> one_per_user (step g t st).
Proof.
  intros [Hnd Hnn]. destruct st as [r | where_]; simpl.
  - destruct (insert g t r) as [t' | e] eqn:Hins; [| now split].
    apply insert_ok in Hins as (-> & Hr & Hfree & _). split.
    + rewrite map_app. apply NoDup_app; [exact Hnd | |].
      * simpl. constructor; [tauto | constructor].
      * intros a Ha [<- | []]. revert Ha. now apply key_free.
    + apply Forall_app. split; [exact Hnn | now constructor].
  - split; [now apply delete_keeps_keys_distinct |].
    rewrite Forall_forall in *. intros r Hin.
    apply filter_In in Hin as [Hin _]. auto.
Qed.

Lemma run_one_per_user (script : list statement) : one_per_user (run g script).
Proof.
  unfold run.
  assert (H : forall t, one_per_user t -> one_per_user (fold_left (step g) script t)).
  { induction script as [| st rest IH]; intros t Ht; simpl; [exact Ht |].
    apply IH. now apply step_one_per_user. }
  apply H. split; constructor.
Qed.

End KycTableFacts.

(** One KYC record per user.  In either schema file, after any sequence of
    INSERT and DELETE statements no two rows of the KYC table have the same
    user_id; an INSERT for a user who already has a row fails and leaves
    the table as it was; and once that row is deleted the same INSERT is
    decided by the row's own constraints and its id alone. *)
Theorem kyc_one_submission_per_user (g : generation)
        (script : list KycTable.statement) (r : kyc) :
  let t := KycTable.run g script in
  NoDup (map kyc_user_id t)
  /\ ((exists r0, In r0 t /\ kyc_user_id r0 = kyc_user_id r) ->
      (exists e, KycTable.insert g t r = inr e)
      /\ KycTable.step g t (KycTable.INSERT r) = t)
  /\ (enforce (KycTable.constraints g r) = Ok tt ->
      KycTable.key_taken kyc_id t r = false ->
      let t' := KycTable.step g t
                  (KycTable.DELETE (fun r0 => holds (eq_uuid (kyc_user_id r0)
                                                             (kyc_user_id r)))) in
      KycTable.insert g t' r = inl (t' ++ [r])).
Proof.
  intro t. destruct (run_one_per_user g script) as [Hnd Hnn]. fold t in Hnd, Hnn.
  split; [exact Hnd |]. split.
  - intros (r0 & Hin & Heq).
    assert (Htaken : KycTable.key_taken kyc_user_id t r = true).
    { eapply key_taken_in; eauto. rewrite Forall_forall in Hnn. auto. }
    assert (Hfail : exists e, KycTable.insert g t r = inr e).
    { unfold KycTable.insert.
      destruct (enforce (KycTable.constraints g r)) as [[] | e]; [| eauto].
      destruct (KycTable.key_taken kyc_id t r); [eauto |].
      rewrite Htaken. eauto. }
    split; [exact Hfail |]. destruct Hfail as [e He]. simpl. now rewrite He.
  - intros Hc Hid t'. unfold KycTable.insert. rewrite Hc.
    assert (Hsub : forall key, KycTable.key_taken key t r = false ->
                               KycTable.key_taken key t' r = false).
    { intros key Hfree. unfold KycTable.key_taken in *.
      destruct (existsb _ t') eqn:E; [| reflexivity].
      apply existsb_exists in E as (x & Hx & Hh).
      subst t'. simpl in Hx. apply filter_In in Hx as [Hx _].
      assert (existsb (fun r' => holds (eq_uuid (key r') (key r))) t = true)
        by (apply existsb_exists; eauto).
      congruence. }
    rewrite (Hsub _ Hid).
    assert (Hu : KycTable.key_taken kyc_user_id t' r = false).
    { unfold KycTable.key_taken.
      destruct (existsb _ t') eqn:E; [| reflexivity].
      apply existsb_exists in E as (x & Hx & Hh).
      subst t'. simpl in Hx. apply filter_In in Hx as [_ Hx].
      rewrite Hh in Hx. discriminate. }
    now rewrite Hu.
Qed.

(** ** withdrawals: what a stored row looks like *)

Section MoreWithdrawalsFacts.
Import Withdrawals.
Variable g : generation.

Lemma update_rows_stored c where_ set_ t t' :
  Forall (WithdrawalRows.stored g) t -> update_rows g c where_ set_ t = Ok t' -> Forall (WithdrawalRows.stored g) t'.
Proof.
  revert t'. induction t as [| r rest IH]; intros t' Hall H; simpl in H.
  - injection H as <-. constructor.
  - inversion Hall as [| ? ? Hr Hrest]; subst.
    apply bind_ok in H as [r' [Hr' H]].
    apply bind_ok in H as [rest' [Hrest' H]].
    injection H as <-. constructor; [| now apply IH].
    destruct (where_ r).
    + unfold update_row in Hr'.
      destruct (s_net_amount (set_ r)) as [[| v] |]; try discriminate;
        eexists; exact Hr'.
    + now injection Hr' as <-.
Qed.

Lemma run_stored (script : list statement) : Forall (WithdrawalRows.stored g) (run g script).
Proof.
  unfold run.
  assert (H : forall t, Forall (WithdrawalRows.stored g) t ->
                        Forall (WithdrawalRows.stored g) (fold_left (step g) script t)).
  { induction script as [| st rest IH]; intros t Hall; simpl; [exact Hall |].
    apply IH. unfold step.
    destruct (exec g t st) as [t' |] eqn:E; [| exact Hall].
    destruct st as [c s | c where_ set_ | where_]; simpl in E.
    - apply bind_ok in E as [r [Hr E]]. injection E as <-.
      apply Forall_app. split; [exact Hall |].
      constructor; [| constructor].
      unfold insert_row in Hr. destruct (i_net_amount s); [| discriminate].
      eexists; exact Hr.
    - eapply update_rows_stored; eauto.
    - injection E as <-. rewrite Forall_forall in *.
      intros r Hin. apply filter_In in Hin as [Hin _]. auto. }
  apply H. constructor.
Qed.

End MoreWithdrawalsFacts.

(** An INSERT that leaves out the fee (or names it DEFAULT) stores fee 0
    and a net_amount equal to the amount, in either schema file. *)
Theorem default_fee_keeps_whole_amount (g : generation) (c : clock)
        (s : Withdrawals.insert_stmt) (r : withdrawal) :
  Withdrawals.insert_row g c s = Ok r ->
  Withdrawals.i_fee s = Dflt ->
  wd_fee r = Some 0 /\ wd_net_amount r = wd_amount r /\ wd_amount r <> None.
Proof.
  intros Hins Hfee. unfold Withdrawals.insert_row in Hins.
  destruct (Withdrawals.i_net_amount s); [| discriminate].
  destruct (store_amount_positive g _ r Hins) as (a & Ha & _).
  apply store_ok in Hins as (Hr & _).
  assert (Hf : wd_fee r = Some 0) by (rewrite Hr; simpl; now rewrite Hfee).
  assert (Hn : wd_net_amount r = minus (wd_amount r) (wd_fee r))
    by (rewrite Hr; reflexivity).
  rewrite Hf, Ha in Hn. simpl in Hn. rewrite Z.sub_0_r in Hn.
  rewrite Ha. repeat split; congruence.
Qed.

(** The status of a stored withdrawal is one of the six declared values
    (or, in the second schema file only, NULL), whatever statements ran. *)
Theorem withdrawal_status_is_declared (g : generation)
        (script : list Withdrawals.statement) (r : withdrawal) :
  In r (Withdrawals.run g script) ->
  (forall s, wd_status r = Some s -> In s Withdrawals.status_values)
  /\ (g = UsersSchema -> wd_status r <> None).
Proof.
  intro Hin. pose proof (run_stored g script) as Hall.
  rewrite Forall_forall in Hall. destruct (Hall r Hin) as [draft Hst].
  apply store_ok in Hst as (_ & _ & _ & _ & Hc).
  assert (Hchk : check_ok (in_text (wd_status r) Withdrawals.status_values) = true)
    by (destruct g; eapply enforce_ok_in; eauto; simpl; tauto).
  split.
  - intros s Hs. rewrite Hs in Hchk. unfold in_text in Hchk.
    destruct (existsb (String.eqb s) Withdrawals.status_values) eqn:E;
      [| discriminate Hchk].
    apply existsb_exists in E as (x & Hx & Heq).
    apply String.eqb_eq in Heq. now subst.
  - intros -> Hnull.
    assert (Hnn : not_null (wd_status r) = true)
      by (eapply enforce_ok_in; eauto; simpl; tauto).
    rewrite Hnull in Hnn. discriminate.
Qed.

(** The owner's plain INSERT passes row security: in the first schema file
    a withdrawal inserted under the caller's own user_id with the status
    left to its DEFAULT, once accepted by the constraints, satisfies the
    INSERT policy, whoever the caller is. *)
Theorem owner_default_insert_passes (accounts : list account) (uid : uuid)
        (c : clock) (s : Withdrawals.insert_stmt) (r : withdrawal) :
  Withdrawals.insert_row UsersSchema c s = Ok r ->
  Withdrawals.i_user_id s = Val (Some uid) ->
  Withdrawals.i_status s = Dflt ->
  Rls.insert_permitted (Rls.withdrawal_policies UsersSchema) accounts uid r = true.
Proof.
  intros Hins Hu Hs. unfold Withdrawals.insert_row in Hins.
  destruct (Withdrawals.i_net_amount s); [| discriminate].
  apply store_ok in Hins as (-> & _).
  rewrite withdrawal_insert_rule. cbn. rewrite Hu, Hs. cbn.
  now rewrite N.eqb_refl.
Qed.

(** ** The second schema file is the weaker one *)

Lemma enforce_weaken (cs cs' : verdicts) :
  enforce cs = Ok tt ->
  (forall e' b, In (e', b) cs' -> exists e, In (e, b) cs) ->
  enforce cs' = Ok tt.
Proof.
  intros Hok Hsub. apply enforce_ok_iff. apply Forall_forall.
  intros [e' b] Hin. destruct (Hsub e' b Hin) as [e He].
  simpl. eapply enforce_ok_in; eauto.
Qed.

(** Every withdrawal, deposit, account or KYC row that the constraints of
    the first schema file accept is accepted unchanged by the constraints
    of the second. *)
Theorem second_file_accepts_rows_of_first :
  (forall d r, Withdrawals.store UsersSchema d = Ok r ->
               Withdrawals.store ProfilesSchema d = Ok r)
  /\ (forall d r, Deposits.store UsersSchema d = Ok r ->
                  Deposits.store ProfilesSchema d = Ok r)
  /\ (forall a r, Accounts.store UsersSchema a = Ok r ->
                  Accounts.store ProfilesSchema a = Ok r)
  /\ (forall k, enforce (KycTable.constraints UsersSchema k) = Ok tt ->
                enforce (KycTable.constraints ProfilesSchema k) = Ok tt).
Proof.
  split; [| split; [| split]].
  - intros d r H. unfold Withdrawals.store in *.
    apply guard_ok in H as [Ha H]. apply guard_ok in H as [Hf H].
    apply guard_ok in H as [Hn H]. apply bind_ok in H as [[] [Hc H]].
    rewrite Ha, Hf, Hn. cbn [guard Sql.bind].
    rewrite (enforce_weaken _ (Withdrawals.constraints ProfilesSchema _) Hc);
      [exact H |].
    intros e' b Hin. simpl in Hin.
    repeat (destruct Hin as [Hin | Hin];
            [injection Hin as <- <-; eexists; simpl; tauto |]).
    contradiction.
  - intros d r H. unfold Deposits.store in *.
    apply guard_ok in H as [Ha H]. apply bind_ok in H as [[] [Hc H]].
    rewrite Ha. cbn [guard Sql.bind].
    rewrite (enforce_weaken _ (Deposits.constraints ProfilesSchema _) Hc);
      [exact H |].
    intros e' b Hin. simpl in Hin.
    repeat (destruct Hin as [Hin | Hin];
            [injection Hin as <- <-; eexists; simpl; tauto |]).
    contradiction.
  - intros a r H. unfold Accounts.store in *.
    apply bind_ok in H as [[] [Hc H]].
    rewrite (enforce_weaken _ (Accounts.constraints ProfilesSchema _) Hc);
      [exact H |].
    intros e' b Hin. simpl in Hin.
    repeat (destruct Hin as [Hin | Hin];
            [injection Hin as <- <-; eexists; simpl; tauto |]).
    contradiction.
  - intros k Hc. apply (enforce_weaken _ _ Hc).
    intros e' b Hin. simpl in Hin.
    repeat (destruct Hin as [Hin | Hin];
            [injection Hin as <- <-; eexists; simpl; tauto |]).
    contradiction.
Qed.

(** ** The summary view: row order and totals *)

Lemma filter_Permutation {A} (keep : A -> bool) (t t' : list A) :
  Permutation t t' -> Permutation (filter keep t) (filter keep t').
Proof.
  induction 1 as [| x t t' _ IH | x y t | t t' t'' _ IH1 _ IH2]; simpl.
  - constructor.
  - destruct (keep x); [now constructor | exact IH].
  - destruct (keep x), (keep y); try reflexivity. constructor.
  - now transitivity (filter keep t').
Qed.

Lemma sum_cons (x : col Z) (xs : list (col Z)) :
  Sql.sum (x :: xs)
  = match x, Sql.sum xs with
    | None, s => s
    | Some a, None => Some a
    | Some a, Some s => Some (a + s)
    end.
Proof. destruct x; reflexivity. Qed.

Lemma sum_Permutation (l l' : list (col Z)) :
  Permutation l l' -> Sql.sum l = Sql.sum l'.
Proof.
  induction 1 as [| x l l' _ IH | x y l | l l' l'' _ IH1 _ IH2].
  - reflexivity.
  - now rewrite !sum_cons, IH.
  - rewrite !sum_cons. destruct x as [a |], y as [b |], (Sql.sum l) as [s |];
      try reflexivity; f_equal; lia.
  - congruence.
Qed.

(** The summary does not depend on the order in which the tables hold their
    rows: two database states whose tables agree up to reordering give the
    same seven figures. *)
Theorem summary_ignores_row_order (db db' : View.database) :
  Permutation (View.users db) (View.users db') ->
  Permutation (View.kyc_verifications db) (View.kyc_verifications db') ->
  Permutation (View.deposits db) (View.deposits db') ->
  Permutation (View.withdrawals db) (View.withdrawals db') ->
  View.admin_dashboard_summary db = View.admin_dashboard_summary db'.
Proof.
  intros Hu Hk Hd Hw. unfold View.admin_dashboard_summary, View.from_where,
                             count_star.
  f_equal;
    try (f_equal; apply Permutation_length; now apply filter_Permutation);
    f_equal; apply sum_Permutation; apply Permutation_map;
    now apply filter_Permutation.
Qed.

Lemma sum_positive (xs : list (col Z)) :
  Forall (fun x => exists a, x = Some a /\ 0 < a) xs ->
  xs = [] /\ Sql.sum xs = None \/ exists s, Sql.sum xs = Some s /\ 0 < s.
Proof.
  induction 1 as [| x xs (a & -> & Ha) _ IH]; [now left |].
  right. rewrite sum_cons.
  destruct IH as [[-> ->] | (s & -> & Hs)]; eexists; split;
    try reflexivity; lia.
Qed.

Lemma total_zero_iff (xs : list (col Z)) :
  Forall (fun x => exists a, x = Some a /\ 0 < a) xs ->
  0 <= coalesce (Sql.sum xs) 0 /\ (coalesce (Sql.sum xs) 0 = 0 <-> xs = []).
Proof.
  intro H. destruct (sum_positive xs H) as [[-> _] | (s & Hs & Hpos)].
  - simpl. split; [lia | tauto].
  - rewrite Hs. simpl. split; [lia |]. split; [lia |].
    intros ->. discriminate Hs.
Qed.

(** [total_deposits] and [total_withdrawals] over tables whose rows passed
    the amount constraints: each total is not negative, and it is 0 exactly
    when the table holds no 'completed' row. *)
Theorem completed_totals_not_negative (db : View.database) :
  Forall (fun d => exists g d0, Deposits.store g d0 = Ok d) (View.deposits db) ->
  Forall (fun w => exists g, WithdrawalRows.stored g w) (View.withdrawals db) ->
  let s := View.admin_dashboard_summary db in
  0 <= View.total_deposits s /\ 0 <= View.total_withdrawals s
  /\ (View.total_deposits s = 0 <->
      forall d, In d (View.deposits db) -> dep_status d <> Some "completed")
  /\ (View.total_withdrawals s = 0 <->
      forall w, In w (View.withdrawals db) -> wd_status w <> Some "completed").
Proof.
  intros Hd Hw s. subst s. unfold View.admin_dashboard_summary. cbn [View.total_deposits View.total_withdrawals].
  assert (Hds : Forall (fun x => exists a, x = Some a /\ 0 < a)
                  (map dep_amount
                     (View.from_where (View.deposits db)
                        (fun d => eq_text (dep_status d) (Some "completed"))))).
  { apply Forall_forall. intros x Hx. apply in_map_iff in Hx as (d & <- & Hin).
    apply filter_In in Hin as [Hin _]. rewrite Forall_forall in Hd.
    destruct (Hd d Hin) as (g & d0 & Hst).
    eapply deposit_amount_positive; eauto. }
  assert (Hws : Forall (fun x => exists a, x = Some a /\ 0 < a)
                  (map wd_amount
                     (View.from_where (View.withdrawals db)
                        (fun w => eq_text (wd_status w) (Some "completed"))))).
  { apply Forall_forall. intros x Hx. apply in_map_iff in Hx as (w & <- & Hin).
    apply filter_In in Hin as [Hin _]. rewrite Forall_forall in Hw.
    destruct (Hw w Hin) as (g & d0 & Hst).
    eapply store_amount_positive; eauto. }
  assert (Hempty : forall A (t : list A) (st : A -> col text),
             View.from_where t (fun r => eq_text (st r) (Some "completed")) = []
             <-> forall r, In r t -> st r <> Some "completed").
  { intros A t st. unfold View.from_where. split.
    - intros He r Hin Hst.
      assert (In r (filter (fun r => holds (eq_text (st r) (Some "completed"))) t))
        by (apply filter_In; split; [exact Hin | now apply eq_text_holds]).
      rewrite He in H. contradiction.
    - intro Hno. destruct (filter _ t) as [| r rest] eqn:E; [reflexivity |].
      assert (Hin : In r (filter (fun r => holds (eq_text (st r) (Some "completed"))) t))
        by (rewrite E; now left).
      apply filter_In in Hin as [Hin Hh]. apply eq_text_holds in Hh.
      now destruct (Hno r Hin). }
  assert (Hmap : forall A (f : A -> col Z) (l : list A), map f l = [] <-> l = [])
    by (intros A f l; split; [apply map_eq_nil | now intros ->]).
  destruct (total_zero_iff _ Hds) as [Hd0 Hdz].
  destruct (total_zero_iff _ Hws) as [Hw0 Hwz].
  rewrite Hmap, Hempty in Hdz. rewrite Hmap, Hempty in Hwz.
  auto.
Qed.

(** ** checkAdminAccess: every path *)

Section MoreAdminDashboardFacts.
Import AdminDashboard.
Variable b : backend.

Lemma role_confirmed_iff :
  role_confirmed b <->
  match getUser b with
  | Resolved (Some u) => has_role b (id u) "admin" = Resolved (Some true)
  | _ => False
  end.
Proof.
  unfold role_confirmed. split.
  - intros (u & -> & Hr). exact Hr.
  - destruct (getUser b) as [[u |] | e]; try contradiction. eauto.
Qed.

Lemma role_denied_iff :
  role_denied b <->
  match getUser b with
  | Resolved (Some u) =>
      exists roleData, has_role b (id u) "admin" = Resolved roleData
                       /\ roleData <> Some true
  | _ => False
  end.
Proof.
  unfold role_denied. split.
  - intros (u & roleData & -> & Hr & Hne). eauto.
  - destruct (getUser b) as [[u |] | e]; try contradiction.
    intros (roleData & Hr & Hne). eauto.
Qed.

End MoreAdminDashboardFacts.

Ltac load_cases b :=
  unfold AdminDashboard.state_after_load, AdminDashboard.trace_of_load,
         AdminDashboard.checkAdminAccess;
  let u := fresh "u" in
  let e := fresh "e" in
  destruct (AdminDashboard.getUser b) as [[u |] | e] eqn:Hget; cbn;
  [ destruct (AdminDashboard.has_role b (AdminDashboard.id u) "admin")
      as [[[] |] | e] eqn:Hrole; cbn;
    [ | destruct (AdminDashboard.signOut b) as [[] | ?] eqn:Hout; cbn
      | destruct (AdminDashboard.signOut b) as [[] | ?] eqn:Hout; cbn
      | ]
  | | ].

(** Goals about membership in a trace that has been computed. *)
Ltac trace_goal :=
  first
    [ solve [intuition congruence]
    | solve [intuition (try congruence; auto 20)]
    | solve [intros; intuition congruence]
    | solve [split;
             [ intros [? ?]; intuition congruence
             | intro; try (exfalso; intuition congruence);
               eexists; cbn; eauto 20 ]]
    | solve [split; intros; try congruence; try (cbn; eauto 20);
             intuition congruence] ].

(** The loading screen always goes away: whatever the three remote calls
    do, checkAdminAccess resolves (it never rejects), its last effect is
    setLoading(false), and the page no longer shows 'Loading...'. *)
Theorem load_always_ends_loading (b : AdminDashboard.backend) :
  snd (AdminDashboard.checkAdminAccess b) = Resolved tt
  /\ (exists pre, AdminDashboard.trace_of_load b
                  = pre ++ [AdminDashboard.SetLoading false])
  /\ AdminDashboard.loading (AdminDashboard.state_after_load b) = false
  /\ AdminDashboard.render (AdminDashboard.state_after_load b)
     <> AdminDashboard.LoadingScreen.
Proof.
  load_cases b;
    (split; [reflexivity |]; split;
     [ match goal with
       | |- exists pre, ?l = pre ++ _ =>
           exists (firstn (List.length l - 1) l); reflexivity
       end
     | split; [reflexivity | discriminate] ]).
Qed.

(** A load either fetches the stats or redirects, never both: fetchStats is
    called exactly when the role is confirmed, a navigation happens exactly
    when it is not, and every navigation goes to '/admin/login'. *)
Theorem load_fetches_or_redirects (b : AdminDashboard.backend) :
  (In AdminDashboard.FetchStats (AdminDashboard.trace_of_load b)
   <-> AdminDashboard.role_confirmed b)
  /\ ((exists path, In (AdminDashboard.Navigate path)
                       (AdminDashboard.trace_of_load b))
      <-> ~ AdminDashboard.role_confirmed b)
  /\ (forall path, In (AdminDashboard.Navigate path)
                      (AdminDashboard.trace_of_load b) ->
                   path = "/admin/login")
  /\ (AdminDashboard.isAdmin (AdminDashboard.state_after_load b) = true
      <-> AdminDashboard.role_confirmed b).
Proof.
  rewrite role_confirmed_iff.
  load_cases b; (split; [| split; [| split]]); trace_goal.
Qed.

(** The 'Unauthorized' toast and the sign-out belong to the denial path
    only: each happens exactly when the role check was made and resolved
    without confirming the role.  When there is no user, or a call rejects,
    the page redirects without a toast and without signing out. *)
Theorem toast_and_sign_out_exactly_on_denial (b : AdminDashboard.backend) :
  (In AdminDashboard.AuthSignOut (AdminDashboard.trace_of_load b)
   <-> AdminDashboard.role_denied b)
  /\ ((exists msg, In (AdminDashboard.ToastError msg)
                      (AdminDashboard.trace_of_load b))
      <-> AdminDashboard.role_denied b)
  /\ (forall msg, In (AdminDashboard.ToastError msg)
                     (AdminDashboard.trace_of_load b) ->
                  msg = "Unauthorized: Admin access required").
Proof.
  rewrite role_denied_iff.
  load_cases b; (split; [| split]);
    try solve [trace_goal];
    try solve [split; [intros; eexists; split; [reflexivity | discriminate]
                      | intros; cbn; auto 20]];
    try solve [split; [intros; eexists; split; [reflexivity | discriminate]
                      | intros; eexists; cbn; eauto 20]];
    try solve [split; [intro H; exfalso; intuition congruence
                      | intros (roleData & H & Hne); congruence]];
    try solve [split; [intros [msg H]; exfalso; intuition congruence
                      | intros (roleData & H & Hne); congruence]];
    try solve [split; [intro H; exfalso; intuition congruence
                      | intros []]];
    try solve [split; [intros [msg H]; exfalso; intuition congruence
                      | intros []]].
Qed.

(** The role check is never made without a user: has_role is called exactly
    when getUser resolves with a user, and then for that user's id and the
    role 'admin'. *)
Theorem role_check_needs_a_user (b : AdminDashboard.backend)
        (uid : jsstring) (role : string) :
  In (AdminDashboard.RpcHasRole uid role) (AdminDashboard.trace_of_load b)
  <-> exists u, AdminDashboard.getUser b = Resolved (Some u)
                /\ uid = AdminDashboard.id u /\ role = "admin".
Proof.
  load_cases b;
    try solve [split; [intro H; exists u; intuition congruence
                      | intros (u' & Hu & -> & ->); injection Hu as <-;
                        cbn; auto 20]];
    try solve [split; [intro H; exfalso; intuition congruence
                      | intros (u' & Hu & _); discriminate Hu]].
Qed.

(** ** fetchStats *)

Ltac stats_cases b :=
  unfold AdminStats.stats_after, AdminStats.fetchStats, AdminStats.rejections;
  destruct (AdminStats.profiles_count b) as [u | e1] eqn:H1; cbn;
  [ destruct (AdminStats.approved_deposits_count b) as [d | e2] eqn:H2; cbn;
    [ destruct (AdminStats.investments b) as [i | e3] eqn:H3; cbn;
      [ destruct (AdminStats.pending_deposits_count b) as [pd | e4] eqn:H4; cbn;
        [ destruct (AdminStats.pending_withdrawals_count b) as [pw | e5] eqn:H5;
          cbn;
          [ destruct (AdminStats.pending_kyc_count b) as [pk | e6] eqn:H6; cbn
          | ]
        | ]
      | ]
    | ]
  | ].

(** fetchStats issues its six queries in program order and stops at the
    first one that rejects: the queries after it are not sent, the error of
    that query is written to the console and setStats is not called.  When
    none rejects, all six are sent and setStats follows. *)
Theorem fetch_stats_stops_at_first_failure (b : AdminStats.backend) :
  match AdminStats.first_failure (AdminStats.rejections b) with
  | Some (k, e) =>
      fst (AdminStats.fetchStats b)
      = firstn (S k) AdminStats.queries
        ++ [AdminStats.ConsoleError "Error fetching stats:" e]
  | None =>
      exists st, fst (AdminStats.fetchStats b)
                 = AdminStats.queries ++ [AdminStats.SetStats st]
  end.
Proof. stats_cases b; try reflexivity. eexists; reflexivity. Qed.

(** fetchStats never rejects, and the tiles change all together or not at
    all: when the six queries resolve, the stats become the six figures,
    each count that came back null shown as 0; when any query rejects, the
    stats stay as they were. *)
Theorem fetch_stats_all_or_nothing (b : AdminStats.backend)
        (s : AdminStats.stats) :
  snd (AdminStats.fetchStats b) = Resolved tt
  /\ (forall u d i pd pw pk,
         AdminStats.profiles_count b = Resolved u ->
         AdminStats.approved_deposits_count b = Resolved d ->
         AdminStats.investments b = Resolved i ->
         AdminStats.pending_deposits_count b = Resolved pd ->
         AdminStats.pending_withdrawals_count b = Resolved pw ->
         AdminStats.pending_kyc_count b = Resolved pk ->
         AdminStats.stats_after s b = AdminStats.stats_of u d i pd pw pk)
  /\ (~ AdminStats.all_resolve b ->
      AdminStats.stats_after s b = s
      /\ existsb AdminStats.is_set_stats (fst (AdminStats.fetchStats b)) = false).
Proof.
  split; [| split].
  - stats_cases b; reflexivity.
  - intros u d i pd pw pk H1 H2 H3 H4 H5 H6.
    unfold AdminStats.stats_after, AdminStats.fetchStats.
    rewrite H1, H2, H3, H4, H5, H6. reflexivity.
  - intro Hno. unfold AdminStats.all_resolve in Hno.
    stats_cases b; try (split; reflexivity).
    exfalso. apply Hno. exists u, d, i, pd, pw, pk. auto 10.
Qed.

Lemma number_or_zero_not_nan (x : AdminStats.number) :
  PrimFloat.is_nan (AdminStats.number_or_zero x) = false.
Proof.
  unfold AdminStats.number_or_zero.
  destruct (PrimFloat.is_nan x) eqn:E; simpl; [reflexivity |].
  destruct (PrimFloat.is_zero x); [reflexivity | exact E].
Qed.

Lemma total_invested_not_nan (i : option (list AdminStats.number)) :
  PrimFloat.is_nan (AdminStats.total_invested i) = false.
Proof.
  destruct i as [rows |]; simpl; [apply number_or_zero_not_nan | reflexivity].
Qed.

Lemma stats_after_not_nan (b : AdminStats.backend) (s : AdminStats.stats) :
  PrimFloat.is_nan (AdminStats.totalInvested s) = false ->
  PrimFloat.is_nan (AdminStats.totalInvested (AdminStats.stats_after s b)) = false.
Proof.
  intro Hs. stats_cases b; try exact Hs. apply total_invested_not_nan.
Qed.

(** The 'total invested' figure is always a number: whatever amounts the
    investments query returns (NaN among them) and however often fetchStats
    runs, the stored totalInvested is never NaN; with no investment rows,
    or a null result, it is 0. *)
Theorem total_invested_never_nan (runs : list AdminStats.backend) :
  PrimFloat.is_nan
    (AdminStats.totalInvested (AdminStats.stats_after_runs runs)) = false
  /\ AdminStats.total_invested None = PrimFloat.zero
  /\ AdminStats.total_invested (Some []) = PrimFloat.zero.
Proof.
  split; [| split; reflexivity].
  unfold AdminStats.stats_after_runs.
  assert (H : forall s, PrimFloat.is_nan (AdminStats.totalInvested s) = false ->
                        PrimFloat.is_nan
                          (AdminStats.totalInvested
                             (fold_left AdminStats.stats_after runs s)) = false).
  { induction runs as [| b rest IH]; intros s Hs; simpl; [exact Hs |].
    apply IH. now apply stats_after_not_nan. }
  apply H. reflexivity.
Qed.

(** ** The tab area *)

Lemma active_after_is_menu_id (clicks : list AdminTabs.menu_item) :
  Forall (fun item => In item AdminTabs.menuItems) clicks ->
  In (AdminTabs.active_after clicks) (map AdminTabs.item_id AdminTabs.menuItems).
Proof.
  unfold AdminTabs.active_after.
  assert (H : forall start,
             In start (map AdminTabs.item_id AdminTabs.menuItems) ->
             Forall (fun item => In item AdminTabs.menuItems) clicks ->
             In (fold_left AdminTabs.click clicks start)
                (map AdminTabs.item_id AdminTabs.menuItems)).
  { induction clicks as [| item rest IH]; intros start Hs Hall; simpl;
      [exact Hs |].
    inversion Hall as [| ? ? Hitem Hrest]; subst.
    apply IH; [| exact Hrest]. unfold AdminTabs.click. now apply in_map. }
  apply H. simpl. tauto.
Qed.

(** Exactly one tab at a time: starting from 'analytics' and after any
    clicks on the menu buttons, the tab card shows exactly one tab
    component, exactly one menu button is highlighted, and the card title
    is the label of that button.  For a value of activeTab that is no menu
    id, no tab component would be shown and the title would fall back to
    'Analytics'. *)
Theorem one_tab_at_a_time (clicks : list AdminTabs.menu_item)
        (other : string) :
  (Forall (fun item => In item AdminTabs.menuItems) clicks ->
   let active := AdminTabs.active_after clicks in
   (exists t, AdminTabs.tab_content active = [t])
   /\ (exists item,
          filter (AdminTabs.highlighted active) AdminTabs.menuItems = [item]
          /\ AdminTabs.item_id item = active
          /\ AdminTabs.card_title active = AdminTabs.label item))
  /\ (~ In other (map AdminTabs.item_id AdminTabs.menuItems) ->
      AdminTabs.tab_content other = []
      /\ AdminTabs.card_title other = "Analytics"
      /\ filter (AdminTabs.highlighted other) AdminTabs.menuItems = []).
Proof.
  split.
  - intros Hall active. pose proof (active_after_is_menu_id clicks Hall) as Hin.
    fold active in Hin. simpl in Hin.
    destruct Hin as [<- | [<- | [<- | [<- | [<- | [<- | [<- | []]]]]]]];
      (split; [eexists; reflexivity | eexists; repeat split; reflexivity]).
  - intro Hother. simpl in Hother.
    assert (Hne : forall s, In s (map AdminTabs.item_id AdminTabs.menuItems) ->
                            (other =? s)%string = false /\ (s =? other)%string = false).
    { intros s Hs. split; apply String.eqb_neq; intro; subst; now apply Hother. }
    unfold AdminTabs.tab_content, AdminTabs.card_title, AdminTabs.highlighted.
    cbn [find filter AdminTabs.menuItems AdminTabs.item_id].
    repeat match goal with
           | |- context [(other =? ?s)%string] =>
               rewrite (proj1 (Hne s ltac:(simpl; tauto)))
           | |- context [(?s =? other)%string] =>
               rewrite (proj2 (Hne s ltac:(simpl; tauto)))
           end.
    repeat split.
Qed.

(** ** handleSignup: every path *)

Lemma trimStart_nil_iff (s : jsstring) :
  trimStart s = [] <-> forallb is_white_space s = true.
Proof.
  induction s as [| c rest IH]; simpl; [tauto |].
  destruct (is_white_space c); simpl; [exact IH | split; discriminate].
Qed.

Lemma trimStart_head (s : jsstring) (c : N) (rest : jsstring) :
  trimStart s = c :: rest -> is_white_space c = false.
Proof.
  induction s as [| x xs IH]; simpl; [discriminate |].
  destruct (is_white_space x) eqn:E; [exact IH |].
  intro H. injection H as <- _. exact E.
Qed.

Lemma forallb_rev {A} (p : A -> bool) (l : list A) :
  forallb p (rev l) = forallb p l.
Proof.
  destruct (forallb p l) eqn:E.
  - apply forallb_forall. intros x Hx. apply in_rev in Hx.
    rewrite forallb_forall in E. auto.
  - destruct (forallb p (rev l)) eqn:E'; [| reflexivity].
    rewrite forallb_forall in E'.
    assert (forallb p l = true)
      by (apply forallb_forall; intros x Hx; apply E'; now apply in_rev in Hx).
    congruence.
Qed.

Lemma trim_nil_iff (s : jsstring) :
  trim s = [] <-> forallb is_white_space s = true.
Proof.
  unfold trim, trimEnd. rewrite <- trimStart_nil_iff. split.
  - intro H. destruct (trimStart s) as [| c rest] eqn:E; [reflexivity |].
    exfalso.
    assert (Hrev : trimStart (rev (c :: rest)) = []).
    { destruct (trimStart (rev (c :: rest))); [reflexivity |].
      simpl in H. now apply app_eq_nil in H as [_ H]. }
    apply trimStart_nil_iff in Hrev. rewrite forallb_rev in Hrev.
    simpl in Hrev. rewrite (trimStart_head s c rest E) in Hrev. discriminate.
  - intros ->. reflexivity.
Qed.

(** [referralCode && referralCode.trim()] is truthy exactly when the code
    holds something other than white space. *)
Lemma code_check_is_not_blank (s : jsstring) :
  truthy_string s && truthy_string (trim s) = SignupCalls.not_blank s.
Proof.
  unfold SignupCalls.not_blank.
  assert (Hex : existsb (fun c => negb (is_white_space c)) s
                = negb (forallb is_white_space s)).
  { induction s as [| c rest IH]; simpl; [reflexivity |].
    rewrite IH. now destruct (is_white_space c), (forallb is_white_space rest). }
  rewrite Hex.
  destruct (forallb is_white_space s) eqn:E.
  - apply trim_nil_iff in E. rewrite E. simpl. apply andb_false_r.
  - destruct s as [| c rest]; [discriminate E |].
    destruct (trim (c :: rest)) eqn:Et; [| reflexivity].
    apply trim_nil_iff in Et. congruence.
Qed.

Ltac submit_cases f b :=
  unfold Signup.trace_of_submit, Signup.handleSignup;
  rewrite ?code_check_is_not_blank;
  destruct (Signup.agreedToTerms f) eqn:Hterms; cbn;
  [ destruct (Signup.signUp b) as [[[uid |] [serr |]] | serr] eqn:Hsign; cbn;
    [ | destruct (Signup.profiles_update b) as [upd | uerr] eqn:Hupd; cbn;
        [ destruct (SignupCalls.not_blank (Signup.referralCode f)) eqn:Hcode;
          cbn;
          [ destruct (Signup.profiles_lookup b) as [[[ref |] lerr] | lerr]
              eqn:Hlook; cbn;
            [ destruct (Signup.referrals_insert b) as [ins | ierr] eqn:Hins;
              cbn
            | | ]
          | ]
        | ]
      | | | ]
  | ].

(** The submit button never stays disabled: handleSignup always resolves,
    and once it has called setLoading(true) its last effect is
    setLoading(false), with no other change of the loading flag between. *)
Theorem submit_always_resets_loading (f : Signup.form) (b : Signup.backend) :
  snd (Signup.handleSignup f b) = Resolved tt
  /\ (Signup.agreedToTerms f = true ->
      exists mid,
        Signup.trace_of_submit f b
        = Signup.PreventDefault :: Signup.SetLoading true
            :: mid ++ [Signup.SetLoading false]
        /\ existsb SignupCalls.is_set_loading mid = false)
  /\ (Signup.agreedToTerms f = false ->
      existsb SignupCalls.is_set_loading (Signup.trace_of_submit f b) = false).
Proof.
  split; [| split].
  - submit_cases f b; reflexivity.
  - intro H. submit_cases f b; try discriminate H;
      match goal with
      | |- exists mid, _ :: _ :: ?l = _ /\ _ =>
          exists (firstn (List.length l - 1) l); split; reflexivity
      end.
  - intro H. submit_cases f b; try discriminate H. reflexivity.
Qed.

(** Success is reported exactly when the account was set up: the success
    toast, and the navigation to '/login', occur if and only if the terms
    were agreed, signUp resolved with a user and no error, and the profile
    update did not throw -- whatever the referral calls do.  The handler
    navigates nowhere else. *)
Theorem success_reported_iff_account_set_up (f : Signup.form)
        (b : Signup.backend) :
  (forall msg, In (Signup.ToastSuccess msg) (Signup.trace_of_submit f b)
               <-> msg = Signup.success_message /\ SignupCalls.account_set_up f b)
  /\ (forall path, In (Signup.Navigate path) (Signup.trace_of_submit f b)
                   <-> path = "/login" /\ SignupCalls.account_set_up f b).
Proof.
  unfold SignupCalls.account_set_up, Signup.signup_succeeded,
         Signup.success_message.
  split; intro x.
  - submit_cases f b;
      (split;
       [ intro H;
         first [ solve [exfalso; intuition congruence]
               | split; [intuition congruence
                        | split; [reflexivity
                                 | do 2 eexists; split; reflexivity]] ]
       | intros (-> & Ht & uid' & upd' & Hs & Hu);
         first [ discriminate | congruence | solve [cbn; auto 20] ] ]).
  - submit_cases f b;
      (split;
       [ intro H;
         first [ solve [exfalso; intuition congruence]
               | split; [intuition congruence
                        | split; [reflexivity
                                 | do 2 eexists; split; reflexivity]] ]
       | intros (-> & Ht & uid' & upd' & Hs & Hu);
         first [ discriminate | congruence | solve [cbn; auto 20] ] ]).
Qed.

(** An error toast after the terms were agreed shows exactly the error that
    reached the outer catch block -- a signUp error or rejection, or a
    profile update that threw -- with the error's message, or 'Signup
    failed' when the message is missing or empty. *)
Theorem error_toast_shows_surfaced_error (f : Signup.form) (b : Signup.backend)
        (msg : string) :
  Signup.agreedToTerms f = true ->
  (In (Signup.ToastError msg) (Signup.trace_of_submit f b)
   <-> exists e, SignupCalls.surfaced_error b = Some e
                 /\ msg = or_else (message e) "Signup failed").
Proof.
  intro Ht. unfold SignupCalls.surfaced_error.
  submit_cases f b; try discriminate Ht;
    (split;
     [ intro H;
       first [ solve [exfalso; intuition congruence]
             | eexists; split; [reflexivity | intuition congruence] ]
     | intros (e & He & ->);
       first [ discriminate He | injection He as <-; cbn; auto 20 ] ]).
Qed.

(** At most one toast per submission, and none in one case only: the
    handler shows no toast at all exactly when the terms were agreed and
    signUp resolved with neither an error nor a user. *)
Theorem at_most_one_toast (f : Signup.form) (b : Signup.backend) :
  (List.length (filter SignupCalls.is_toast (Signup.trace_of_submit f b)) <= 1)%nat
  /\ (filter SignupCalls.is_toast (Signup.trace_of_submit f b) = []
      <-> Signup.agreedToTerms f = true
          /\ Signup.signUp b
             = Resolved {| Signup.data_user := None;
                           Signup.signup_error := None |}).
Proof.
  split.
  - submit_cases f b; cbn; auto.
  - submit_cases f b; cbn;
      (split; [intro H; first [discriminate H | auto]
              | intros [H1 H2]; first [discriminate | congruence | reflexivity]]).
Qed.

(** The referrer is looked up exactly when the account was set up and the
    referral code holds something other than white space; the lookup is
    made for the code of the form.  A code of blanks only is treated as no
    code. *)
Theorem referrer_lookup_iff_code_given (f : Signup.form) (b : Signup.backend)
        (code : jsstring) :
  In (Signup.ProfilesLookup code) (Signup.trace_of_submit f b)
  <-> code = Signup.referralCode f
      /\ SignupCalls.not_blank (Signup.referralCode f) = true
      /\ SignupCalls.account_set_up f b.
Proof.
  unfold SignupCalls.account_set_up, Signup.signup_succeeded.
  submit_cases f b;
    (split;
     [ intro H;
       first [ solve [exfalso; intuition congruence]
             | split; [intuition congruence
                      | split; [reflexivity
                               | split; [reflexivity
                                        | do 2 eexists; split;
                                          reflexivity]]] ]
     | intros (-> & Hc & Ht & uid' & upd' & Hs & Hu);
       first [ discriminate | congruence | solve [cbn; auto 20] ] ]).
Qed.

(** Every referral row the handler inserts links the referrer that the
    lookup returned to the user that signUp created, with a bonus of 50
    that is not yet paid. *)
Theorem referral_insert_payload (f : Signup.form) (b : Signup.backend)
        (referrer referred : jsstring) (bonus : Z) (paid : bool) :
  In (Signup.ReferralsInsert referrer referred bonus paid)
     (Signup.trace_of_submit f b) ->
  bonus = 50 /\ paid = false
  /\ Signup.signup_succeeded b referred
  /\ exists found, Signup.profiles_lookup b = Resolved found
                   /\ data found = Some {| Signup.user_id := referrer |}.
Proof.
  unfold Signup.signup_succeeded.
  submit_cases f b; intro H; try (exfalso; intuition congruence).
  - assert (Heq : Signup.ReferralsInsert (Signup.user_id ref) uid 50 false
                  = Signup.ReferralsInsert referrer referred bonus paid)
      by intuition congruence.
    injection Heq as <- <- <- <-. destruct ref as [rid].
    repeat split. eexists; split; reflexivity.
  - assert (Heq : Signup.ReferralsInsert (Signup.user_id ref) uid 50 false
                  = Signup.ReferralsInsert referrer referred bonus paid)
      by intuition congruence.
    injection Heq as <- <- <- <-. destruct ref as [rid].
    repeat split. eexists; split; reflexivity.
Qed.

(** The remote calls of a submission are made in one fixed order, each at
    most once, and each only after the ones before it: signUp, the profile
    update, the referrer lookup, the referral insert. *)
Theorem remote_calls_in_order (f : Signup.form) (b : Signup.backend) :
  exists n,
    SignupCalls.calls (Signup.trace_of_submit f b)
    = firstn n [SignupCalls.CallSignUp; SignupCalls.CallProfilesUpdate;
                SignupCalls.CallProfilesLookup; SignupCalls.CallReferralsInsert].
Proof.
  submit_cases f b;
    first [ now exists 0%nat | now exists 1%nat | now exists 2%nat
          | now exists 3%nat | now exists 4%nat ].
Qed.

(** ** Instances of the properties above *)

(** In the second file user 7 moves the own KYC row to 'approved' with an
    UPDATE that has no WHERE clause; user 8 cannot. *)
Lemma kyc_update_witness :
  Statements.update ProfilesSchema Rls.KycRel Sample.accounts 7%N false
    (Sample.kyc_of_7 "pending") (Sample.kyc_of_7 "approved")
  = Statements.Completed Statements.RowUpdated
  /\ Statements.update ProfilesSchema Rls.KycRel Sample.accounts 8%N false
       (Sample.kyc_of_7 "pending") (Sample.kyc_of_7 "approved")
     <> Statements.Completed Statements.RowUpdated.
Proof.
  destruct (kyc_update_refused_or_by_owner Sample.accounts 7%N)
    as (_ & Hown & _).
  destruct (kyc_update_refused_or_by_owner Sample.accounts 8%N)
    as (_ & Hother & _).
  split.
  - apply Hown. split; reflexivity.
  - intro H. apply Hother in H. destruct H as [H _]. discriminate H.
Defined.

(** An INSERT of 100.00 that does not mention the fee. *)
Lemma default_fee_witness :
  wd_fee (Sample.withdrawal_row (Some 10000) (Some 0) (Some 10000)) = Some 0
  /\ wd_net_amount (Sample.withdrawal_row (Some 10000) (Some 0) (Some 10000))
     = wd_amount (Sample.withdrawal_row (Some 10000) (Some 0) (Some 10000))
  /\ wd_amount (Sample.withdrawal_row (Some 10000) (Some 0) (Some 10000)) <> None.
Proof.
  apply (default_fee_keeps_whole_amount UsersSchema Sample.clock0
           (Sample.insert_withdrawal (Val (Some 10000)) Dflt Dflt));
    reflexivity.
Defined.

Lemma withdrawal_status_witness :
  (forall s, wd_status (Sample.withdrawal_row (Some 10000) (Some 250) (Some 9750))
             = Some s -> In s Withdrawals.status_values)
  /\ (ProfilesSchema = UsersSchema ->
      wd_status (Sample.withdrawal_row (Some 10000) (Some 250) (Some 9750))
      <> None).
Proof.
  apply (withdrawal_status_is_declared ProfilesSchema
           [Withdrawals.INSERT Sample.clock0
              (Sample.insert_withdrawal (Val (Some 10000)) (Val (Some 250)) Dflt)]).
  left. reflexivity.
Defined.

(** User 7 requests a withdrawal with the status left out. *)
Lemma owner_default_insert_witness :
  Rls.insert_permitted (Rls.withdrawal_policies UsersSchema) Sample.accounts 7%N
    (Sample.withdrawal_row (Some 10000) (Some 0) (Some 10000)) = true.
Proof.
  apply (owner_default_insert_passes Sample.accounts 7%N Sample.clock0
           (Sample.insert_withdrawal (Val (Some 10000)) Dflt Dflt));
    reflexivity.
Defined.

Lemma summary_order_witness :
  View.admin_dashboard_summary Sample.database
  = View.admin_dashboard_summary MoreSamples.database_reordered.
Proof.
  apply summary_ignores_row_order; try apply Permutation_refl.
  apply perm_swap.
Defined.

Lemma completed_totals_witness :
  0 <= View.total_deposits (View.admin_dashboard_summary Sample.database)
  /\ 0 <= View.total_withdrawals (View.admin_dashboard_summary Sample.database)
  /\ (View.total_deposits (View.admin_dashboard_summary Sample.database) = 0 <->
      forall d, In d (View.deposits Sample.database) ->
                dep_status d <> Some "completed")
  /\ (View.total_withdrawals (View.admin_dashboard_summary Sample.database) = 0 <->
      forall w, In w (View.withdrawals Sample.database) ->
                wd_status w <> Some "completed").
Proof.
  apply completed_totals_not_negative.
  - unfold Sample.database, View.deposits.
    repeat (apply Forall_cons;
            [match goal with
             | |- exists g d0, _ = Ok ?d => exists UsersSchema, d; reflexivity
             end |]).
    apply Forall_nil.
  - unfold Sample.database, View.withdrawals, WithdrawalRows.stored.
    repeat (apply Forall_cons;
            [match goal with
             | |- exists g d0, _ = Ok ?d => exists UsersSchema, d; reflexivity
             end |]).
    apply Forall_nil.
Defined.

(** signUp rejects: the toast shows the error's message. *)
Lemma error_toast_witness :
  In (Signup.ToastError "Failed to fetch")
     (Signup.trace_of_submit (Sample.signup_form true)
        MoreSamples.signup_unreachable).
Proof.
  apply (error_toast_shows_surfaced_error (Sample.signup_form true)
           MoreSamples.signup_unreachable "Failed to fetch" eq_refl).
  exists Sample.network_down. split; reflexivity.
Defined.

(** The referral of "r1" for the new user "u9". *)
Lemma referral_insert_witness :
  50 = 50 /\ false = false
  /\ Signup.signup_succeeded
       (Sample.signup_backend MoreSamples.referrer_found Sample.fine)
       [117; 57]%N
  /\ exists found,
       Signup.profiles_lookup
         (Sample.signup_backend MoreSamples.referrer_found Sample.fine)
       = Resolved found
       /\ data found = Some {| Signup.user_id := [114; 49]%N |}.
Proof.
  apply (referral_insert_payload (Sample.signup_form true)
           (Sample.signup_backend MoreSamples.referrer_found Sample.fine)).
  cbn. auto 20.
Defined.


(** User 7 logs an own activity and an own transaction. *)
Lemma logs_witness :
  Statements.insert UsersSchema Rls.ActivityLogsRel Sample.accounts 7%N
    (MoreSamples.activity_of 7%N)
  = Statements.Completed true
  /\ Statements.insert UsersSchema Rls.TransactionsRel Sample.accounts 7%N
       (MoreSamples.transaction_of 7%N)
     = Statements.Completed true.
Proof.
  destruct (logs_are_append_only UsersSchema Sample.accounts 7%N)
    as (_ & _ & _ & Hact & Htx & _).
  split; [now apply Hact | now apply Htx].
Defined.

Lemma rows_inserted_witness :
  dep_user_id (Sample.deposit_of_7 "pending") = Some 7%N
  /\ Rls.insert_permitted (Rls.kyc_policies ProfilesSchema) Sample.accounts 7%N
       (Sample.kyc_of_7 "pending") = true.
Proof.
  destruct (rows_inserted_under_own_identity UsersSchema Sample.accounts 7%N)
    as (Hdep & _).
  destruct (rows_inserted_under_own_identity ProfilesSchema Sample.accounts 7%N)
    as (_ & _ & Hkyc & _).
  split; [apply Hdep; reflexivity | now apply Hkyc].
Defined.

(** In the second file user 7 reads the own activity entry and not that
    of user 8. *)
Lemma activity_read_witness :
  exists rows,
    Statements.select ProfilesSchema Rls.ActivityLogsRel Sample.accounts 7%N
      [MoreSamples.activity_of 7%N; MoreSamples.activity_of 8%N]
    = Statements.Completed rows
    /\ In (MoreSamples.activity_of 7%N) rows
    /\ ~ In (MoreSamples.activity_of 8%N) rows.
Proof.
  destruct (account_rows_cannot_be_read Sample.accounts 7%N)
    as (_ & _ & _ & _ & Hact).
  destruct (Hact [MoreSamples.activity_of 7%N; MoreSamples.activity_of 8%N])
    as (rows & Hrows & Hin).
  exists rows. split; [exact Hrows |]. split.
  - apply Hin. split; [simpl; tauto | reflexivity].
  - intro H. apply Hin in H. destruct H as [_ H]. discriminate H.
Defined.

(** A second KYC submission of user 7 is refused. *)
Lemma kyc_one_submission_witness :
  KycTable.step UsersSchema
    (KycTable.run UsersSchema [KycTable.INSERT (Sample.kyc_of_7 "pending")])
    (KycTable.INSERT (Sample.kyc_of_7 "under_review"))
  = KycTable.run UsersSchema [KycTable.INSERT (Sample.kyc_of_7 "pending")].
Proof.
  destruct (kyc_one_submission_per_user UsersSchema
              [KycTable.INSERT (Sample.kyc_of_7 "pending")]
              (Sample.kyc_of_7 "under_review")) as (_ & Hdup & _).
  apply Hdup. exists (Sample.kyc_of_7 "pending"). split; [left |]; reflexivity.
Defined.

Lemma second_file_accepts_witness :
  Deposits.store ProfilesSchema (Sample.deposit_of_7 "pending")
  = Ok (Sample.deposit_of_7 "pending").
Proof.
  destruct second_file_accepts_rows_of_first as (_ & Hdep & _).
  now apply Hdep.
Defined.

(** A confirmed load fetches the stats. *)
Lemma load_fetches_witness :
  In AdminDashboard.FetchStats
     (AdminDashboard.trace_of_load (Sample.dashboard_backend (Some true))).
Proof.
  destruct (load_fetches_or_redirects (Sample.dashboard_backend (Some true)))
    as (Hfetch & _).
  apply Hfetch. exists Sample.session_user. split; reflexivity.
Defined.

(** A denied load signs out. *)
Lemma sign_out_on_denial_witness :
  In AdminDashboard.AuthSignOut
     (AdminDashboard.trace_of_load (Sample.dashboard_backend (Some false))).
Proof.
  destruct (toast_and_sign_out_exactly_on_denial
              (Sample.dashboard_backend (Some false))) as (Hout & _).
  apply Hout. exists Sample.session_user, (Some false).
  repeat split. discriminate.
Defined.

(** With a session user the role check is made for that user. *)
Lemma role_check_witness :
  In (AdminDashboard.RpcHasRole [117; 55]%N "admin")
     (AdminDashboard.trace_of_load (Sample.dashboard_backend None)).
Proof.
  apply (role_check_needs_a_user (Sample.dashboard_backend None)).
  exists Sample.session_user. repeat split.
Defined.

(** The investments query rejects: the tiles keep their values. *)
Lemma fetch_stats_witness :
  AdminStats.stats_after AdminStats.initial_stats
    (MoreSamples.stats_backend (Resolved None))
  = AdminStats.stats_of (Some 3%N) None None (Some 2%N) (Some 1%N) (Some 1%N)
  /\ AdminStats.stats_after AdminStats.initial_stats
       (MoreSamples.stats_backend (Rejected Sample.network_down))
     = AdminStats.initial_stats.
Proof.
  destruct (fetch_stats_all_or_nothing (MoreSamples.stats_backend (Resolved None))
              AdminStats.initial_stats) as (_ & Hall & _).
  destruct (fetch_stats_all_or_nothing
              (MoreSamples.stats_backend (Rejected Sample.network_down))
              AdminStats.initial_stats) as (_ & _ & Hnone).
  split.
  - now apply Hall.
  - apply Hnone. intros (u & d & i & pd & pw & pk & _ & _ & Hi & _).
    discriminate Hi.
Defined.

(** Clicking 'Users' and then 'KYC' leaves the KYC tab showing. *)
Lemma one_tab_witness :
  (exists t, AdminTabs.tab_content
               (AdminTabs.active_after
                  [MoreSamples.users_button; MoreSamples.kyc_button]) = [t])
  /\ AdminTabs.tab_content "reports" = [].
Proof.
  destruct (one_tab_at_a_time [MoreSamples.users_button; MoreSamples.kyc_button]
              "reports") as (Hclicks & Hother).
  split.
  - apply Hclicks. repeat constructor; simpl; tauto.
  - apply Hother. simpl. intuition discriminate.
Defined.

(** A submission whose signUp rejects still re-enables the button. *)
Lemma submit_resets_witness :
  exists mid,
    Signup.trace_of_submit (Sample.signup_form true)
      MoreSamples.signup_unreachable
    = Signup.PreventDefault :: Signup.SetLoading true
        :: mid ++ [Signup.SetLoading false]
    /\ existsb SignupCalls.is_set_loading mid = false.
Proof.
  destruct (submit_always_resets_loading (Sample.signup_form true)
              MoreSamples.signup_unreachable) as (_ & Hreset & _).
  now apply Hreset.
Defined.

(** A submission whose signUp rejects does not navigate to the login. *)
Lemma success_reported_witness :
  ~ In (Signup.Navigate "/login")
       (Signup.trace_of_submit (Sample.signup_form true)
          MoreSamples.signup_unreachable).
Proof.
  destruct (success_reported_iff_account_set_up (Sample.signup_form true)
              MoreSamples.signup_unreachable) as (_ & Hnav).
  intro H. apply (Hnav "/login") in H.
  destruct H as (_ & _ & uid & upd & Hs & _). discriminate Hs.
Defined.

(** The code "AB12" of the form is looked up. *)
Lemma referrer_lookup_witness :
  In (Signup.ProfilesLookup [65; 66; 49; 50]%N)
     (Signup.trace_of_submit (Sample.signup_form true)
        (Sample.signup_backend Sample.fine Sample.fine)).
Proof.
  apply (referrer_lookup_iff_code_given (Sample.signup_form true)
           (Sample.signup_backend Sample.fine Sample.fine)).
  split; [reflexivity |]. split; [reflexivity |].
  split; [reflexivity |].
  exists [117; 57]%N, {| data := None; error := None |}.
  split; reflexivity.
Defined.
